(** * Printer control panel: state-gated controls and the confirmation handshake

    A shallow embedding of the control components of the frontend
    (FanControls, LightToggle, SpeedControl, AMSPanel, MovementControls,
    TemperaturePanel) as pure functions of the latest status snapshot, the
    flags reported by the mutation hooks and the local component state.

    Conventions.
    - JavaScript numbers that the components handle are integers
      (temperatures in degrees, distances in mm, ids); they are modelled in
      [Z]. A number of the program is a double: where the code prints,
      divides or parses back a number that has no bound of its own, the
      embedding follows it on the safe integers (below 2^53 in absolute
      value) and says so, and a sum or product that can leave them is
      rounded as a double is ([JsNumber]).
    - [status : PrinterStatus | null | undefined] is [option PrinterStatus].
    - A [useMutation] hook is outside the components: its [isPending] flag is
      an input of the render function, a call of [mutate] is an emitted
      [Request], and its [onSuccess] callback is an event of the component.

    The second part embeds what surrounds these components: the tray buttons
    and [hexToRgb] of AMSPanel, [formatTime] of PrintStatus, the stored
    state of FanControls and LightToggle, the selection of the printer in
    ControlPage, CameraFeed, the print dialog with its printer selector, the
    currency symbols and the context menu. A timer started with
    [setTimeout] is an event of its own. *)

From stdpp Require Import base strings gmap list.
From Stdlib Require Import ZArith Lia Ascii DecimalPos DecimalZ DecimalString
  DecimalNat.

Open Scope Z_scope.
Open Scope string_scope.

(** ** Values of the status object *)

(** [raw_data] is untyped MQTT data ([unknown] in the source): a JSON value. *)
#[local] Unset Elimination Schemes.
Inductive JsVal : Type :=
| JUndefined
| JNull
| JBool (b : bool)
| JNum (n : Z)
| JStr (s : string)
| JArr (items : list JsVal)
| JObj (fields : list (string * JsVal)).
#[local] Set Elimination Schemes.

(** interface Temperatures (TemperaturePanel): every field is optional. *)
Record Temperatures : Type := {
  bed : option Z;
  bed_target : option Z;
  nozzle : option Z;
  nozzle_target : option Z;
  nozzle_2 : option Z;
  nozzle_2_target : option Z;
  chamber : option Z
}.

(** The fields of [PrinterStatus] (declared in api/client) that the control
    components read. *)
Record PrinterStatus : Type := {
  connected : bool;
  state : option string;
  temperatures : option Temperatures;
  raw_data : JsVal
}.

(** The same snapshot reporting another operational state. *)
Definition with_state (s : PrinterStatus) (st : option string) : PrinterStatus :=
  {| connected := connected s; state := st; temperatures := temperatures s;
     raw_data := raw_data s |}.

(** [status?.connected ?? false] *)
Definition isConnected (status : option PrinterStatus) : bool :=
  match status with
  | Some s => connected s
  | None => false
  end.

(** [status?.state === lit] *)
Definition state_is (status : option PrinterStatus) (lit : string) : bool :=
  match status with
  | Some s =>
      match state s with
      | Some x => String.eqb x lit
      | None => false
      end
  | None => false
  end.

(** ** Calls of the REST client

    One constructor per [api.*] function the components call; the optional
    last argument [token] of the confirmable calls is [confirm_token].
    [stopPrint] is the stop command of PrintControls.tsx, a component that is
    not among the sources; it only occurs in requests handed to the executor. *)
Inductive Command : Type :=
| homeAxes (axes : string)
| moveAxis (axis : string) (distance speed : Z)
| disableMotors
| setBedTemperature (target : Z)
| setNozzleTemperature (target nozzle : Z)
| setPrintSpeed (mode : Z)
| setPartFan (speed : Z)
| setAuxFan (speed : Z)
| setChamberFan (speed : Z)
| setChamberLight (on : bool)
| amsLoadFilament (trayId : Z)
| amsUnloadFilament
| stopPrint.

Record Request : Type := {
  printerId : Z;
  command : Command;
  confirm_token : option string
}.

(** Modelled from the spec: the result type of api/client is not among the
    sources. A mutation resolves to a plain result or to the confirmation
    shape [{ requires_confirmation: true, token, warning }] of section 6. *)
Inductive ApiResult : Type :=
| Plain
| ConfirmationRequired (token warning : string).

(** Modelled from the spec: [isConfirmationRequired] of api/client is not
    among the sources; the presence of [requires_confirmation] is the
    discriminator (section 4.2). *)
Definition isConfirmationRequired (r : ApiResult) : bool :=
  match r with
  | ConfirmationRequired _ _ => true
  | Plain => false
  end.

(** The request carries the token [t] as its [confirm_token]. *)
Definition carries (t : string) (r : Request) : bool :=
  match confirm_token r with
  | Some t' => String.eqb t' t
  | None => false
  end.

(** ** FanControls.tsx *)
Module FanControls.

Inductive Fan : Type := Part | Aux | Chamber.

(** [disabled={!isConnected}] on each of the three sliders. *)
Definition disabled (status : option PrinterStatus) (f : Fan) : bool :=
  negb (isConnected status).

Definition mutate (pid : Z) (f : Fan) (v : Z) : Request :=
  {| printerId := pid;
     command := match f with
                | Part => setPartFan v
                | Aux => setAuxFan v
                | Chamber => setChamberFan v
                end;
     confirm_token := None |}.

(** The release of the mouse on a slider. A disabled range input receives
    no mouse events; on an enabled one FanSlider.handleMouseUp runs:
    [if (localValue !== value) onChange(localValue)]. (The touch events of
    the same input are events of [FanPanel].) *)
Definition handleMouseUp (pid : Z) (status : option PrinterStatus)
    (f : Fan) (value localValue : Z) : list Request :=
  if disabled status f then []
  else if Z.eqb localValue value then []
  else [mutate pid f localValue].

End FanControls.

(** ** LightToggle.tsx *)
Module LightToggle.

(** [disabled={!isConnected || lightMutation.isPending}] *)
Definition disabled (status : option PrinterStatus) (isPending : bool) : bool :=
  negb (isConnected status) || isPending.

(** handleToggle: [lightMutation.mutate(!isOn)] *)
Definition handleToggle (pid : Z) (status : option PrinterStatus)
    (isPending isOn : bool) : list Request :=
  if disabled status isPending then []
  else [{| printerId := pid; command := setChamberLight (negb isOn);
           confirm_token := None |}].

End LightToggle.

(** ** SpeedControl.tsx *)
Module SpeedControl.

Definition isPrinting (status : option PrinterStatus) : bool :=
  state_is status "RUNNING".

(** [disabled={!isConnected || !isPrinting || speedMutation.isPending}] *)
Definition disabled (status : option PrinterStatus) (isPending : bool) : bool :=
  negb (isConnected status) || negb (isPrinting status) || isPending.

Definition onClick (pid : Z) (status : option PrinterStatus)
    (isPending : bool) (mode : Z) : list Request :=
  if disabled status isPending then []
  else [{| printerId := pid; command := setPrintSpeed mode;
           confirm_token := None |}].

End SpeedControl.

(** ** AMSPanel.tsx *)

(** *** The JavaScript operators that [parseAMSData] uses *)
Module Js.

(** [v === null || v === undefined]: the values that [??] and [?.] replace. *)
Definition nullish (v : JsVal) : bool :=
  match v with
  | JUndefined | JNull => true
  | _ => false
  end.

(** Truthiness, as [!v] tests it. *)
Definition truthy (v : JsVal) : bool :=
  match v with
  | JUndefined | JNull => false
  | JBool b => b
  | JNum n => negb (Z.eqb n 0)
  | JStr s => negb (String.eqb s "")
  | JArr _ | JObj _ => true
  end.

(** Own property of an object literal; an absent key reads [undefined]. *)
Fixpoint assoc (k : string) (fields : list (string * JsVal)) : JsVal :=
  match fields with
  | [] => JUndefined
  | (k', v) :: rest => if String.eqb k' k then v else assoc k rest
  end.

(** [v.k]: a TypeError ([None]) on null and undefined; primitives and arrays
    have none of the property names that the parser reads. *)
Definition prop (v : JsVal) (k : string) : option JsVal :=
  match v with
  | JUndefined | JNull => None
  | JObj fields => Some (assoc k fields)
  | _ => Some JUndefined
  end.

(** [v?.k] *)
Definition prop_opt (v : JsVal) (k : string) : JsVal :=
  match prop v k with
  | Some x => x
  | None => JUndefined
  end.

(** [a ?? d] *)
Definition coalesce (a d : JsVal) : JsVal :=
  if nullish a then d else a.

(** [v.map(f)]: only an array has a callable [map]; on any other value the
    call throws a TypeError, and an exception of [f] propagates. *)
Definition array_map {B : Type} (f : JsVal -> option B) (v : JsVal)
    : option (list B) :=
  match v with
  | JArr items => mapM f items
  | _ => None
  end.

End Js.

Module AMSTray.
Record t : Type := {
  id : JsVal;
  color : JsVal;
  type : JsVal;
  remain : JsVal;
  active : bool
}.
End AMSTray.

Module AMSUnit.
Record t : Type := {
  id : JsVal;
  trays : list AMSTray.t
}.
End AMSUnit.

Module AMSPanel.

(** The callback of the inner [map]. *)
Definition parseTray (tray : JsVal) : option AMSTray.t :=
  i ← Js.prop tray "id";
  c ← Js.prop tray "tray_color";
  ty ← Js.prop tray "tray_type";
  r ← Js.prop tray "remain";
  Some {| AMSTray.id := Js.coalesce i (JNum 0);
          AMSTray.color := Js.coalesce c (JStr "FFFFFF");
          AMSTray.type := Js.coalesce ty (JStr "Unknown");
          AMSTray.remain := Js.coalesce r (JNum 0);
          AMSTray.active := false |}.

(** The callback of the outer [map]. *)
Definition parseUnit (unit : JsVal) : option AMSUnit.t :=
  i ← Js.prop unit "id";
  tr ← Js.prop unit "tray";
  ts ← Js.array_map parseTray (Js.coalesce tr (JArr []));
  Some {| AMSUnit.id := Js.coalesce i (JNum 0); AMSUnit.trays := ts |}.

Definition parseAMSData (status : option PrinterStatus) : list AMSUnit.t :=
  let rawData := match status with
                 | Some s => raw_data s
                 | None => JUndefined
                 end in
  let ams := Js.prop_opt rawData "ams" in
  if negb (Js.truthy ams) then []
  else
    (* try { return ams.map(...) } catch { return [] } *)
    match Js.array_map parseUnit ams with
    | Some units => units
    | None => []
    end.

Definition isPrinting (status : option PrinterStatus) : bool :=
  state_is status "RUNNING".

(** [loadMutation.isPending || unloadMutation.isPending] *)
Definition isLoading (loadPending unloadPending : bool) : bool :=
  loadPending || unloadPending.

(** Load: [!isConnected || isPrinting || selectedTray === null || isLoading] *)
Definition load_disabled (status : option PrinterStatus)
    (selectedTray : option Z) (loadPending unloadPending : bool) : bool :=
  negb (isConnected status) || isPrinting status
  || match selectedTray with None => true | Some _ => false end
  || isLoading loadPending unloadPending.

(** Unload: [!isConnected || isPrinting || isLoading] *)
Definition unload_disabled (status : option PrinterStatus)
    (loadPending unloadPending : bool) : bool :=
  negb (isConnected status) || isPrinting status
  || isLoading loadPending unloadPending.

(** The panel returns early, without the Load and Unload buttons, when no
    unit was parsed. *)
Definition controls_rendered (status : option PrinterStatus) : bool :=
  match parseAMSData status with
  | [] => false
  | _ :: _ => true
  end.

Definition handleLoad (pid : Z) (status : option PrinterStatus)
    (selectedTray : option Z) (loadPending unloadPending : bool)
    : list Request :=
  if negb (controls_rendered status)
     || load_disabled status selectedTray loadPending unloadPending
  then []
  else match selectedTray with
       | Some tray => [{| printerId := pid; command := amsLoadFilament tray;
                          confirm_token := None |}]
       | None => []
       end.

Definition handleUnload (pid : Z) (status : option PrinterStatus)
    (loadPending unloadPending : bool) : list Request :=
  if negb (controls_rendered status)
     || unload_disabled status loadPending unloadPending
  then []
  else [{| printerId := pid; command := amsUnloadFilament;
           confirm_token := None |}].

(** Every field of a parsed tray holds a value and [active] is false. *)
Definition populated_tray (t : AMSTray.t) : bool :=
  negb (Js.nullish (AMSTray.id t)) && negb (Js.nullish (AMSTray.color t))
  && negb (Js.nullish (AMSTray.type t)) && negb (Js.nullish (AMSTray.remain t))
  && negb (AMSTray.active t).

Definition populated_unit (u : AMSUnit.t) : bool :=
  negb (Js.nullish (AMSUnit.id u)) && forallb populated_tray (AMSUnit.trays u).

Definition is_object (v : JsVal) : bool :=
  match v with
  | JObj _ => true
  | _ => false
  end.

(** An element of [ams] of the shape that the cast in [parseAMSData] declares:
    an object whose [tray], when present, is an array of objects. *)
Definition unit_shaped (v : JsVal) : bool :=
  match v with
  | JObj fields =>
      match Js.coalesce (Js.assoc "tray" fields) (JArr []) with
      | JArr ts => forallb is_object ts
      | _ => false
      end
  | _ => false
  end.

(** The tray that the parser builds from an object without any field. *)
Definition default_tray : AMSTray.t :=
  {| AMSTray.id := JNum 0; AMSTray.color := JStr "FFFFFF";
     AMSTray.type := JStr "Unknown"; AMSTray.remain := JNum 0;
     AMSTray.active := false |}.

(** *** What the parser is expected to return

    The following definitions do not come from the code: they write down
    the result that the description of [parseAMSData] promises, each field
    with its default, to be compared with the parser. *)

(** The value of field [k], or [d] when the field is missing: absent, null
    or undefined. *)
Definition field_or (d : JsVal) (fields : list (string * JsVal)) (k : string)
    : JsVal :=
  match Js.assoc k fields with
  | JUndefined | JNull => d
  | v => v
  end.

(** The tray expected for an element of [tray]: tray id 0, color 'FFFFFF',
    type 'Unknown', remain 0, active false, unless the element is an object
    that says otherwise. *)
Definition expected_tray (v : JsVal) : AMSTray.t :=
  match v with
  | JObj fields =>
      {| AMSTray.id := field_or (JNum 0) fields "id";
         AMSTray.color := field_or (JStr "FFFFFF") fields "tray_color";
         AMSTray.type := field_or (JStr "Unknown") fields "tray_type";
         AMSTray.remain := field_or (JNum 0) fields "remain";
         AMSTray.active := false |}
  | _ => default_tray
  end.

(** The unit expected for an element of [ams]: unit id 0 and no tray, unless
    the element is an object that says otherwise. *)
Definition expected_unit (v : JsVal) : AMSUnit.t :=
  match v with
  | JObj fields =>
      {| AMSUnit.id := field_or (JNum 0) fields "id";
         AMSUnit.trays :=
           match Js.assoc "tray" fields with
           | JArr trays => map expected_tray trays
           | _ => []
           end |}
  | _ => {| AMSUnit.id := JNum 0; AMSUnit.trays := [] |}
  end.

(** The elements of [ams] that can be read: neither null nor undefined,
    with a [tray] that is missing or an array without a null or undefined
    element. *)
Definition readable_unit (v : JsVal) : bool :=
  match v with
  | JUndefined | JNull => false
  | JObj fields =>
      match Js.assoc "tray" fields with
      | JUndefined | JNull => true
      | JArr trays => forallb (fun t => negb (Js.nullish t)) trays
      | _ => false
      end
  | _ => true
  end.

(** The expected result: the expected units of an [ams] array all of whose
    elements can be read, and the empty list in every other case. *)
Definition expected_units (status : option PrinterStatus) : list AMSUnit.t :=
  match status with
  | Some s =>
      match Js.prop_opt (raw_data s) "ams" with
      | JArr items =>
          if forallb readable_unit items then map expected_unit items else []
      | _ => []
      end
  | None => []
  end.

End AMSPanel.


(** ** MovementControls.tsx *)
Module MovementControls.

(** What the component reads at render time: its props and the [isPending]
    flags of its three mutation hooks. *)
Record Env : Type := {
  pid : Z;
  status : option PrinterStatus;
  homePending : bool;
  movePending : bool;
  disableMotorsPending : bool
}.

(** What [confirmModal] holds. The closure [onConfirm] performs one call of
    [mutate] with the variables it captured; the hook resolves [printerId]
    when the call is made, so the closure maps the environment of the call
    to the request that is sent. *)
Record ConfirmModalState : Type := {
  action : string;
  token : string;
  warning : string;
  onConfirm : Env -> Request
}.

(** The component's [useState] cells. *)
Record State : Type := {
  confirmModal : option ConfirmModalState;
  moveDistance : Z
}.

(** [useState(null)] and [useState(10)] *)
Definition initial : State := {| confirmModal := None; moveDistance := 10 |}.

Definition isPrinting (e : Env) : bool :=
  state_is (status e) "RUNNING" || state_is (status e) "PAUSE".

Definition isLoading (e : Env) : bool :=
  homePending e || movePending e || disableMotorsPending e.

(** The attribute of the six jog buttons, of Home and of Disable Motors:
    [disabled={!isConnected || isLoading}]. *)
Definition disabled (e : Env) : bool :=
  negb (isConnected (status e)) || isLoading e.

(** The banner "Movement is restricted during printing" is the only use of
    [isPrinting]. *)
Definition restricted_banner (e : Env) : bool := isPrinting e.

(** The [mutationFn] of the three hooks. *)
Definition homeMutation (e : Env) (axes : string) (tok : option string) : Request :=
  {| printerId := pid e; command := homeAxes axes; confirm_token := tok |}.

Definition moveMutation (e : Env) (axis : string) (distance : Z)
    (tok : option string) : Request :=
  {| printerId := pid e; command := moveAxis axis distance 3000;
     confirm_token := tok |}.

Definition disableMotorsMutation (e : Env) (tok : option string) : Request :=
  {| printerId := pid e; command := disableMotors; confirm_token := tok |}.

Inductive Event : Type :=
| ClickDistance (d : Z)
| ClickMove (axis : string) (negative : bool)
| ClickHome
| ClickDisableMotors
| ClickConfirm
| ClickCancel
| HomeSuccess (result : ApiResult) (axes : string)
| MoveSuccess (result : ApiResult) (axis : string) (distance : Z)
| DisableMotorsSuccess (result : ApiResult).

Definition setConfirmModal (st : State) (m : option ConfirmModalState) : State :=
  {| confirmModal := m; moveDistance := moveDistance st |}.

Definition setMoveDistance (st : State) (d : Z) : State :=
  {| confirmModal := confirmModal st; moveDistance := d |}.

(** The three [onSuccess] callbacks: [if (isConfirmationRequired(result))
    setConfirmModal({ action, token, warning, onConfirm })]. The closure of
    home resubmits 'XYZ'; the one of move resubmits [variables.axis] and
    [variables.distance]. *)
Definition homeMutation_onSuccess (st : State) (result : ApiResult) : State :=
  match result with
  | ConfirmationRequired tok warn =>
      setConfirmModal st
        (Some {| action := "home"; token := tok; warning := warn;
                 onConfirm := fun e => homeMutation e "XYZ" (Some tok) |})
  | Plain => st
  end.

Definition moveMutation_onSuccess (st : State) (result : ApiResult)
    (axis : string) (distance : Z) : State :=
  match result with
  | ConfirmationRequired tok warn =>
      setConfirmModal st
        (Some {| action := "move"; token := tok; warning := warn;
                 onConfirm := fun e => moveMutation e axis distance (Some tok) |})
  | Plain => st
  end.

Definition disableMotorsMutation_onSuccess (st : State) (result : ApiResult)
    : State :=
  match result with
  | ConfirmationRequired tok warn =>
      setConfirmModal st
        (Some {| action := "disable"; token := tok; warning := warn;
                 onConfirm := fun e => disableMotorsMutation e (Some tok) |})
  | Plain => st
  end.

(** [homeMutation.mutate({ axes: 'XYZ' })] *)
Definition handleHome (e : Env) : list Request := [homeMutation e "XYZ" None].

(** [moveMutation.mutate({ axis, distance })] *)
Definition handleMove (e : Env) (axis : string) (distance : Z) : list Request :=
  [moveMutation e axis distance None].

(** [disableMotorsMutation.mutate(undefined)] *)
Definition handleDisableMotors (e : Env) : list Request :=
  [disableMotorsMutation e None].

(** [if (confirmModal) { confirmModal.onConfirm(); setConfirmModal(null); }] *)
Definition handleConfirm (e : Env) (st : State) : State * list Request :=
  match confirmModal st with
  | Some m => (setConfirmModal st None, [onConfirm m e])
  | None => (st, [])
  end.

(** One event of the component: the next state and the calls of [mutate].
    A click on a disabled button does nothing. *)
Definition step (e : Env) (st : State) (ev : Event) : State * list Request :=
  match ev with
  | ClickDistance d =>
      (* the selector offers [1, 10, 50] *)
      if existsb (Z.eqb d) [1; 10; 50]
      then (setMoveDistance st d, [])
      else (st, [])
  | ClickMove axis negative =>
      (* the jog buttons: X, Y and Z, by +moveDistance or -moveDistance *)
      if disabled e || negb (existsb (String.eqb axis) ["X"; "Y"; "Z"])
      then (st, [])
      else (st, handleMove e axis
                  (if negative then - moveDistance st else moveDistance st))
  | ClickHome =>
      if disabled e then (st, []) else (st, handleHome e)
  | ClickDisableMotors =>
      if disabled e then (st, []) else (st, handleDisableMotors e)
  | ClickConfirm => handleConfirm e st
  | ClickCancel =>
      (* onCancel={() => setConfirmModal(null)} *)
      (setConfirmModal st None, [])
  | HomeSuccess result _ => (homeMutation_onSuccess st result, [])
  | MoveSuccess result axis distance =>
      (moveMutation_onSuccess st result axis distance, [])
  | DisableMotorsSuccess result => (disableMotorsMutation_onSuccess st result, [])
  end.

(** A run: each event is handled under the environment of its render. *)
Fixpoint run (st : State) (evs : list (Env * Event)) : State * list Request :=
  match evs with
  | [] => (st, [])
  | (e, ev) :: rest =>
      let '(st1, out1) := step e st ev in
      let '(st2, out2) := run st1 rest in
      (st2, (out1 ++ out2)%list)
  end.

(** The [onSuccess] callback that runs when the call [r] of one of the three
    hooks resolves to [result]: the hook passes the variables of the call of
    [mutate] that sent [r]. *)
Definition onSuccess (r : Request) (result : ApiResult) : option Event :=
  match command r with
  | homeAxes axes => Some (HomeSuccess result axes)
  | moveAxis axis distance _ => Some (MoveSuccess result axis distance)
  | disableMotors => Some (DisableMotorsSuccess result)
  | _ => None
  end.

(** The event hands the token [t] to the component. *)
Definition delivers (t : string) (ev : Event) : bool :=
  match ev with
  | HomeSuccess (ConfirmationRequired tok _) _
  | MoveSuccess (ConfirmationRequired tok _) _ _
  | DisableMotorsSuccess (ConfirmationRequired tok _) => String.eqb tok t
  | _ => false
  end.

(** The dialog state holds nothing that would send token [t]. *)
Definition forgotten (t : string) (st : State) : Prop :=
  forall m, confirmModal st = Some m -> forall e, carries t (onConfirm m e) = false.

(** The events that come from the user; the others are answers of the
    executor. *)
Definition user_event (ev : Event) : bool :=
  match ev with
  | HomeSuccess _ _ | MoveSuccess _ _ _ | DisableMotorsSuccess _ => false
  | _ => true
  end.

(** The three clicks that start a command. *)
Definition starts_command (ev : Event) : bool :=
  match ev with
  | ClickMove _ _ | ClickHome | ClickDisableMotors => true
  | _ => false
  end.

End MovementControls.

(** ** TemperaturePanel.tsx *)
Module TemperaturePanel.

Inductive HeaterType : Type := Bed | Nozzle.

Record ConfirmModalState : Type := {
  type : HeaterType;
  target : Z;
  nozzle : option Z;
  token : string;
  warning : string
}.

Record State : Type := { confirmModal : option ConfirmModalState }.

Definition initial : State := {| confirmModal := None |}.

Record Env : Type := {
  pid : Z;
  status : option PrinterStatus;
  nozzleCount : Z;
  bedPending : bool;
  nozzlePending : bool
}.

Record TempPreset : Type := { name : string; preset_bed : Z; preset_nozzle : Z }.

Definition PRESETS : list TempPreset :=
  [ {| name := "Off"; preset_bed := 0; preset_nozzle := 0 |};
    {| name := "PLA"; preset_bed := 55; preset_nozzle := 220 |};
    {| name := "PETG"; preset_bed := 70; preset_nozzle := 250 |};
    {| name := "ABS"; preset_bed := 90; preset_nozzle := 260 |};
    {| name := "TPU"; preset_bed := 50; preset_nozzle := 230 |} ].

(** [(status?.temperatures ?? {}) as Temperatures] *)
Definition temps (e : Env) : Temperatures :=
  match status e with
  | Some s =>
      match temperatures s with
      | Some t => t
      | None => Build_Temperatures None None None None None None None
      end
  | None => Build_Temperatures None None None None None None None
  end.

Definition bedMutation (e : Env) (tgt : Z) (tok : option string) : Request :=
  {| printerId := pid e; command := setBedTemperature tgt; confirm_token := tok |}.

Definition nozzleMutation (e : Env) (tgt noz : Z) (tok : option string) : Request :=
  {| printerId := pid e; command := setNozzleTemperature tgt noz;
     confirm_token := tok |}.

(** Preset buttons: [disabled={!isConnected}] *)
Definition preset_disabled (e : Env) : bool := negb (isConnected (status e)).

(** Bed +/-: [disabled={!isConnected || bedMutation.isPending}] *)
Definition bed_disabled (e : Env) : bool :=
  negb (isConnected (status e)) || bedPending e.

(** Nozzle +/-: [disabled={!isConnected || nozzleMutation.isPending}] *)
Definition nozzle_disabled (e : Env) : bool :=
  negb (isConnected (status e)) || nozzlePending e.

(** The nozzle rows that are rendered: [[0, ...(nozzleCount > 1 ? [1] : [])]] *)
Definition nozzles (e : Env) : list Z :=
  0 :: (if Z.ltb 1 (nozzleCount e) then [1] else []).

Definition handlePreset (e : Env) (p : TempPreset) : list Request :=
  bedMutation e (preset_bed p) None
  :: nozzleMutation e (preset_nozzle p) 0 None
  :: (if Z.ltb 1 (nozzleCount e)
      then [nozzleMutation e (preset_nozzle p) 1 None]
      else []).

Definition currentTarget (e : Env) (ty : HeaterType) (noz : Z) : Z :=
  match ty with
  | Bed => default 0 (bed_target (temps e))
  | Nozzle =>
      if Z.eqb noz 0
      then default 0 (nozzle_target (temps e))
      else default 0 (nozzle_2_target (temps e))
  end.

(** [Math.max(0, Math.min(type === 'bed' ? 120 : 300, currentTarget + delta))] *)
Definition newTarget (e : Env) (ty : HeaterType) (delta noz : Z) : Z :=
  Z.max 0 (Z.min (match ty with Bed => 120 | Nozzle => 300 end)
                 (currentTarget e ty noz + delta)).

Definition adjustTemp (e : Env) (ty : HeaterType) (delta noz : Z) : list Request :=
  match ty with
  | Bed => [bedMutation e (newTarget e ty delta noz) None]
  | Nozzle => [nozzleMutation e (newTarget e ty delta noz) noz None]
  end.

Inductive Event : Type :=
| ClickPreset (p : TempPreset)
| ClickBed (plus : bool)
| ClickNozzle (plus : bool) (noz : Z)
| ClickConfirm
| ClickCancel
| BedSuccess (result : ApiResult) (tgt : Z)
| NozzleSuccess (result : ApiResult) (tgt noz : Z).

(** The two [onSuccess] callbacks: [if (isConfirmationRequired(result))
    setConfirmModal({ type, target: variables.target, ... })]. *)
Definition bedMutation_onSuccess (st : State) (result : ApiResult) (tgt : Z)
    : State :=
  match result with
  | ConfirmationRequired tok warn =>
      {| confirmModal :=
           Some {| type := Bed; target := tgt; nozzle := None;
                   token := tok; warning := warn |} |}
  | Plain => st
  end.

Definition nozzleMutation_onSuccess (st : State) (result : ApiResult)
    (tgt noz : Z) : State :=
  match result with
  | ConfirmationRequired tok warn =>
      {| confirmModal :=
           Some {| type := Nozzle; target := tgt; nozzle := Some noz;
                   token := tok; warning := warn |} |}
  | Plain => st
  end.

(** [if (confirmModal) { ...mutate({ target, (nozzle ?? 0,) token });
    setConfirmModal(null); }] *)
Definition handleConfirm (e : Env) (st : State) : State * list Request :=
  match confirmModal st with
  | Some m =>
      ({| confirmModal := None |},
       match type m with
       | Bed => [bedMutation e (target m) (Some (token m))]
       | Nozzle => [nozzleMutation e (target m) (default 0 (nozzle m))
                      (Some (token m))]
       end)
  | None => (st, [])
  end.

(** One event of the component: the next state and the calls of [mutate].
    A click on a disabled button does nothing. *)
Definition step (e : Env) (st : State) (ev : Event) : State * list Request :=
  match ev with
  | ClickPreset p =>
      (* one button per element of PRESETS *)
      if preset_disabled e then (st, [])
      else if existsb (fun q => String.eqb (name q) (name p)
                                && Z.eqb (preset_bed q) (preset_bed p)
                                && Z.eqb (preset_nozzle q) (preset_nozzle p)) PRESETS
           then (st, handlePreset e p)
           else (st, [])
  | ClickBed plus =>
      (* adjustTemp('bed', +-5) with the default [nozzle = 0] *)
      if bed_disabled e then (st, [])
      else (st, adjustTemp e Bed (if plus then 5 else -5) 0)
  | ClickNozzle plus noz =>
      (* adjustTemp('nozzle', +-5, nozzle) on a rendered nozzle row *)
      if nozzle_disabled e then (st, [])
      else if existsb (Z.eqb noz) (nozzles e)
           then (st, adjustTemp e Nozzle (if plus then 5 else -5) noz)
           else (st, [])
  | ClickConfirm => handleConfirm e st
  | ClickCancel =>
      (* onCancel={() => setConfirmModal(null)} *)
      ({| confirmModal := None |}, [])
  | BedSuccess result tgt => (bedMutation_onSuccess st result tgt, [])
  | NozzleSuccess result tgt noz =>
      (nozzleMutation_onSuccess st result tgt noz, [])
  end.

Fixpoint run (st : State) (evs : list (Env * Event)) : State * list Request :=
  match evs with
  | [] => (st, [])
  | (e, ev) :: rest =>
      let '(st1, out1) := step e st ev in
      let '(st2, out2) := run st1 rest in
      (st2, (out1 ++ out2)%list)
  end.

(** The target of a temperature request lies within the limits of its
    heater: 0 to 120 for the bed, 0 to 300 for a nozzle. *)
Definition within_limits (r : Request) : bool :=
  match command r with
  | setBedTemperature t => Z.leb 0 t && Z.leb t 120
  | setNozzleTemperature t _ => Z.leb 0 t && Z.leb t 300
  | _ => false
  end.

(** The [onSuccess] callback that runs when the call [r] of one of the two
    hooks resolves to [result], with the variables of the call that sent
    [r]. *)
Definition onSuccess (r : Request) (result : ApiResult) : option Event :=
  match command r with
  | setBedTemperature tgt => Some (BedSuccess result tgt)
  | setNozzleTemperature tgt noz => Some (NozzleSuccess result tgt noz)
  | _ => None
  end.

(** The dialog state does not hold token [t]. *)
Definition forgotten (t : string) (st : State) : Prop :=
  forall m, confirmModal st = Some m -> String.eqb (token m) t = false.

(** The clicks that start a command. *)
Definition starts_command (ev : Event) : bool :=
  match ev with
  | ClickPreset _ | ClickBed _ | ClickNozzle _ _ => true
  | _ => false
  end.

(** The event hands the token [t] to the component. *)
Definition delivers (t : string) (ev : Event) : bool :=
  match ev with
  | BedSuccess (ConfirmationRequired tok _) _
  | NozzleSuccess (ConfirmationRequired tok _) _ _ => String.eqb tok t
  | _ => false
  end.

End TemperaturePanel.


(** ** ControlPage.tsx: the panels side by side

    The page hands the same [status] snapshot to every panel. A [View] is
    everything the panels read when they render. *)
Module ControlPage.

Record View : Type := {
  pid : Z;
  status : option PrinterStatus;
  nozzleCount : Z;
  homePending : bool;
  movePending : bool;
  disableMotorsPending : bool;
  bedPending : bool;
  nozzlePending : bool;
  speedPending : bool;
  lightPending : bool;
  loadPending : bool;
  unloadPending : bool;
  selectedTray : option Z;
  isOn : bool;
  fanValues : FanControls.Fan -> Z;
  movement : MovementControls.State;
  temperature : TemperaturePanel.State
}.

Definition movement_env (v : View) : MovementControls.Env :=
  {| MovementControls.pid := pid v;
     MovementControls.status := status v;
     MovementControls.homePending := homePending v;
     MovementControls.movePending := movePending v;
     MovementControls.disableMotorsPending := disableMotorsPending v |}.

Definition temperature_env (v : View) : TemperaturePanel.Env :=
  {| TemperaturePanel.pid := pid v;
     TemperaturePanel.status := status v;
     TemperaturePanel.nozzleCount := nozzleCount v;
     TemperaturePanel.bedPending := bedPending v;
     TemperaturePanel.nozzlePending := nozzlePending v |}.

(** The controls of the panels that start a command when they are used:
    the buttons when they are clicked, a fan slider when the mouse is
    released on it. *)
Inductive Control : Type :=
| FanSlider (f : FanControls.Fan) (localValue : Z)
| LightButton
| SpeedButton (mode : Z)
| AmsLoadButton
| AmsUnloadButton
| MoveButton (axis : string) (negative : bool)
| HomeButton
| DisableMotorsButton
| PresetButton (p : TemperaturePanel.TempPreset)
| BedButton (plus : bool)
| NozzleButton (plus : bool) (noz : Z).

(** The [disabled] attribute of each control. *)
Definition disabled (v : View) (c : Control) : bool :=
  match c with
  | FanSlider f _ => FanControls.disabled (status v) f
  | LightButton => LightToggle.disabled (status v) (lightPending v)
  | SpeedButton _ => SpeedControl.disabled (status v) (speedPending v)
  | AmsLoadButton =>
      AMSPanel.load_disabled (status v) (selectedTray v)
        (loadPending v) (unloadPending v)
  | AmsUnloadButton =>
      AMSPanel.unload_disabled (status v) (loadPending v) (unloadPending v)
  | MoveButton _ _ | HomeButton | DisableMotorsButton =>
      MovementControls.disabled (movement_env v)
  | PresetButton _ => TemperaturePanel.preset_disabled (temperature_env v)
  | BedButton _ => TemperaturePanel.bed_disabled (temperature_env v)
  | NozzleButton _ _ => TemperaturePanel.nozzle_disabled (temperature_env v)
  end.

(** The calls of [mutate] that using a control performs. *)
Definition activate (v : View) (c : Control) : list Request :=
  match c with
  | FanSlider f localValue =>
      FanControls.handleMouseUp (pid v) (status v) f (fanValues v f) localValue
  | LightButton =>
      LightToggle.handleToggle (pid v) (status v) (lightPending v) (isOn v)
  | SpeedButton mode =>
      SpeedControl.onClick (pid v) (status v) (speedPending v) mode
  | AmsLoadButton =>
      AMSPanel.handleLoad (pid v) (status v) (selectedTray v)
        (loadPending v) (unloadPending v)
  | AmsUnloadButton =>
      AMSPanel.handleUnload (pid v) (status v) (loadPending v) (unloadPending v)
  | MoveButton axis negative =>
      snd (MovementControls.step (movement_env v) (movement v)
             (MovementControls.ClickMove axis negative))
  | HomeButton =>
      snd (MovementControls.step (movement_env v) (movement v)
             MovementControls.ClickHome)
  | DisableMotorsButton =>
      snd (MovementControls.step (movement_env v) (movement v)
             MovementControls.ClickDisableMotors)
  | PresetButton p =>
      snd (TemperaturePanel.step (temperature_env v) (temperature v)
             (TemperaturePanel.ClickPreset p))
  | BedButton plus =>
      snd (TemperaturePanel.step (temperature_env v) (temperature v)
             (TemperaturePanel.ClickBed plus))
  | NozzleButton plus noz =>
      snd (TemperaturePanel.step (temperature_env v) (temperature v)
             (TemperaturePanel.ClickNozzle plus noz))
  end.

(** The page after the next status snapshot has replaced the previous one. *)
Definition with_status (v : View) (st : option PrinterStatus) : View :=
  {| pid := pid v; status := st; nozzleCount := nozzleCount v;
     homePending := homePending v; movePending := movePending v;
     disableMotorsPending := disableMotorsPending v;
     bedPending := bedPending v; nozzlePending := nozzlePending v;
     speedPending := speedPending v; lightPending := lightPending v;
     loadPending := loadPending v; unloadPending := unloadPending v;
     selectedTray := selectedTray v; isOn := isOn v;
     fanValues := fanValues v; movement := movement v;
     temperature := temperature v |}.

(** No mutation is in flight. *)
Definition idle (v : View) : bool :=
  negb (homePending v || movePending v || disableMotorsPending v
        || bedPending v || nozzlePending v || speedPending v
        || lightPending v || loadPending v || unloadPending v).

End ControlPage.

(** ** The permission table of the specification

    The second definition of the decision, written from the table of the
    specification (section 4.1) and not from the code: it is what the
    decision of the code is compared with. *)
Module PermissionTable.

Inductive Category : Type :=
| pause
| resume
| stop
| temperature
| speed_mode
| fans
| movement_home
| ams_load_unload
| disable_motors.

Inductive Permission : Type := Enabled | Warn | Disabled.

(** Rows of the table, columns IDLE, RUNNING, PAUSE, FINISH; any other state
    is [Disabled]. *)
Definition row (c : Category) : Permission * Permission * Permission * Permission :=
  match c with
  | pause => (Disabled, Enabled, Disabled, Disabled)
  | resume => (Disabled, Disabled, Enabled, Disabled)
  | stop => (Disabled, Enabled, Enabled, Disabled)
  | temperature => (Enabled, Warn, Enabled, Enabled)
  | speed_mode => (Disabled, Enabled, Disabled, Disabled)
  | fans => (Enabled, Warn, Enabled, Enabled)
  | movement_home => (Enabled, Disabled, Warn, Enabled)
  | ams_load_unload => (Enabled, Disabled, Disabled, Enabled)
  | disable_motors => (Enabled, Warn, Warn, Enabled)
  end.

Definition table (c : Category) (st : string) : Permission :=
  let '(i, r, p, f) := row c in
  if String.eqb st "IDLE" then i
  else if String.eqb st "RUNNING" then r
  else if String.eqb st "PAUSE" then p
  else if String.eqb st "FINISH" then f
  else Disabled.

(** A control can be used under [Enabled] and under [Warn]. *)
Definition usable (p : Permission) : bool :=
  match p with
  | Enabled | Warn => true
  | Disabled => false
  end.

(** The row that a control of the page belongs to; the table has no row for
    the chamber light. *)
Definition category (c : ControlPage.Control) : option Category :=
  match c with
  | ControlPage.FanSlider _ _ => Some fans
  | ControlPage.LightButton => None
  | ControlPage.SpeedButton _ => Some speed_mode
  | ControlPage.AmsLoadButton | ControlPage.AmsUnloadButton => Some ams_load_unload
  | ControlPage.MoveButton _ _ | ControlPage.HomeButton => Some movement_home
  | ControlPage.DisableMotorsButton => Some disable_motors
  | ControlPage.PresetButton _ | ControlPage.BedButton _
  | ControlPage.NozzleButton _ _ => Some temperature
  end.

Definition known_states : list string := ["IDLE"; "RUNNING"; "PAUSE"; "FINISH"].

End PermissionTable.


(** ** The command executor

    The executor is the REST backend behind [api.*]; it is not among the
    sources, so this module follows the specification. *)
Module Executor.

(** Modelled from the spec: the error conditions of section 7 (the backend
    is not among the sources). *)
Inductive ErrorKind : Type :=
| NotConnected
| InvalidOrExpiredToken
| ExecutionFailed
| Unreachable.

(** Modelled from the spec: the answers of the executor of section 6, a
    normal result, the confirmation shape, or an error. *)
Inductive Response : Type :=
| Success
| Challenge (token warning : string)
| Failure (e : ErrorKind).

(** Modelled from the spec: the name of a command kind, as section 3 writes
    them (the backend routes are not among the sources). *)
Definition kind (c : Command) : string :=
  match c with
  | homeAxes _ => "home"
  | moveAxis _ _ _ => "move"
  | disableMotors => "disableMotors"
  | setBedTemperature _ => "setBedTemperature"
  | setNozzleTemperature _ _ => "setNozzleTemperature"
  | setPrintSpeed _ => "setPrintSpeed"
  | setPartFan _ => "setPartFan"
  | setAuxFan _ => "setAuxFan"
  | setChamberFan _ => "setChamberFan"
  | setChamberLight _ => "setChamberLight"
  | amsLoadFilament _ => "amsLoadFilament"
  | amsUnloadFilament => "amsUnloadFilament"
  | stopPrint => "stop"
  end.

(** Modelled from the spec: the target identifier of section 9, for a kind
    of which several instances can be outstanding: the axis of a move, the
    heater of a nozzle temperature. *)
Definition target (c : Command) : option (string + Z) :=
  match c with
  | moveAxis axis _ _ => Some (inl axis)
  | setNozzleTemperature _ noz => Some (inr noz)
  | _ => None
  end.

(** Modelled from the spec: printer, command kind and target, the key of a
    pending challenge (section 9). *)
Definition key (r : Request) : Z * string * option (string + Z) :=
  (printerId r, kind (command r), target (command r)).

(** Modelled from the spec: tokens are opaque strings; the [n]-th token
    issued is "T1", "T2", ... as in the scenario of section 8. *)
Definition token_of (n : nat) : string :=
  String.append "T" (NilEmpty.string_of_uint (Nat.to_uint n)).

(** Modelled from the spec: the flag of section 3 that is fixed per action
    kind; stop, home, move and disableMotors require confirmation. *)
Definition per_kind_flag (c : Command) : bool :=
  match c with
  | stopPrint | homeAxes _ | moveAxis _ _ _ | disableMotors => true
  | _ => false
  end.

(** Modelled from the spec: the state of the executor, which is the keyed
    table of outstanding challenges of section 9, the number of tokens issued
    so far, and the actions performed on the device, oldest first. *)
Record State : Type := {
  pending : gmap (Z * string * option (string + Z)) string;
  issued : nat;
  device : list (Z * Command)
}.

Definition initial : State := {| pending := ∅; issued := 0; device := [] |}.

(** [t] is one of the tokens handed out so far. *)
Definition issued_token (s : State) (t : string) : Prop :=
  exists n, t = token_of n /\ (1 <= n <= issued s)%nat.


(** [t] was issued and is no longer outstanding for any key: it was consumed
    or replaced. *)
Definition spent (s : State) (t : string) : Prop :=
  issued_token s t /\ forall k, pending s !! k <> Some t.

Section Exec.

(** Which commands require confirmation, and the warning shown for them. The
    specification names stop, home and move while printing, disableMotors and
    a temperature above a threshold that it leaves open; the executor is
    modelled for any such classification. *)
Variable requires_confirmation : Command -> bool.
Variable warning_text : Command -> string.

(** Modelled from the spec: the command executor (the REST backend behind
    [api.*]) is not among the sources. Sections 3, 4.2 and 9 of the
    specification: a command that requires confirmation and arrives without a
    token only yields a fresh challenge, recorded under its key; with a token,
    the token must be the one most recently issued for the key, the entry of
    the key is discarded whether validation succeeds or fails, and the action
    is performed only when it succeeds; any other command is performed in one
    step. *)
Definition exec (s : State) (r : Request) : State * Response :=
  if requires_confirmation (command r) then
    match confirm_token r with
    | None =>
        let t := token_of (S (issued s)) in
        ({| pending := <[key r := t]> (pending s);
            issued := S (issued s);
            device := device s |},
         Challenge t (warning_text (command r)))
    | Some t =>
        if bool_decide (pending s !! key r = Some t)
        then ({| pending := delete (key r) (pending s);
                 issued := issued s;
                 device := (device s ++ [(printerId r, command r)])%list |},
              Success)
        else ({| pending := delete (key r) (pending s);
                 issued := issued s;
                 device := device s |},
              Failure InvalidOrExpiredToken)
    end
  else
    ({| pending := pending s;
        issued := issued s;
        device := (device s ++ [(printerId r, command r)])%list |},
     Success).

(** Modelled from the spec: the executor serving a sequence of requests. *)
Fixpoint serve (s : State) (rs : list Request) : State * list Response :=
  match rs with
  | [] => (s, [])
  | r :: rest =>
      let '(s1, a) := exec s r in
      let '(s2, answers) := serve s1 rest in
      (s2, a :: answers)
  end.

End Exec.

(** Modelled from the spec: what the REST client (api/client, not among the
    sources) hands to [onSuccess], the confirmation shape for a challenge and
    a plain result for a success; a failure rejects the promise and
    [onSuccess] does not run. *)
Definition to_result (a : Response) : option ApiResult :=
  match a with
  | Success => Some Plain
  | Challenge t w => Some (ConfirmationRequired t w)
  | Failure _ => None
  end.

End Executor.

(** ** A movement panel talking to the executor

    The schedule in which every call is answered before the next event: the
    executor serves each request as it is sent and [onSuccess] runs with the
    answer. *)
Module MovementSession.

Section Session.

Variable requires_confirmation : Command -> bool.
Variable warning_text : Command -> string.

Fixpoint settle (e : MovementControls.Env) (st : MovementControls.State)
    (srv : Executor.State) (rs : list Request)
    : MovementControls.State * Executor.State :=
  match rs with
  | [] => (st, srv)
  | r :: rest =>
      let '(srv1, a) := Executor.exec requires_confirmation warning_text srv r in
      let st1 :=
        match Executor.to_result a with
        | Some result =>
            match MovementControls.onSuccess r result with
            | Some ev => fst (MovementControls.step e st ev)
            | None => st
            end
        | None => st
        end in
      settle e st1 srv1 rest
  end.

(** The final states of the panel and of the executor, and the requests that
    were sent, oldest first. *)
Fixpoint session (st : MovementControls.State) (srv : Executor.State)
    (evs : list (MovementControls.Env * MovementControls.Event))
    : MovementControls.State * Executor.State * list Request :=
  match evs with
  | [] => (st, srv, [])
  | (e, ev) :: rest =>
      let '(st1, out) := MovementControls.step e st ev in
      let '(st2, srv2) := settle e st1 srv out in
      let '(st3, srv3, outs) := session st2 srv2 rest in
      (st3, srv3, (out ++ outs)%list)
  end.

End Session.

End MovementSession.


(** ** Sample inputs *)
Module Sample.

Definition snapshot (conn : bool) (st : option string) : PrinterStatus :=
  {| connected := conn; state := st; temperatures := None;
     raw_data := JUndefined |}.

(** A page on which nothing is in flight, tray 0 is selected and the two
    panels with a dialog are in their initial state. *)
Definition view (status : option PrinterStatus) : ControlPage.View :=
  {| ControlPage.pid := 1;
     ControlPage.status := status;
     ControlPage.nozzleCount := 1;
     ControlPage.homePending := false;
     ControlPage.movePending := false;
     ControlPage.disableMotorsPending := false;
     ControlPage.bedPending := false;
     ControlPage.nozzlePending := false;
     ControlPage.speedPending := false;
     ControlPage.lightPending := false;
     ControlPage.loadPending := false;
     ControlPage.unloadPending := false;
     ControlPage.selectedTray := Some 0;
     ControlPage.isOn := true;
     ControlPage.fanValues := fun f => match f with
                                       | FanControls.Part => 100
                                       | _ => 0
                                       end;
     ControlPage.movement := MovementControls.initial;
     ControlPage.temperature := TemperaturePanel.initial |}.

(** A status whose [raw_data.ams] is the given value. *)
Definition with_ams (ams : JsVal) : PrinterStatus :=
  {| connected := true; state := Some "IDLE"; temperatures := None;
     raw_data := JObj [("ams", ams)] |}.

(** One unit with a full tray, a tray that only has an id, and an empty
    object. *)
Definition one_unit : JsVal :=
  JArr [JObj [("id", JNum 0);
              ("tray", JArr [JObj [("id", JNum 0); ("tray_color", JStr "FF0000FF");
                                   ("tray_type", JStr "PLA"); ("remain", JNum 80)];
                             JObj [("id", JNum 1)];
                             JObj []])]].

Definition movement_env (status : option PrinterStatus) : MovementControls.Env :=
  ControlPage.movement_env (view status).

(** The movement panel of a printer that is printing, connected and then
    reported as disconnected. *)
Definition online : MovementControls.Env :=
  movement_env (Some (snapshot true (Some "RUNNING"))).

Definition offline : MovementControls.Env :=
  movement_env (Some (snapshot false (Some "RUNNING"))).


Definition warning_text (c : Command) : string := "Are you sure?".

Definition stop_request (tok : option string) : Request :=
  {| printerId := 1; command := stopPrint; confirm_token := tok |}.

(** The answer [{ requires_confirmation: true, token, warning }]. *)
Definition challenge (tok : string) : ApiResult :=
  ConfirmationRequired tok "Are you sure?".


(** Home is clicked and challenged while connected; the next snapshot says
    connected=false; Home is clicked again, then Continue. *)
Definition disconnect_then_continue
    : list (MovementControls.Env * MovementControls.Event) :=
  [(online, MovementControls.ClickHome);
   (online, MovementControls.HomeSuccess (challenge "T1") "XYZ");
   (offline, MovementControls.ClickHome);
   (offline, MovementControls.ClickConfirm)].


(** Home is clicked and challenged, then Disable Motors is clicked and
    challenged, before anything is confirmed: the panel against the
    executor. *)
Definition two_challenges
    : MovementControls.State * Executor.State * list Request :=
  MovementSession.session Executor.per_kind_flag warning_text
    MovementControls.initial Executor.initial
    [(online, MovementControls.ClickHome);
     (online, MovementControls.ClickDisableMotors)].

(** A snapshot with high target temperatures. *)
Definition hot : PrinterStatus :=
  {| connected := true; state := Some "IDLE";
     temperatures :=
       Some (Build_Temperatures None (Some 100) None (Some 260) None None None);
     raw_data := JUndefined |}.

Definition temperature_env (status : option PrinterStatus) : TemperaturePanel.Env :=
  ControlPage.temperature_env (view status).

End Sample.

(** ** Numbers and text in JavaScript *)

(** A JavaScript number is a double. Every integer up to 2^53 in absolute
    value is one, and a sum or a product of integers is exact while it stays
    in that range; a larger one is rounded to the nearest double, ties to
    the even significand, and to an infinity from 2^1024 - 2^970 on. *)
Module JsNumber.

(** [Number.MAX_SAFE_INTEGER] *)
Definition MAX_SAFE_INTEGER : Z := 2 ^ 53 - 1.

(** [Number.isSafeInteger(n)] on an integer. *)
Definition isSafeInteger (n : Z) : bool :=
  Z.leb (- MAX_SAFE_INTEGER) n && Z.leb n MAX_SAFE_INTEGER.

(** The double nearest to the integer [x]: the 53 leading bits are kept,
    rounded to nearest, and a tie goes to the even significand. [None]: the
    nearest double is an infinity. *)
Definition round (x : Z) : option Z :=
  let a := Z.abs x in
  if Z.ltb a (2 ^ 53) then Some x
  else
    let e := Z.log2 a - 52 in
    let q := a / 2 ^ e in
    let r := a mod 2 ^ e in
    let half := 2 ^ (e - 1) in
    let q' := if Z.ltb r half then q
              else if Z.ltb half r then q + 1
              else if Z.even q then q else q + 1 in
    if Z.ltb (q' * 2 ^ e) (2 ^ 1024) then Some (Z.sgn x * (q' * 2 ^ e))
    else None.

(** [a * b] and [a + b] on integers that are doubles; [None]: an infinity. *)
Definition mul (a b : Z) : option Z := round (a * b).

Definition add (a b : Z) : option Z := round (a + b).

End JsNumber.

Module JsText.

(** The code unit of a character. *)
Definition code (c : Ascii.ascii) : Z := Z.of_N (Ascii.N_of_ascii c).

(** The white space that [parseInt] skips, among the code units below 256:
    TAB, LF, VT, FF, CR, SP and NBSP. *)
Definition is_space (c : Ascii.ascii) : bool :=
  existsb (Z.eqb (code c)) [9; 10; 11; 12; 13; 32; 160].

Fixpoint trim_start (s : string) : string :=
  match s with
  | String c rest => if is_space c then trim_start rest else s
  | EmptyString => EmptyString
  end.

(** The value of a digit: 0-9, then a-z and A-Z for 10 to 35. *)
Definition digit_value (c : Ascii.ascii) : option Z :=
  let n := code c in
  if Z.leb 48 n && Z.leb n 57 then Some (n - 48)
  else if Z.leb 97 n && Z.leb n 122 then Some (n - 87)
  else if Z.leb 65 n && Z.leb n 90 then Some (n - 55)
  else None.

Definition radix_digit (radix : Z) (c : Ascii.ascii) : option Z :=
  match digit_value c with
  | Some d => if Z.ltb d radix then Some d else None
  | None => None
  end.

(** The number written by the longest prefix of digits of the radix. *)
Fixpoint parse_digits (radix acc : Z) (s : string) : Z :=
  match s with
  | String c rest =>
      match radix_digit radix c with
      | Some d => parse_digits radix (acc * radix + d) rest
      | None => acc
      end
  | EmptyString => acc
  end.

Definition starts_with_digit (radix : Z) (s : string) : bool :=
  match s with
  | String c _ => bool_decide (is_Some (radix_digit radix c))
  | EmptyString => false
  end.

(** [parseInt(s, radix)] for a radix of 10 or 16; [None] is NaN. Leading
    white space is skipped, a sign is read, with radix 16 a prefix 0x or 0X
    is dropped, and what follows the digits is ignored. *)
Definition parseInt (s : string) (radix : Z) : option Z :=
  let s1 := trim_start s in
  let '(sign, s2) :=
    match s1 with
    | String "-"%char rest => (-1, rest)
    | String "+"%char rest => (1, rest)
    | _ => (1, s1)
    end in
  let s3 :=
    if Z.eqb radix 16 then
      match s2 with
      | String "0"%char (String "x"%char rest)
      | String "0"%char (String "X"%char rest) => rest
      | _ => s2
      end
    else s2 in
  if starts_with_digit radix s3
  then Some (sign * parse_digits radix 0 s3)
  else None.

(** The decimal numeral of an integer, with '-' in front of a negative one. *)
Definition decimal (n : Z) : string :=
  NilZero.string_of_int (Z.to_int n).

(** [String(n)] and [`${n}`] for an integer [n]: its decimal numeral when
    [n] is a safe integer. [None]: a larger number, whose text is not the
    numeral of its value (the digits are rounded to the shortest that give
    the double back, and from 1e21 on the exponent form is used); the
    embedding does not follow it. *)
Definition number_to_string (n : Z) : option string :=
  if JsNumber.isSafeInteger n then Some (decimal n) else None.

(** [s.replace(c, '')]: the first occurrence only. *)
Fixpoint remove_first (c : Ascii.ascii) (s : string) : string :=
  match s with
  | String a rest => if Ascii.eqb a c then rest else String a (remove_first c rest)
  | EmptyString => EmptyString
  end.

(** [s.substring(from, to)] for [from <= to]. *)
Definition substring (from to : nat) (s : string) : string :=
  String.substring from (to - from) s.

(** Every character is a decimal digit. *)
Fixpoint all_digits (s : string) : bool :=
  match s with
  | String c rest => bool_decide (is_Some (radix_digit 10 c)) && all_digits rest
  | EmptyString => true
  end.

(** The number that an arithmetic operator makes of its operand, where it
    is an integer: the double of a number of the report, 0 and 1 for the
    booleans, 0 for null, and for a string of decimal digits the double of
    the number they write (0 for the empty string). [None]: any other
    operand; its number can be NaN, a fraction or an infinity, and the
    embedding does not follow it. *)
Definition to_number (v : JsVal) : option Z :=
  match v with
  | JNum n => JsNumber.round n
  | JBool b => Some (if b then 1 else 0)
  | JNull => Some 0
  | JStr s => if all_digits s then JsNumber.round (parse_digits 10 0 s)
              else None
  | JUndefined | JArr _ | JObj _ => None
  end.

End JsText.


(** *** The tray buttons of AMSPanel.tsx *)
Module AMSTrayButton.

(** [parseInt(pair, 16) || 128]: NaN and 0 are both replaced. *)
Definition channel (pair : string) : Z :=
  match JsText.parseInt pair 16 with
  | Some v => if Z.eqb v 0 then 128 else v
  | None => 128
  end.

(** The three numbers that [hexToRgb] prints. *)
Definition hexToRgb_channels (hex : string) : Z * Z * Z :=
  let cleanHex := JsText.substring 0 6 (JsText.remove_first "#" hex) in
  (channel (JsText.substring 0 2 cleanHex),
   channel (JsText.substring 2 4 cleanHex),
   channel (JsText.substring 4 6 cleanHex)).

(** [`rgb(${r}, ${g}, ${b})`]. A channel is 128 or what [parseInt] reads
    in two characters, a number between -15 and 255, which is printed as
    its decimal numeral. *)
Definition hexToRgb (hex : string) : string :=
  let '(r, g, b) := hexToRgb_channels hex in
  "rgb(" ++ JsText.decimal r ++ ", " ++ JsText.decimal g
  ++ ", " ++ JsText.decimal b ++ ")".

(** [tray.type === 'NONE' || !tray.type] *)
Definition isEmpty (t : AMSTray.t) : bool :=
  match AMSTray.type t with
  | JStr s => String.eqb s "NONE"
  | _ => false
  end
  || negb (Js.truthy (AMSTray.type t)).

(** The tray buttons that are rendered, each with the unit and the tray
    that its closure holds: [amsUnits.map((unit) => ... unit.trays.map((tray)
    => <button ...>))]. *)
Definition buttons (status : option PrinterStatus)
    : list (AMSUnit.t * AMSTray.t) :=
  flat_map (fun unit => map (fun tray => (unit, tray)) (AMSUnit.trays unit))
    (AMSPanel.parseAMSData status).

(** A value of [unit.id * 4 + tray.id], which [selectedTray] holds after a
    click: a number, or a string when [tray.id] is one. *)
Inductive TrayId : Type :=
| IdNumber (n : Z)
| IdText (s : string).

(** [a === b] on two such values. *)
Definition same_id (a b : TrayId) : bool :=
  match a, b with
  | IdNumber n, IdNumber m => Z.eqb n m
  | IdText s, IdText r => String.eqb s r
  | _, _ => false
  end.

(** [const globalTrayId = unit.id * 4 + tray.id], on the ids that
    [parseAMSData] kept: [*] makes a number of [unit.id]; [+] adds two
    numbers and concatenates when [tray.id] is a string. [None]: an id
    whose number or text the embedding does not follow (see
    [JsText.to_number] and [JsText.number_to_string]; an array or an object
    as [tray.id]), or an infinite product or sum. *)
Definition globalTrayId (unit : AMSUnit.t) (tray : AMSTray.t)
    : option TrayId :=
  u ← JsText.to_number (AMSUnit.id unit);
  product ← JsNumber.mul u 4;
  match AMSTray.id tray with
  | JStr s =>
      text ← JsText.number_to_string product;
      Some (IdText (text ++ s))
  | JArr _ | JObj _ => None
  | v =>
      t ← JsText.to_number v;
      g ← JsNumber.add product t;
      Some (IdNumber g)
  end.

(** The button of [tray] in [unit]: [disabled={isEmpty || isPrinting}] and
    [onClick={() => !isEmpty && setSelectedTray(isSelected ? null :
    globalTrayId)}], where [isSelected] is [selectedTray === globalTrayId].
    The result is the next [selectedTray]; [None] when [globalTrayId] is
    not followed. *)
Definition onClick (status : option PrinterStatus)
    (selectedTray : option TrayId) (unit : AMSUnit.t) (tray : AMSTray.t)
    : option (option TrayId) :=
  if isEmpty tray || AMSPanel.isPrinting status then Some selectedTray
  else
    g ← globalTrayId unit tray;
    Some (match selectedTray with
          | Some selected => if same_id selected g then None else Some g
          | None => Some g
          end).

(** The number that [%] and [/] make of [selectedTray]. *)
Definition selected_number (selectedTray : TrayId) : option Z :=
  match selectedTray with
  | IdNumber n => Some n
  | IdText s => JsText.to_number (JStr s)
  end.

(** "Selected: Slot {(selectedTray % 4) + 1}": [%] is the JavaScript
    remainder, which takes the sign of the dividend. *)
Definition selectedSlot (selectedTray : TrayId) : option Z :=
  n ← selected_number selectedTray;
  JsNumber.add (Z.rem n 4) 1.

(** "(AMS {Math.floor(selectedTray / 4) + 1})": a quarter of a double is
    exact, and [Math.floor] of it is [Z.div]. *)
Definition selectedAms (selectedTray : TrayId) : option Z :=
  n ← selected_number selectedTray;
  JsNumber.add (n / 4) 1.

(** [handleLoad] of the panel on what the tray buttons selected:
    [loadMutation.mutate(selectedTray)]. [None]: the selection is a string,
    which [api.amsLoadFilament] then receives in the place of a number. *)
Definition handleLoad (pid : Z) (status : option PrinterStatus)
    (selectedTray : option TrayId) (loadPending unloadPending : bool)
    : option (list Request) :=
  match selectedTray with
  | Some (IdText _) => None
  | Some (IdNumber n) =>
      Some (AMSPanel.handleLoad pid status (Some n) loadPending unloadPending)
  | None =>
      Some (AMSPanel.handleLoad pid status None loadPending unloadPending)
  end.

End AMSTrayButton.

(** ** PrintStatus.tsx: the remaining time *)
Module PrintStatus.

(** What [formatTime] prints: '--:--', [`${hours}h ${mins}m`] or [`${mins}m`]. *)
Inductive TimeLabel : Type :=
| Dashes
| HoursMinutes (hours mins : Z)
| Minutes (mins : Z).

(** [formatTime] before the numbers are printed, on a whole number of
    seconds. [%] is the remainder that takes the sign of the dividend. On a
    safe integer the quotient by 3600 is within 2^-12 of its double, less
    than the 1/3600 that separates it from the next integer, so
    [Math.floor] of the double is [Z.div]. [None]: a number of seconds
    beyond the safe integers, where the rounded quotient can reach the next
    integer; the embedding does not follow it. *)
Definition formatTime_label (seconds : option Z) : option TimeLabel :=
  match seconds with
  | None => Some Dashes
  | Some s =>
      if negb (JsNumber.isSafeInteger s) then None
      else if Z.eqb s 0 then Some Dashes
      else
        let hours := s / 3600 in
        let mins := Z.rem s 3600 / 60 in
        Some (if Z.ltb 0 hours then HoursMinutes hours mins else Minutes mins)
  end.

(** The text of a label; the hours and minutes of a label of
    [formatTime_label] are safe integers. *)
Definition print (l : TimeLabel) : string :=
  match l with
  | Dashes => "--:--"
  | HoursMinutes hours mins =>
      JsText.decimal hours ++ "h " ++ JsText.decimal mins ++ "m"
  | Minutes mins => JsText.decimal mins ++ "m"
  end.

Definition formatTime (seconds : option Z) : option string :=
  option_map print (formatTime_label seconds).

End PrintStatus.

(** ** ControlPage.tsx: the selected printer *)
Module PrinterTabs.

(** The fields of a printer of [api.getPrinters] that the page reads. *)
Record Printer : Type := {
  id : Z;
  name : string;
  nozzle_count : Z
}.

(** [selectedPrinterId] and the value of [searchParams.get('printer')]. *)
Record State : Type := {
  selectedPrinterId : option Z;
  printerParam : option string
}.

(** [useState(null)] on a page opened with the query string [param]. *)
Definition initial (param : option string) : State :=
  {| selectedPrinterId := None; printerParam := param |}.

Definition setSelectedPrinterId (st : State) (i : Z) : State :=
  {| selectedPrinterId := Some i; printerParam := printerParam st |}.

(** "Default to first printer":
    [if (printers && printers.length > 0 && !selectedPrinterId)]. *)
Definition default_to_first (printers : option (list Printer)) (st : State)
    : State :=
  match printers with
  | Some (p :: _) =>
      match selectedPrinterId st with
      | None => setSelectedPrinterId st (id p)
      | Some i => if Z.eqb i 0 then setSelectedPrinterId st (id p) else st
      end
  | _ => st
  end.

(** The body of the [useEffect]. *)
Definition effect (printers : option (list Printer)) (st : State) : State :=
  match printerParam st with
  | Some param =>
      if String.eqb param "" then default_to_first printers st
      else match JsText.parseInt param 10 with
           | Some i => setSelectedPrinterId st i
           | None => default_to_first printers st
           end
  | None => default_to_first printers st
  end.

(** [handlePrinterSelect]: [setSearchParams({ printer: String(printerId) })].
    [None]: an id beyond the safe integers, whose text the embedding does
    not follow. *)
Definition handlePrinterSelect (printerId : Z) : option State :=
  param ← JsText.number_to_string printerId;
  Some {| selectedPrinterId := Some printerId; printerParam := Some param |}.

(** [printers?.find((p) => p.id === selectedPrinterId)] *)
Definition selectedPrinter (printers : option (list Printer)) (st : State)
    : option Printer :=
  match printers, selectedPrinterId st with
  | Some ps, Some i => List.find (fun p => Z.eqb (id p) i) ps
  | _, _ => None
  end.

(** [selectedPrinterId ? statuses?.[selectedPrinterId] : null] *)
Definition selectedStatus (statuses : option (gmap Z PrinterStatus))
    (st : State) : option PrinterStatus :=
  match selectedPrinterId st with
  | Some i => if Z.eqb i 0 then None else statuses ≫= (fun m => m !! i)
  | None => None
  end.

(** The dot of a tab: [statuses?.[printer.id]?.connected ?? false]. *)
Definition tab_isConnected (statuses : option (gmap Z PrinterStatus))
    (p : Printer) : bool :=
  isConnected (statuses ≫= (fun m => m !! id p)).

(** The panels are rendered under [selectedPrinter &&], with
    [status={selectedStatus}]. *)
Definition panels (printers : option (list Printer))
    (statuses : option (gmap Z PrinterStatus)) (st : State)
    : option (Printer * option PrinterStatus) :=
  match selectedPrinter printers st with
  | Some p => Some (p, selectedStatus statuses st)
  | None => None
  end.

End PrinterTabs.

(** ** ControlPage.tsx: the statuses of all printers *)
Module StatusQuery.

(** The body of the callback of [printers.map] once its call has completed:
    [try { statusMap[p.id] = await api.getPrinterStatus(p.id) } catch {}].
    [answer p] is what the call for [p] resolved to, [None] when it was
    rejected. *)
Definition store (answer : PrinterTabs.Printer -> option PrinterStatus)
    (statusMap : gmap Z PrinterStatus) (p : PrinterTabs.Printer)
    : gmap Z PrinterStatus :=
  match answer p with
  | Some s => <[PrinterTabs.id p := s]> statusMap
  | None => statusMap
  end.

(** The [queryFn]. The calls are started together; each assignment happens
    when its call completes, and [completed] lists the printers in that
    order. *)
Definition queryFn (printers : option (list PrinterTabs.Printer))
    (answer : PrinterTabs.Printer -> option PrinterStatus)
    (completed : list PrinterTabs.Printer) : gmap Z PrinterStatus :=
  match printers with
  | Some _ => fold_left (store answer) completed ∅
  | None => ∅
  end.

End StatusQuery.

(** ** The tokens that pass through the dialogs *)
Module DialogTokens.

(** The tokens that a list of requests carries, in order. *)
Definition sent (out : list Request) : list string := omap confirm_token out.

(** The token that an answer hands to the movement panel, if any. *)
Definition movement_delivered (ev : MovementControls.Event) : option string :=
  match ev with
  | MovementControls.HomeSuccess (ConfirmationRequired tok _) _
  | MovementControls.MoveSuccess (ConfirmationRequired tok _) _ _
  | MovementControls.DisableMotorsSuccess (ConfirmationRequired tok _) => Some tok
  | _ => None
  end.

(** The token that an answer hands to the temperature panel, if any. *)
Definition temperature_delivered (ev : TemperaturePanel.Event) : option string :=
  match ev with
  | TemperaturePanel.BedSuccess (ConfirmationRequired tok _) _
  | TemperaturePanel.NozzleSuccess (ConfirmationRequired tok _) _ _ => Some tok
  | _ => None
  end.

(** The dialog of the movement panel, when it is open, resubmits under the
    token that it shows. *)
Definition movement_inv (st : MovementControls.State) : Prop :=
  forall m, MovementControls.confirmModal st = Some m ->
    forall e, confirm_token (MovementControls.onConfirm m e)
              = Some (MovementControls.token m).

(** The token that the dialog holds. *)
Definition movement_pending (st : MovementControls.State) : list string :=
  match MovementControls.confirmModal st with
  | Some m => [MovementControls.token m]
  | None => []
  end.

Definition temperature_pending (st : TemperaturePanel.State) : list string :=
  match TemperaturePanel.confirmModal st with
  | Some m => [TemperaturePanel.token m]
  | None => []
  end.

End DialogTokens.

(** ** TemperaturePanel.tsx: answers to the calls that were made *)
Module TemperatureAnswers.

(** [ev] is an [onSuccess] callback of a call among [sent]: the hooks pass
    the variables of that call. The clicks are no answers and are always
    possible. *)
Definition answers (sent : list Request) (ev : TemperaturePanel.Event) : bool :=
  match ev with
  | TemperaturePanel.BedSuccess _ tgt =>
      existsb (fun r => match command r with
                        | setBedTemperature t => Z.eqb t tgt
                        | _ => false
                        end) sent
  | TemperaturePanel.NozzleSuccess _ tgt noz =>
      existsb (fun r => match command r with
                        | setNozzleTemperature t n => Z.eqb t tgt && Z.eqb n noz
                        | _ => false
                        end) sent
  | _ => true
  end.

(** Every answer among the events follows a call with its variables, made
    earlier in the run or among [sent]. *)
Fixpoint answered (sent : list Request) (st : TemperaturePanel.State)
    (evs : list (TemperaturePanel.Env * TemperaturePanel.Event)) : bool :=
  match evs with
  | [] => true
  | (e, ev) :: rest =>
      answers sent ev
      && answered (sent ++ snd (TemperaturePanel.step e st ev))%list
           (fst (TemperaturePanel.step e st ev)) rest
  end.

(** Continue would resubmit a target within the limits of its heater. *)
Definition within_limits_inv (st : TemperaturePanel.State) : Prop :=
  forall m, TemperaturePanel.confirmModal st = Some m ->
    0 <= TemperaturePanel.target m
    /\ TemperaturePanel.target m
       <= match TemperaturePanel.type m with
          | TemperaturePanel.Bed => 120
          | TemperaturePanel.Nozzle => 300
          end.

End TemperatureAnswers.

(** ** FanControls.tsx: the sliders and the stored values *)
Module FanPanel.

(** The two sliders are the same one. *)
Definition same_fan (f g : FanControls.Fan) : bool :=
  match f, g with
  | FanControls.Part, FanControls.Part
  | FanControls.Aux, FanControls.Aux
  | FanControls.Chamber, FanControls.Chamber => true
  | _, _ => false
  end.

(** The [useState] cells of one FanSlider. *)
Record SliderState : Type := {
  localValue : Z;
  isDragging : bool
}.

(** [fanValues] of FanControls and the cells of its three sliders. *)
Record State : Type := {
  fanValues : FanControls.Fan -> Z;
  sliders : FanControls.Fan -> SliderState
}.

(** [useState({ part: 100, aux: 0, chamber: 0 })]; each slider starts with
    [useState(value)] and [useState(false)]. *)
Definition initial : State :=
  let values f := match f with
                  | FanControls.Part => 100
                  | FanControls.Aux => 0
                  | FanControls.Chamber => 0
                  end in
  {| fanValues := values;
     sliders := fun f => {| localValue := values f; isDragging := false |} |}.

(** [const displayValue = isDragging ? localValue : value] *)
Definition displayValue (st : State) (f : FanControls.Fan) : Z :=
  if isDragging (sliders st f) then localValue (sliders st f)
  else fanValues st f.

(** The events of the range inputs and the [onSuccess] callbacks of the
    three hooks. [Change f v] is a change event of the input whose text
    parses to [v]. [onTouchStart] and [onTouchEnd] run the handlers of
    mouse down and mouse up. *)
Inductive Event : Type :=
| MouseDown (f : FanControls.Fan)
| Change (f : FanControls.Fan) (v : Z)
| MouseUp (f : FanControls.Fan)
| TouchStart (f : FanControls.Fan)
| TouchEnd (f : FanControls.Fan)
| Success (f : FanControls.Fan) (speed : Z).

Definition setSlider (st : State) (f : FanControls.Fan) (s : SliderState)
    : State :=
  {| fanValues := fanValues st;
     sliders := fun g => if same_fan g f then s else sliders st g |}.

(** [setFanValues((prev) => ({ ...prev, [fan]: speed }))] *)
Definition setFanValue (st : State) (f : FanControls.Fan) (speed : Z) : State :=
  {| fanValues := fun g => if same_fan g f then speed else fanValues st g;
     sliders := sliders st |}.

(** [onMouseDown] and [onTouchStart]: [() => setIsDragging(true)]. *)
Definition handleMouseDown (st : State) (f : FanControls.Fan) : State :=
  setSlider st f {| localValue := localValue (sliders st f);
                    isDragging := true |}.

(** [handleMouseUp], which does not test [disabled]:
    [setIsDragging(false); if (localValue !== value) onChange(localValue)]. *)
Definition handleMouseUp (pid : Z) (st : State) (f : FanControls.Fan)
    : State * list Request :=
  (setSlider st f {| localValue := localValue (sliders st f);
                     isDragging := false |},
   if Z.eqb (localValue (sliders st f)) (fanValues st f) then []
   else [FanControls.mutate pid f (localValue (sliders st f))]).

(** One event. A disabled input receives no mouse event and its value
    cannot be changed; a touch still reaches its handlers. *)
Definition step (pid : Z) (status : option PrinterStatus) (st : State)
    (ev : Event) : State * list Request :=
  match ev with
  | MouseDown f =>
      if FanControls.disabled status f then (st, [])
      else (handleMouseDown st f, [])
  | Change f v =>
      if FanControls.disabled status f then (st, [])
      else (setSlider st f {| localValue := v;
                              isDragging := isDragging (sliders st f) |}, [])
  | MouseUp f =>
      if FanControls.disabled status f then (st, [])
      else handleMouseUp pid st f
  | TouchStart f => (handleMouseDown st f, [])
  | TouchEnd f => handleMouseUp pid st f
  | Success f speed => (setFanValue st f speed, [])
  end.

Fixpoint run (pid : Z) (st : State)
    (evs : list (option PrinterStatus * Event)) : State * list Request :=
  match evs with
  | [] => (st, [])
  | (status, ev) :: rest =>
      let '(st1, out1) := step pid status st ev in
      let '(st2, out2) := run pid st1 rest in
      (st2, (out1 ++ out2)%list)
  end.

(** The speed that a request asks of a fan. *)
Definition fan_speed (r : Request) : option (FanControls.Fan * Z) :=
  match command r with
  | setPartFan v => Some (FanControls.Part, v)
  | setAuxFan v => Some (FanControls.Aux, v)
  | setChamberFan v => Some (FanControls.Chamber, v)
  | _ => None
  end.

(** A value of the range input: [min="0" max="100" step="5"]. *)
Definition on_scale (v : Z) : bool :=
  Z.leb 0 v && Z.leb v 100 && Z.eqb (v mod 5) 0.

(** The event is possible: a change event reports a value of the scale, and
    an answer follows a call with its variables among [sent]. *)
Definition possible (sent : list Request) (ev : Event) : bool :=
  match ev with
  | Change _ v => on_scale v
  | Success f speed =>
      existsb (fun r => match fan_speed r with
                        | Some (g, v) => same_fan g f && Z.eqb v speed
                        | None => false
                        end) sent
  | _ => true
  end.

Fixpoint all_possible (pid : Z) (sent : list Request) (st : State)
    (evs : list (option PrinterStatus * Event)) : bool :=
  match evs with
  | [] => true
  | (status, ev) :: rest =>
      possible sent ev
      && all_possible pid (sent ++ snd (step pid status st ev))%list
           (fst (step pid status st ev)) rest
  end.

(** The request asks a fan for a value of the scale. *)
Definition fan_on_scale (r : Request) : bool :=
  match fan_speed r with
  | Some (_, v) => on_scale v
  | None => false
  end.

(** The stored value and the local value of every slider are on the scale. *)
Definition on_scale_inv (st : State) : Prop :=
  forall f, on_scale (fanValues st f) = true
            /\ on_scale (localValue (sliders st f)) = true.

End FanPanel.

(** ** LightToggle.tsx: the stored state *)
Module LightSwitch.

(** [useState(true)] *)
Definition initial : bool := true.

Inductive Event : Type :=
| Click
| Success (on : bool).

(** A click calls [handleToggle]; [onSuccess: (_, on) => setIsOn(on)]. *)
Definition step (pid : Z) (status : option PrinterStatus) (isPending : bool)
    (isOn : bool) (ev : Event) : bool * list Request :=
  match ev with
  | Click => (isOn, LightToggle.handleToggle pid status isPending isOn)
  | Success on => (on, [])
  end.

Fixpoint run (pid : Z) (isOn : bool)
    (evs : list (option PrinterStatus * bool * Event)) : bool * list Request :=
  match evs with
  | [] => (isOn, [])
  | (status, isPending, ev) :: rest =>
      let '(isOn1, out1) := step pid status isPending isOn ev in
      let '(isOn2, out2) := run pid isOn1 rest in
      (isOn2, (out1 ++ out2)%list)
  end.

Definition is_click (ev : option PrinterStatus * bool * Event) : bool :=
  match ev with
  | (_, _, Click) => true
  | _ => false
  end.

End LightSwitch.

(** ** CameraFeed.tsx *)
Module CameraFeed.

(** The [useState] cells, and the number of timers that [handleRefresh] has
    started and that have not fired yet. *)
Record State : Type := {
  streamEnabled : bool;
  isLoading : bool;
  error : option string;
  timers : nat
}.

Definition initial : State :=
  {| streamEnabled := false; isLoading := false; error := None; timers := 0 |}.

Inductive Event : Type :=
| ClickToggle
| ClickRefresh
| ClickRetry
| RefreshTimer
| ImageLoad
| ImageError.

(** The [img] element is rendered when the stream is enabled and no error
    is shown. *)
Definition img_rendered (st : State) : bool :=
  streamEnabled st && negb (bool_decide (is_Some (error st))).

Definition handleToggleStream (st : State) : State :=
  if streamEnabled st
  then {| streamEnabled := false; isLoading := isLoading st; error := None;
          timers := timers st |}
  else {| streamEnabled := true; isLoading := true; error := None;
          timers := timers st |}.

Definition handleImageLoad (st : State) : State :=
  {| streamEnabled := streamEnabled st; isLoading := false; error := None;
     timers := timers st |}.

Definition handleImageError (st : State) : State :=
  {| streamEnabled := streamEnabled st; isLoading := false;
     error := Some "Failed to load camera stream"; timers := timers st |}.

(** [setStreamEnabled(false); setTimeout(..., 100)] *)
Definition handleRefresh (st : State) : State :=
  {| streamEnabled := false; isLoading := isLoading st; error := error st;
     timers := S (timers st) |}.

(** The callback of the timer: [setIsLoading(true); setStreamEnabled(true)]. *)
Definition onTimeout (st : State) : State :=
  {| streamEnabled := true; isLoading := true; error := error st;
     timers := Nat.pred (timers st) |}.

(** One event. Start/Stop has [disabled={!isConnected}]; the refresh button
    is rendered while the stream is enabled, Retry beside the error message;
    [onLoad] and [onError] belong to the [img] element. *)
Definition step (isConnected : bool) (st : State) (ev : Event) : State :=
  match ev with
  | ClickToggle => if isConnected then handleToggleStream st else st
  | ClickRefresh => if streamEnabled st then handleRefresh st else st
  | ClickRetry =>
      if streamEnabled st && bool_decide (is_Some (error st))
      then handleRefresh st else st
  | RefreshTimer =>
      match timers st with
      | O => st
      | S _ => onTimeout st
      end
  | ImageLoad => if img_rendered st then handleImageLoad st else st
  | ImageError => if img_rendered st then handleImageError st else st
  end.

Definition run (st : State) (evs : list (bool * Event)) : State :=
  fold_left (fun s '(isConnected, ev) => step isConnected s ev) evs st.

(** The event is a click on Start/Stop. *)
Definition is_toggle (ev : bool * Event) : bool :=
  match ev with
  | (_, ClickToggle) => true
  | _ => false
  end.

End CameraFeed.

(** ** MovementControls.tsx: answers to the calls that were made *)
Module MovementAnswers.

(** What the buttons of the panel offer: Home of 'XYZ', Disable Motors, and
    a move along X, Y or Z by 1, 10 or 50 mm in either direction at
    3000 mm/min. *)
Definition offered (r : Request) : bool :=
  match command r with
  | homeAxes axes => String.eqb axes "XYZ"
  | moveAxis axis distance speed =>
      existsb (String.eqb axis) ["X"; "Y"; "Z"]
      && existsb (Z.eqb (Z.abs distance)) [1; 10; 50]
      && Z.eqb speed 3000
  | disableMotors => true
  | _ => false
  end.

(** [ev] is an [onSuccess] callback of a call among [sent]: the hooks pass
    the variables of that call. The clicks are no answers and are always
    possible. *)
Definition answers (sent : list Request) (ev : MovementControls.Event) : bool :=
  match ev with
  | MovementControls.HomeSuccess _ axes =>
      existsb (fun r => match command r with
                        | homeAxes a => String.eqb a axes
                        | _ => false
                        end) sent
  | MovementControls.MoveSuccess _ axis distance =>
      existsb (fun r => match command r with
                        | moveAxis a d _ => String.eqb a axis && Z.eqb d distance
                        | _ => false
                        end) sent
  | MovementControls.DisableMotorsSuccess _ =>
      existsb (fun r => match command r with
                        | disableMotors => true
                        | _ => false
                        end) sent
  | _ => true
  end.

Fixpoint answered (sent : list Request) (st : MovementControls.State)
    (evs : list (MovementControls.Env * MovementControls.Event)) : bool :=
  match evs with
  | [] => true
  | (e, ev) :: rest =>
      answers sent ev
      && answered (sent ++ snd (MovementControls.step e st ev))%list
           (fst (MovementControls.step e st ev)) rest
  end.

(** The distance is one of the selector, and Continue would resubmit a
    command that the buttons offer. *)
Definition offered_inv (st : MovementControls.State) : Prop :=
  existsb (Z.eqb (MovementControls.moveDistance st)) [1; 10; 50] = true
  /\ forall m, MovementControls.confirmModal st = Some m ->
       forall e, offered (MovementControls.onConfirm m e) = true.

End MovementAnswers.

(** ** PrintModal/PrinterSelector.tsx *)
Module PrinterSelector.

(** The fields of a printer that the selector and the modal read. *)
Record Printer : Type := {
  id : Z;
  is_active : bool
}.

(** What the selector renders. A dropdown lists, for each option, the
    argument that [onSelect] receives when it is chosen: [null] for the
    placeholder (its value is the empty string) and the id for a printer
    ([Number] of the text of an integer id); a grid lists the id that each
    card passes to [onSelect]. *)
Inductive View : Type :=
| Spinner
| NoPrintersConfigured
| Dropdown (options : list (option Z))
| NoActivePrinters
| Grid (cards : list Z).

Definition render (printers : list Printer) (isLoading allowUnassigned : bool)
    : View :=
  let activePrinters := List.filter is_active printers in
  if isLoading then Spinner
  else if allowUnassigned then
    match printers with
    | [] => NoPrintersConfigured
    | _ => Dropdown (None :: map (fun p => Some (id p)) printers)
    end
  else
    match activePrinters with
    | [] => NoActivePrinters
    | _ => Grid (map id activePrinters)
    end.

(** The arguments with which the rendered selector can call [onSelect]. *)
Definition selectable (v : View) : list (option Z) :=
  match v with
  | Dropdown options => options
  | Grid cards => map Some cards
  | _ => []
  end.

End PrinterSelector.

(** ** PrintModal/index.tsx *)
Module PrintModal.

Inductive Mode : Type := Reprint | AddToQueue | EditQueueItem.

Inductive ScheduleType : Type := Asap | Scheduled | Manual.

(** The five fields of [PrintOptions] that the modal initialises. *)
Record PrintOptions : Type := {
  bed_levelling : bool;
  flow_cali : bool;
  vibration_cali : bool;
  layer_inspect : bool;
  timelapse : bool
}.

Record ScheduleOptions : Type := {
  scheduleType : ScheduleType;
  scheduledTime : string;
  requirePreviousSuccess : bool;
  autoOffAfter : bool
}.

(** The fields of a queue item that the modal reads. *)
Record QueueItem : Type := {
  item_id : Z;
  item_printer_id : option Z;
  item_plate_id : option Z;
  item_bed_levelling : option bool;
  item_flow_cali : option bool;
  item_vibration_cali : option bool;
  item_layer_inspect : option bool;
  item_timelapse : option bool;
  item_manual_start : bool;
  item_scheduled_time : option string;
  item_require_previous_success : bool;
  item_auto_off_after : bool;
  item_ams_mapping : option (list Z)
}.

(** The fields of [platesData] that the modal reads; of a plate it reads
    the [index]. *)
Record PlatesData : Type := {
  is_multi_plate : option bool;
  plates : option (list Z)
}.

(** The [useState] cells. [manualMappings] maps a slot id, counted from 1,
    to a global tray id. *)
Record State : Type := {
  selectedPrinter : option Z;
  selectedPlate : option Z;
  printOptions : PrintOptions;
  scheduleOptions : ScheduleOptions;
  manualMappings : gmap Z Z;
  initialPrinterId : option Z;
  initialPlateId : option Z
}.

(** [!n] on [number | null]. *)
Definition falsy (n : option Z) : bool :=
  match n with
  | Some i => Z.eqb i 0
  | None => true
  end.

(** The body of the [forEach] over [ams_mapping], from index [idx] on:
    [if (globalTrayId !== -1) mappings[idx + 1] = globalTrayId]. *)
Fixpoint mappings_from (idx : Z) (ams_mapping : list Z) (mappings : gmap Z Z)
    : gmap Z Z :=
  match ams_mapping with
  | [] => mappings
  | globalTrayId :: rest =>
      mappings_from (idx + 1) rest
        (if Z.eqb globalTrayId (-1) then mappings
         else <[idx + 1 := globalTrayId]> mappings)
  end.

(** The payload of [api.addToQueue], of [api.updateQueueItem] and the
    arguments of [api.reprintArchive]. An absent [scheduled_time] and a
    [scheduled_time] of null are both [None]. *)
Record QueueData (AmsMapping : Type) : Type := {
  printer_id : option Z;
  archive_id : option Z;
  require_previous_success : bool;
  auto_off_after : bool;
  manual_start : bool;
  ams_mapping : AmsMapping;
  plate_id : option Z;
  options : PrintOptions;
  scheduled_time : option string
}.

Arguments printer_id {AmsMapping} _.
Arguments archive_id {AmsMapping} _.
Arguments require_previous_success {AmsMapping} _.
Arguments auto_off_after {AmsMapping} _.
Arguments manual_start {AmsMapping} _.
Arguments ams_mapping {AmsMapping} _.
Arguments plate_id {AmsMapping} _.
Arguments options {AmsMapping} _.
Arguments scheduled_time {AmsMapping} _.

(** What [handleSubmit] does: a toast, or one call of [mutate] that reaches
    the API function of the mode. [updateFails] is the TypeError of
    [queueItem!.id] when the item is missing. *)
Inductive Action (AmsMapping : Type) : Type :=
| showToast (message kind : string)
| reprintArchive (archiveId printerId : Z) (plate : option Z)
    (mapping : AmsMapping) (opts : PrintOptions)
| addToQueue (data : QueueData AmsMapping)
| updateQueueItem (itemId : Z) (data : QueueData AmsMapping)
| updateFails.

Arguments showToast {AmsMapping} _ _.
Arguments reprintArchive {AmsMapping} _ _ _ _ _.
Arguments addToQueue {AmsMapping} _.
Arguments updateQueueItem {AmsMapping} _ _.
Arguments updateFails {AmsMapping}.

Section Modal.

(** What the modal imports from modules that are not part of the sources:
    the defaults of ./types, [isPlaceholderDate] of utils/amsHelpers, the
    conversions of [Date], and the mapping computed by
    [useFilamentMapping]. *)
Variable DEFAULT_PRINT_OPTIONS : PrintOptions.
Variable DEFAULT_SCHEDULE_OPTIONS : ScheduleOptions.
Variable isPlaceholderDate : string -> bool.
(** [new Date(s).toISOString().slice(0, 16)] *)
Variable toDatetimeLocal : string -> string.
(** [new Date(s).toISOString()] *)
Variable toISOString : string -> string.
(** [new Date(s)] is no date, and [toISOString] throws a RangeError on it. *)
Variable invalidDate : string -> bool.
Variable AmsMapping : Type.

(** [queueItem.scheduled_time && !isPlaceholderDate(queueItem.scheduled_time)] *)
Definition has_schedule (q : QueueItem) : bool :=
  match item_scheduled_time q with
  | Some t => negb (String.eqb t "") && negb (isPlaceholderDate t)
  | None => false
  end.

(** The initialisers of the [useState] cells, when none of them throws
    (see [mount]). *)
Definition initial (mode : Mode) (queueItem : option QueueItem) : State :=
  match mode, queueItem with
  | EditQueueItem, Some q =>
      {| selectedPrinter := item_printer_id q;
         selectedPlate := item_plate_id q;
         printOptions :=
           {| bed_levelling :=
                default (bed_levelling DEFAULT_PRINT_OPTIONS) (item_bed_levelling q);
              flow_cali :=
                default (flow_cali DEFAULT_PRINT_OPTIONS) (item_flow_cali q);
              vibration_cali :=
                default (vibration_cali DEFAULT_PRINT_OPTIONS)
                  (item_vibration_cali q);
              layer_inspect :=
                default (layer_inspect DEFAULT_PRINT_OPTIONS) (item_layer_inspect q);
              timelapse :=
                default (timelapse DEFAULT_PRINT_OPTIONS) (item_timelapse q) |};
         scheduleOptions :=
           {| scheduleType :=
                if item_manual_start q then Manual
                else if has_schedule q then Scheduled
                else Asap;
              scheduledTime :=
                match item_scheduled_time q with
                | Some t => if has_schedule q then toDatetimeLocal t else ""
                | None => ""
                end;
              requirePreviousSuccess := item_require_previous_success q;
              autoOffAfter := item_auto_off_after q |};
         manualMappings :=
           match item_ams_mapping q with
           | Some l => mappings_from 0 l ∅
           | None => ∅
           end;
         initialPrinterId := item_printer_id q;
         initialPlateId := item_plate_id q |}
  | _, _ =>
      {| selectedPrinter := None;
         selectedPlate := None;
         printOptions := DEFAULT_PRINT_OPTIONS;
         scheduleOptions := DEFAULT_SCHEDULE_OPTIONS;
         manualMappings := ∅;
         initialPrinterId := None;
         initialPlateId := None |}
  end.

(** The first render. The initialiser of [scheduleOptions] converts a
    stored time that is not a placeholder with [toISOString], which throws
    when the stored text is no date; the modal is then not rendered
    ([None]). *)
Definition mount (mode : Mode) (queueItem : option QueueItem) : option State :=
  match mode, queueItem with
  | EditQueueItem, Some q =>
      match item_scheduled_time q with
      | Some t =>
          if has_schedule q && invalidDate t then None
          else Some (initial mode queueItem)
      | None => Some (initial mode queueItem)
      end
  | _, _ => Some (initial mode queueItem)
  end.

Definition setSelectedPlate (st : State) (p : option Z) : State :=
  {| selectedPrinter := selectedPrinter st; selectedPlate := p;
     printOptions := printOptions st; scheduleOptions := scheduleOptions st;
     manualMappings := manualMappings st;
     initialPrinterId := initialPrinterId st;
     initialPlateId := initialPlateId st |}.

(** "Auto-select first plate for single-plate files":
    [if (platesData?.plates?.length === 1 && !selectedPlate)
    setSelectedPlate(platesData.plates[0].index)]. *)
Definition autoSelectPlate (platesData : option PlatesData) (st : State)
    : State :=
  match platesData ≫= plates with
  | Some [index] =>
      if falsy (selectedPlate st) then setSelectedPlate st (Some index) else st
  | _ => st
  end.

Definition setSelectedPrinter (st : State) (p : option Z) : State :=
  {| selectedPrinter := p; selectedPlate := selectedPlate st;
     printOptions := printOptions st; scheduleOptions := scheduleOptions st;
     manualMappings := manualMappings st;
     initialPrinterId := initialPrinterId st;
     initialPlateId := initialPlateId st |}.

Definition setManualMappings (st : State) (m : gmap Z Z) : State :=
  {| selectedPrinter := selectedPrinter st; selectedPlate := selectedPlate st;
     printOptions := printOptions st; scheduleOptions := scheduleOptions st;
     manualMappings := m;
     initialPrinterId := initialPrinterId st;
     initialPlateId := initialPlateId st |}.

(** "Auto-select first printer when only one available (add-to-queue mode)" *)
Definition autoSelectPrinter (mode : Mode)
    (printers : option (list PrinterSelector.Printer)) (st : State) : State :=
  match mode, printers with
  | AddToQueue, Some [p] =>
      if falsy (selectedPrinter st)
      then setSelectedPrinter st (Some (PrinterSelector.id p))
      else st
  | _, _ => st
  end.

(** "Clear manual mappings when printer or plate changes" *)
Definition clearMappings (mode : Mode) (st : State) : State :=
  match mode with
  | EditQueueItem =>
      if bool_decide (selectedPrinter st <> initialPrinterId st
                      \/ selectedPlate st <> initialPlateId st)
      then setManualMappings st ∅
      else st
  | _ => setManualMappings st ∅
  end.

(** The state in which the effects leave the modal after a render with
    new answers of the two queries: the two selections run, and when one of
    them has changed the selection the next render runs the clearing of
    the mappings, whose dependencies are the selections. *)
Definition effects (mode : Mode)
    (printers : option (list PrinterSelector.Printer))
    (platesData : option PlatesData) (st : State) : State :=
  let selected :=
    autoSelectPrinter mode printers (autoSelectPlate platesData st) in
  if bool_decide (selectedPrinter selected = selectedPrinter st
                  /\ selectedPlate selected = selectedPlate st)
  then selected
  else clearMappings mode selected.

(** [platesData?.is_multi_plate ?? false] *)
Definition isMultiPlate (platesData : option PlatesData) : bool :=
  default false (platesData ≫= is_multi_plate).

(** The [scheduled_time] that [handleSubmit] computes. *)
Definition submitted_time (st : State) : option string :=
  match scheduleType (scheduleOptions st) with
  | Scheduled =>
      if String.eqb (scheduledTime (scheduleOptions st)) "" then None
      else Some (toISOString (scheduledTime (scheduleOptions st)))
  | _ => None
  end.

(** [handleSubmit], when [toISOString] does not throw (see [submit]). *)
Definition handleSubmit (mode : Mode) (archiveId : Z)
    (queueItem : option QueueItem) (amsMapping : AmsMapping) (st : State)
    : list (Action AmsMapping) :=
  match mode with
  | Reprint =>
      match selectedPrinter st with
      | Some p =>
          if Z.eqb p 0 then [showToast "Please select a printer" "error"]
          else [reprintArchive archiveId p (selectedPlate st) amsMapping
                  (printOptions st)]
      | None => [showToast "Please select a printer" "error"]
      end
  | AddToQueue =>
      if falsy (selectedPrinter st)
      then [showToast "Please select a printer" "error"]
      else [addToQueue
              {| printer_id := selectedPrinter st;
                 archive_id := Some archiveId;
                 require_previous_success :=
                   requirePreviousSuccess (scheduleOptions st);
                 auto_off_after := autoOffAfter (scheduleOptions st);
                 manual_start :=
                   match scheduleType (scheduleOptions st) with
                   | Manual => true
                   | _ => false
                   end;
                 ams_mapping := amsMapping;
                 plate_id := selectedPlate st;
                 options := printOptions st;
                 scheduled_time := submitted_time st |}]
  | EditQueueItem =>
      match queueItem with
      | Some q =>
          [updateQueueItem (item_id q)
             {| printer_id := selectedPrinter st;
                archive_id := None;
                require_previous_success :=
                  requirePreviousSuccess (scheduleOptions st);
                auto_off_after := autoOffAfter (scheduleOptions st);
                manual_start :=
                  match scheduleType (scheduleOptions st) with
                  | Manual => true
                  | _ => false
                  end;
                ams_mapping := amsMapping;
                plate_id := selectedPlate st;
                options := printOptions st;
                scheduled_time := submitted_time st |}]
      | None => [updateFails]
      end
  end.

(** [handleSubmit] with the exception of [toISOString]: in the two queue
    modes the time of a scheduled print is converted before the call of
    [mutate], and nothing is called ([None]) when it is no date. *)
Definition submit (mode : Mode) (archiveId : Z)
    (queueItem : option QueueItem) (amsMapping : AmsMapping) (st : State)
    : option (list (Action AmsMapping)) :=
  let converts :=
    match scheduleType (scheduleOptions st) with
    | Scheduled => negb (String.eqb (scheduledTime (scheduleOptions st)) "")
    | _ => false
    end in
  let reaches_the_conversion :=
    match mode with
    | Reprint => false
    | AddToQueue => negb (falsy (selectedPrinter st))
    | EditQueueItem => true
    end in
  if reaches_the_conversion && converts
     && invalidDate (scheduledTime (scheduleOptions st))
  then None
  else Some (handleSubmit mode archiveId queueItem amsMapping st).

(** [canSubmit] *)
Definition canSubmit (mode : Mode)
    (printers : option (list PrinterSelector.Printer))
    (platesData : option PlatesData) (isPending : bool) (st : State) : bool :=
  match mode with
  | EditQueueItem =>
      negb isPending
      && match printers with
         | Some (_ :: _) => true
         | _ => false
         end
  | _ =>
      if falsy (selectedPrinter st) then false
      else if isMultiPlate platesData && falsy (selectedPlate st) then false
      else negb isPending
  end.

End Modal.


End PrintModal.

(** ** utils/currency *)
Module Currency.

Definition CURRENCY_SYMBOLS : list (string * string) :=
  [ ("USD", "$"); ("EUR", "€"); ("GBP", "£"); ("CHF", "Fr."); ("JPY", "¥");
    ("CNY", "¥"); ("CAD", "$"); ("AUD", "$"); ("INR", "₹"); ("HKD", "HK$") ].

Record Supported : Type := { code : string; label : string }.

Definition SUPPORTED_CURRENCIES : list Supported :=
  [ {| code := "USD"; label := "USD ($)" |};
    {| code := "EUR"; label := "EUR (€)" |};
    {| code := "GBP"; label := "GBP (£)" |};
    {| code := "CHF"; label := "CHF (Fr.)" |};
    {| code := "JPY"; label := "JPY (¥)" |};
    {| code := "CNY"; label := "CNY (¥)" |};
    {| code := "CAD"; label := "CAD ($)" |};
    {| code := "AUD"; label := "AUD ($)" |};
    {| code := "INR"; label := "INR (₹)" |};
    {| code := "HKD"; label := "HKD (HK$)" |} ].

(** The own property [key] of the object literal. The object has no other
    property that an upper-cased key could name: the names that it inherits
    all contain a lower-case letter. *)
Fixpoint lookup (key : string) (table : list (string * string)) : option string :=
  match table with
  | [] => None
  | (k, v) :: rest => if String.eqb k key then Some v else lookup key rest
  end.

(** [toUpperCase] on text of code units below 128: a to z become A to Z. *)
Definition upper_char (c : Ascii.ascii) : Ascii.ascii :=
  let n := JsText.code c in
  if Z.leb 97 n && Z.leb n 122 then Ascii.ascii_of_N (Z.to_N (n - 32)) else c.

Fixpoint toUpperCase (s : string) : string :=
  match s with
  | String c rest => String (upper_char c) (toUpperCase rest)
  | EmptyString => EmptyString
  end.

(** [CURRENCY_SYMBOLS[currencyCode.toUpperCase()] || currencyCode] *)
Definition getCurrencySymbol (currencyCode : string) : string :=
  match lookup (toUpperCase currencyCode) CURRENCY_SYMBOLS with
  | Some symbol => if String.eqb symbol "" then currencyCode else symbol
  | None => currencyCode
  end.

End Currency.

(** ** ContextMenu.tsx *)
Module ContextMenu.

(** An item of the menu; its [onClick] is identified by the position of the
    item. *)
#[local] Unset Elimination Schemes.
Inductive Item : Type :=
| MkItem (label : string) (disabled divider : bool) (submenu : list Item).
#[local] Set Elimination Schemes.

Definition label (i : Item) : string :=
  match i with MkItem l _ _ _ => l end.
Definition disabled (i : Item) : bool :=
  match i with MkItem _ d _ _ => d end.
Definition divider (i : Item) : bool :=
  match i with MkItem _ _ d _ => d end.
Definition submenu (i : Item) : list Item :=
  match i with MkItem _ _ _ s => s end.

(** [item.submenu && item.submenu.length > 0] *)
Definition hasSubmenu (i : Item) : bool :=
  match submenu i with
  | [] => false
  | _ :: _ => true
  end.

(** [activeSubmenu], [submenuTimeoutRef.current], and the timers that were
    started and have neither fired nor been cleared. [window.setTimeout]
    returns a fresh positive id; [next] is the next one. *)
Record State : Type := {
  activeSubmenu : option nat;
  submenuTimeoutRef : option nat;
  pending : list nat;
  next : nat
}.

Definition initial : State :=
  {| activeSubmenu := None; submenuTimeoutRef := None; pending := [];
     next := 1 |}.

Inductive Event : Type :=
| ClickItem (index : nat)
| ClickSubItem (index subIndex : nat)
| MouseEnterItem (index : nat)
| MouseLeaveItem (index : nat)
| MouseEnterSubmenu (index : nat)
| MouseLeaveSubmenu (index : nat)
| TimerFires (id : nat)
| ClickOutside
| Escape
| Scroll.

(** A call of the [onClick] of the item at a position, or of [onClose]. *)
Inductive Action : Type :=
| RunItem (index : nat)
| RunSubItem (index subIndex : nat)
| Close.

(** [if (ref.current) { clearTimeout(ref.current); ref.current = null; }] *)
Definition clearSubmenuTimeout (st : State) : State :=
  match submenuTimeoutRef st with
  | Some id =>
      {| activeSubmenu := activeSubmenu st; submenuTimeoutRef := None;
         pending := List.filter (fun t => negb (Nat.eqb t id)) (pending st);
         next := next st |}
  | None => st
  end.

Definition setActiveSubmenu (st : State) (a : option nat) : State :=
  {| activeSubmenu := a; submenuTimeoutRef := submenuTimeoutRef st;
     pending := pending st; next := next st |}.

Definition handleMouseEnterSubmenu (st : State) (index : nat) : State :=
  setActiveSubmenu (clearSubmenuTimeout st) (Some index).

(** [ref.current = window.setTimeout(() => setActiveSubmenu(null), 150)] *)
Definition handleMouseLeaveSubmenu (st : State) : State :=
  {| activeSubmenu := activeSubmenu st;
     submenuTimeoutRef := Some (next st);
     pending := next st :: pending st;
     next := S (next st) |}.

(** The submenu of the item at [index] is rendered. *)
Definition submenu_open (items : list Item) (st : State) (index : nat) : bool :=
  match items !! index with
  | Some item =>
      negb (divider item) && hasSubmenu item
      && bool_decide (activeSubmenu st = Some index)
  | None => false
  end.

(** One event. A divider renders no button, and a disabled button receives
    no click. *)
Definition step (items : list Item) (st : State) (ev : Event)
    : State * list Action :=
  match ev with
  | ClickItem index =>
      match items !! index with
      | Some item =>
          if divider item || disabled item then (st, [])
          else if hasSubmenu item
          then (setActiveSubmenu st
                  (if bool_decide (activeSubmenu st = Some index)
                   then None else Some index), [])
          else (st, [RunItem index; Close])
      | None => (st, [])
      end
  | ClickSubItem index subIndex =>
      if submenu_open items st index then
        match (items !! index) ≫= (fun item => submenu item !! subIndex) with
        | Some subItem =>
            if disabled subItem then (st, [])
            else (st, [RunSubItem index subIndex; Close])
        | None => (st, [])
        end
      else (st, [])
  | MouseEnterItem index =>
      match items !! index with
      | Some item =>
          if negb (divider item) && hasSubmenu item
          then (handleMouseEnterSubmenu st index, [])
          else (st, [])
      | None => (st, [])
      end
  | MouseLeaveItem index =>
      match items !! index with
      | Some item =>
          if negb (divider item) && hasSubmenu item
          then (handleMouseLeaveSubmenu st, [])
          else (st, [])
      | None => (st, [])
      end
  | MouseEnterSubmenu index =>
      if submenu_open items st index then (clearSubmenuTimeout st, [])
      else (st, [])
  | MouseLeaveSubmenu index =>
      if submenu_open items st index then (handleMouseLeaveSubmenu st, [])
      else (st, [])
  | TimerFires id =>
      if existsb (Nat.eqb id) (pending st)
      then ({| activeSubmenu := None;
               submenuTimeoutRef := submenuTimeoutRef st;
               pending := List.filter (fun t => negb (Nat.eqb t id)) (pending st);
               next := next st |}, [])
      else (st, [])
  | ClickOutside | Escape | Scroll => (st, [Close])
  end.

Fixpoint run (items : list Item) (st : State) (evs : list Event)
    : State * list Action :=
  match evs with
  | [] => (st, [])
  | ev :: rest =>
      let '(st1, out1) := step items st ev in
      let '(st2, out2) := run items st1 rest in
      (st2, (out1 ++ out2)%list)
  end.

(** The event is the firing of the timer [id]. *)
Definition is_timer (id : nat) (ev : Event) : bool :=
  match ev with
  | TimerFires id' => Nat.eqb id' id
  | _ => false
  end.

(** The ids in use are below the next fresh one. *)
Definition fresh_inv (st : State) : Prop :=
  (forall id, In id (pending st) -> (id < next st)%nat)
  /\ (forall id, submenuTimeoutRef st = Some id -> (id < next st)%nat).

(** The action runs an enabled item that has no submenu, or an enabled item
    of a submenu. *)
Definition runs_enabled_leaf (items : list Item) (a : Action) : bool :=
  match a with
  | RunItem index =>
      match items !! index with
      | Some item =>
          negb (divider item) && negb (disabled item) && negb (hasSubmenu item)
      | None => false
      end
  | RunSubItem index subIndex =>
      match (items !! index) ≫= (fun item => submenu item !! subIndex) with
      | Some subItem => negb (disabled subItem)
      | None => false
      end
  | Close => true
  end.

End ContextMenu.

(** ** Sample inputs of the further components *)
Module Scenario.

(** A report with a well-formed unit and a null one. *)
Definition broken_report : PrinterStatus :=
  Sample.with_ams (JArr [JObj [("id", JNum 0); ("tray", JArr [JObj []])]; JNull]).

(** A report of one unit with one tray of PLA, with the given ids. *)
Definition report (unit_id tray_id : JsVal) : PrinterStatus :=
  Sample.with_ams
    (JArr [JObj [("id", unit_id);
                 ("tray", JArr [JObj [("id", tray_id);
                                      ("tray_color", JStr "00AE42FF");
                                      ("tray_type", JStr "PLA");
                                      ("remain", JNum 80)]])]]).

(** The unit and the tray of that report, as [parseAMSData] returns them. *)
Definition pla_tray (tray_id : JsVal) : AMSTray.t :=
  {| AMSTray.id := tray_id; AMSTray.color := JStr "00AE42FF";
     AMSTray.type := JStr "PLA"; AMSTray.remain := JNum 80;
     AMSTray.active := false |}.

Definition pla_unit (unit_id tray_id : JsVal) : AMSUnit.t :=
  {| AMSUnit.id := unit_id; AMSUnit.trays := [pla_tray tray_id] |}.

(** The distance 50 is chosen, Z- is clicked, the call is challenged, and
    the user continues. *)
Definition jog_and_confirm
    : list (MovementControls.Env * MovementControls.Event) :=
  [(Sample.online, MovementControls.ClickDistance 50);
   (Sample.online, MovementControls.ClickMove "Z" true);
   (Sample.online, MovementControls.MoveSuccess (Sample.challenge "T1") "Z" (-50));
   (Sample.online, MovementControls.ClickConfirm)].

(** Bed + at a target of 100, the call is challenged, and the user
    continues. *)
Definition heat_and_confirm
    : list (TemperaturePanel.Env * TemperaturePanel.Event) :=
  [(Sample.temperature_env (Some Sample.hot), TemperaturePanel.ClickBed true);
   (Sample.temperature_env (Some Sample.hot),
    TemperaturePanel.BedSuccess (Sample.challenge "T1") 105);
   (Sample.temperature_env (Some Sample.hot), TemperaturePanel.ClickConfirm)].

(** The auxiliary fan is dragged to 50 and the call succeeds. *)
Definition drag_aux_to_50 : list (option PrinterStatus * FanPanel.Event) :=
  [(Some Sample.hot, FanPanel.MouseDown FanControls.Aux);
   (Some Sample.hot, FanPanel.Change FanControls.Aux 50);
   (Some Sample.hot, FanPanel.MouseUp FanControls.Aux);
   (Some Sample.hot, FanPanel.Success FanControls.Aux 50)].

(** Three clicks on the light button before any answer. *)
Definition three_clicks : list (option PrinterStatus * bool * LightSwitch.Event) :=
  [(Some Sample.hot, false, LightSwitch.Click);
   (Some Sample.hot, false, LightSwitch.Click);
   (Some Sample.hot, true, LightSwitch.Click)].

(** The stream was started and failed to load. *)
Definition failed_stream : CameraFeed.State :=
  CameraFeed.run CameraFeed.initial
    [(true, CameraFeed.ClickToggle); (true, CameraFeed.ImageError)].

(** Retry, its timer, Refresh, its timer. *)
Definition retries : list (bool * CameraFeed.Event) :=
  [(true, CameraFeed.ClickRetry); (true, CameraFeed.RefreshTimer);
   (true, CameraFeed.ClickRefresh); (true, CameraFeed.RefreshTimer)].

Definition printers : list PrinterTabs.Printer :=
  [ {| PrinterTabs.id := 3; PrinterTabs.name := "X1C";
       PrinterTabs.nozzle_count := 1 |};
    {| PrinterTabs.id := 7; PrinterTabs.name := "H2D";
       PrinterTabs.nozzle_count := 2 |} ].

Definition h2d : PrinterTabs.Printer :=
  {| PrinterTabs.id := 7; PrinterTabs.name := "H2D";
     PrinterTabs.nozzle_count := 2 |}.

Definition statuses : option (gmap Z PrinterStatus) :=
  Some {[ 7 := Sample.hot ]}.

(** Sample values of the parameters of the print dialog. *)
Definition print_options : PrintModal.PrintOptions :=
  {| PrintModal.bed_levelling := true; PrintModal.flow_cali := false;
     PrintModal.vibration_cali := true; PrintModal.layer_inspect := false;
     PrintModal.timelapse := false |}.

Definition schedule_options : PrintModal.ScheduleOptions :=
  {| PrintModal.scheduleType := PrintModal.Asap;
     PrintModal.scheduledTime := "";
     PrintModal.requirePreviousSuccess := false;
     PrintModal.autoOffAfter := false |}.

Definition never_placeholder (t : string) : bool := false.

(** Every stored text is a date. *)
Definition always_a_date (t : string) : bool := false.

(** The plates of an archive with a single plate, of index 1. *)
Definition single_plate : PrintModal.PlatesData :=
  {| PrintModal.is_multi_plate := Some false; PrintModal.plates := Some [1] |}.

Definition same_text (t : string) : string := t.

(** A queue item whose second filament has no tray. *)
Definition queue_item : PrintModal.QueueItem :=
  {| PrintModal.item_id := 12;
     PrintModal.item_printer_id := Some 3;
     PrintModal.item_plate_id := Some 1;
     PrintModal.item_bed_levelling := Some true;
     PrintModal.item_flow_cali := None;
     PrintModal.item_vibration_cali := None;
     PrintModal.item_layer_inspect := None;
     PrintModal.item_timelapse := Some false;
     PrintModal.item_manual_start := true;
     PrintModal.item_scheduled_time := Some "2026-01-01T10:00:00Z";
     PrintModal.item_require_previous_success := false;
     PrintModal.item_auto_off_after := true;
     PrintModal.item_ams_mapping := Some [4; -1; 2] |}.

Definition inactive_printer : PrinterSelector.Printer :=
  {| PrinterSelector.id := 5; PrinterSelector.is_active := false |}.


(** A menu with an item that opens a submenu. *)
Definition menu : list ContextMenu.Item :=
  [ ContextMenu.MkItem "Open" false false [];
    ContextMenu.MkItem "Move to" false false
      [ContextMenu.MkItem "Archive" false false []] ].

(** The pointer enters "Move to", then leaves its submenu and the item at
    once. *)
Definition left_twice : ContextMenu.State :=
  fst (ContextMenu.run menu ContextMenu.initial
         [ContextMenu.MouseEnterItem 1; ContextMenu.MouseLeaveSubmenu 1;
          ContextMenu.MouseLeaveItem 1]).

End Scenario.

(** * Theorems *)

(** ** Numbers *)
Section Numbers.

Lemma isSafeInteger_bounds (x : Z) :
  - 9007199254740991 <= x <= 9007199254740991 ->
  JsNumber.isSafeInteger x = true.
Proof.
  intro H. unfold JsNumber.isSafeInteger.
  change JsNumber.MAX_SAFE_INTEGER with 9007199254740991.
  apply andb_true_iff. split; apply Z.leb_le; lia.
Qed.

(** A safe integer is a double. *)
Lemma round_safe (x : Z) :
  JsNumber.isSafeInteger x = true -> JsNumber.round x = Some x.
Proof.
  unfold JsNumber.isSafeInteger, JsNumber.round.
  change JsNumber.MAX_SAFE_INTEGER with 9007199254740991.
  change (2 ^ 53) with 9007199254740992.
  intro H. apply andb_true_iff in H as [H1 H2].
  apply Z.leb_le in H1, H2.
  replace (Z.ltb (Z.abs x) 9007199254740992) with true; [reflexivity|].
  symmetry. apply Z.ltb_lt. lia.
Qed.

(** The global tray id of a button whose two ids are numbers, while the
    tray id, the product and the sum are safe integers. *)
Lemma globalTrayId_numbers (unit : AMSUnit.t) (tray : AMSTray.t) (u t : Z) :
  AMSUnit.id unit = JNum u ->
  AMSTray.id tray = JNum t ->
  JsNumber.isSafeInteger (u * 4) = true ->
  JsNumber.isSafeInteger t = true ->
  JsNumber.isSafeInteger (u * 4 + t) = true ->
  AMSTrayButton.globalTrayId unit tray
  = Some (AMSTrayButton.IdNumber (u * 4 + t)).
Proof.
  intros Hu Ht H4 Hts Hg.
  assert (Hus : JsNumber.isSafeInteger u = true).
  { unfold JsNumber.isSafeInteger in *.
    change JsNumber.MAX_SAFE_INTEGER with 9007199254740991 in *.
    apply andb_true_iff in H4 as [H1 H2]. apply Z.leb_le in H1, H2.
    apply andb_true_iff. split; apply Z.leb_le; lia. }
  unfold AMSTrayButton.globalTrayId.
  rewrite Hu, Ht. cbn [JsText.to_number].
  rewrite (round_safe _ Hus), (round_safe _ Hts). cbn.
  unfold JsNumber.add, JsNumber.mul.
  rewrite (round_safe _ H4). cbn. rewrite (round_safe _ Hg). reflexivity.
Qed.

End Numbers.

(** ** State-gated controls *)
Section Permissions.

Import ControlPage PermissionTable.

Lemma idle_flags (v : View) :
  idle v = true ->
  homePending v = false /\ movePending v = false
  /\ disableMotorsPending v = false /\ bedPending v = false
  /\ nozzlePending v = false /\ speedPending v = false
  /\ lightPending v = false /\ loadPending v = false
  /\ unloadPending v = false.
Proof.
  unfold idle. intros H. apply negb_true_iff in H.
  repeat (apply orb_false_iff in H; destruct H as [H ?]).
  repeat split; assumption.
Qed.

Lemma state_is_snapshot (s : PrinterStatus) (st lit : string) :
  state s = Some st -> state_is (Some s) lit = String.eqb st lit.
Proof. intros H. unfold state_is. rewrite H. reflexivity. Qed.

Lemma known_state_cases (st : string) :
  In st known_states ->
  st = "IDLE" \/ st = "RUNNING" \/ st = "PAUSE" \/ st = "FINISH".
Proof.
  unfold known_states. simpl. intros [H | [H | [H | [H | []]]]]; auto.
Qed.

(** How a control reads the page: every [disabled] attribute is a boolean
    combination of [connected], the tests [state === 'RUNNING'] and the
    flags of the view. *)
Ltac unfold_controls :=
  unfold disabled, activate, movement_env, temperature_env in *;
  unfold FanControls.handleMouseUp, LightToggle.handleToggle,
    SpeedControl.onClick, AMSPanel.handleLoad, AMSPanel.handleUnload,
    MovementControls.step, TemperaturePanel.step in *;
  unfold FanControls.disabled, LightToggle.disabled,
    SpeedControl.disabled, SpeedControl.isPrinting,
    AMSPanel.load_disabled, AMSPanel.unload_disabled, AMSPanel.isLoading,
    AMSPanel.isPrinting,
    MovementControls.disabled, MovementControls.isLoading,
    TemperaturePanel.preset_disabled,
    TemperaturePanel.bed_disabled, TemperaturePanel.nozzle_disabled in *;
  cbn [MovementControls.status MovementControls.homePending
       MovementControls.movePending MovementControls.disableMotorsPending
       TemperaturePanel.status TemperaturePanel.bedPending
       TemperaturePanel.nozzlePending snd] in *.

(** C1, as the code has it. With connected=true, nothing in flight and a tray
    selected, the [disabled] attribute of every control of the panels agrees
    with the table of section 4.1 in IDLE, RUNNING, PAUSE and FINISH, with one
    difference: the jog and home buttons are not disabled in RUNNING (the
    panel only shows a banner and leaves the check to the confirmation
    handshake). The entry of AMS load/unload in PAUSE is left out. *)
Theorem decision_follows_table_but_movement_running
    (v : View) (s : PrinterStatus) (st : string) (c : Control) (cat : Category) :
  status v = Some s -> connected s = true -> state s = Some st ->
  In st known_states ->
  idle v = true -> selectedTray v <> None ->
  category c = Some cat ->
  (cat = movement_home -> st = "RUNNING" -> disabled v c = false)
  /\ ((cat, st) <> (movement_home, "RUNNING") ->
      (cat, st) <> (ams_load_unload, "PAUSE") ->
      negb (disabled v c) = usable (table cat st)).
Proof.
  intros Hs Hc Hst Hin Hidle Hsel Hcat.
  apply idle_flags in Hidle.
  destruct Hidle as (H1 & H2 & H3 & H4 & H5 & H6 & H7 & H8 & H9).
  apply known_state_cases in Hin.
  destruct (selectedTray v) as [tray|] eqn:Htray; [clear Hsel | congruence].
  assert (Hconn : isConnected (status v) = true) by (rewrite Hs; exact Hc).
  assert (Hrun := state_is_snapshot s st "RUNNING" Hst).
  rewrite <- Hs in Hrun.
  split.
  - intros -> ->.
    destruct c; simpl in Hcat; try discriminate;
      unfold_controls; rewrite Hconn, H1, H2, H3; reflexivity.
  - intros Hm Ha.
    destruct Hin as [-> | [-> | [-> | ->]]];
      destruct c; simpl in Hcat; inversion Hcat; subst cat;
      try (exfalso; apply Hm; reflexivity);
      try (exfalso; apply Ha; reflexivity);
      unfold_controls;
      rewrite ?Hconn, ?Hrun, ?H1, ?H2, ?H3, ?H4, ?H5, ?H6, ?H7, ?H8, ?H9, ?Htray;
      reflexivity.
Qed.

(** C1 as stated fails for the home button: connected and RUNNING, the table
    says disabled, the button is enabled and a click sends the home command. *)
Lemma home_button_enabled_while_running :
  table movement_home "RUNNING" = Disabled
  /\ disabled (Sample.view (Some (Sample.snapshot true (Some "RUNNING")))) HomeButton
     = false
  /\ activate (Sample.view (Some (Sample.snapshot true (Some "RUNNING")))) HomeButton
     = [{| printerId := 1; command := homeAxes "XYZ"; confirm_token := None |}].
Proof. repeat split; reflexivity. Qed.

(** The entry that the theorem above leaves out: in PAUSE the Load and Unload
    buttons of the AMS panel are enabled ([isPrinting] of that panel only tests
    RUNNING), where the table says disabled. *)
Lemma ams_buttons_enabled_while_paused :
  table ams_load_unload "PAUSE" = Disabled
  /\ disabled (Sample.view (Some (Sample.snapshot true (Some "PAUSE")))) AmsLoadButton
     = false
  /\ disabled (Sample.view (Some (Sample.snapshot true (Some "PAUSE")))) AmsUnloadButton
     = false.
Proof. repeat split; reflexivity. Qed.

(** A speed-mode button is only enabled in RUNNING. *)
Lemma speed_only_while_running (v : View) (mode : Z) :
  disabled v (SpeedButton mode) = false ->
  state_is (status v) "RUNNING" = true.
Proof.
  unfold_controls. intros H.
  apply orb_false_iff in H. destruct H as [H _].
  apply orb_false_iff in H. destruct H as [_ H].
  apply negb_false_iff in H. exact H.
Qed.

(** With connected=false, or with no snapshot at all, every control of the
    panels is disabled and using it with the mouse sends nothing. (A touch
    end on a fan slider is not gated: [touch_end_is_not_gated].) *)
Lemma disconnected_controls_disabled (v : View) (c : Control) :
  isConnected (status v) = false ->
  disabled v c = true /\ activate v c = [].
Proof.
  intros H. destruct c; unfold_controls; rewrite ?H; simpl; split;
    try reflexivity;
    rewrite orb_true_r; reflexivity.
Qed.

(** C7 as stated fails for the fan sliders: connected and FAILED, the decision
    for an unknown state should be disabled, the slider is enabled and
    releasing it at 50% sends the command. *)
Lemma fan_slider_enabled_when_failed :
  ~ In "FAILED" known_states
  /\ table fans "FAILED" = Disabled
  /\ disabled (Sample.view (Some (Sample.snapshot true (Some "FAILED"))))
       (FanSlider FanControls.Aux 50) = false
  /\ activate (Sample.view (Some (Sample.snapshot true (Some "FAILED"))))
       (FanSlider FanControls.Aux 50)
     = [{| printerId := 1; command := setAuxFan 50; confirm_token := None |}].
Proof.
  repeat split; try reflexivity.
  unfold known_states. simpl. intros [H | [H | [H | [H | []]]]]; discriminate.
Qed.

(** C7, as the code has it. The components only ever test
    [state === 'RUNNING'] (and 'PAUSE' for a banner), so a state outside IDLE,
    RUNNING, PAUSE and FINISH, or a missing state, is treated exactly like
    IDLE: with connected=true, nothing in flight and a tray selected, the
    speed-mode buttons are disabled and every other control stays enabled. *)
Theorem unknown_state_is_treated_as_idle
    (v : View) (s : PrinterStatus) (c : Control) :
  status v = Some s -> connected s = true ->
  (forall k, In k known_states -> state s <> Some k) ->
  disabled v c = disabled (with_status v (Some (with_state s (Some "IDLE")))) c
  /\ (idle v = true -> selectedTray v <> None ->
      disabled v c = match c with SpeedButton _ => true | _ => false end).
Proof.
  intros Hs Hc Hk.
  assert (Hconn : isConnected (status v) = true) by (rewrite Hs; exact Hc).
  assert (Hrun : state_is (status v) "RUNNING" = false).
  { unfold state_is. rewrite Hs. destruct (state s) as [x|] eqn:Hx; [|reflexivity].
    apply String.eqb_neq. intros ->. apply (Hk "RUNNING"); [|reflexivity].
    unfold known_states. simpl. auto. }
  split.
  - destruct c; unfold_controls; cbn [status with_status];
      rewrite ?Hconn, ?Hrun; unfold isConnected; cbn; rewrite ?Hc; reflexivity.
  - intros Hidle Hsel. apply idle_flags in Hidle.
    destruct Hidle as (H1 & H2 & H3 & H4 & H5 & H6 & H7 & H8 & H9).
    destruct (selectedTray v) as [tray|] eqn:Htray; [clear Hsel | congruence].
    destruct c; unfold_controls;
      rewrite ?Hconn, ?Hrun,
        ?H1, ?H2, ?H3, ?H4, ?H5, ?H6, ?H7, ?H8, ?H9, ?Htray; reflexivity.
Qed.

End Permissions.

(** ** The AMS panel *)
Section AMS.

Import AMSPanel.

Lemma coalesce_not_nullish (a d : JsVal) :
  Js.nullish d = false -> Js.nullish (Js.coalesce a d) = false.
Proof.
  intros Hd. unfold Js.coalesce. destruct (Js.nullish a) eqn:Ha; assumption.
Qed.

Lemma parseTray_object (fields : list (string * JsVal)) :
  parseTray (JObj fields)
  = Some {| AMSTray.id := Js.coalesce (Js.assoc "id" fields) (JNum 0);
            AMSTray.color := Js.coalesce (Js.assoc "tray_color" fields) (JStr "FFFFFF");
            AMSTray.type := Js.coalesce (Js.assoc "tray_type" fields) (JStr "Unknown");
            AMSTray.remain := Js.coalesce (Js.assoc "remain" fields) (JNum 0);
            AMSTray.active := false |}.
Proof. reflexivity. Qed.

Lemma parseTray_populated (tray : JsVal) (t : AMSTray.t) :
  parseTray tray = Some t -> populated_tray t = true.
Proof.
  unfold parseTray. intros H.
  destruct (Js.prop tray "id") as [i|]; [|discriminate].
  destruct (Js.prop tray "tray_color") as [c|]; [|discriminate].
  destruct (Js.prop tray "tray_type") as [ty|]; [|discriminate].
  destruct (Js.prop tray "remain") as [r|]; [|discriminate].
  simpl in H. injection H as <-. unfold populated_tray. simpl.
  rewrite !coalesce_not_nullish by reflexivity. reflexivity.
Qed.

Lemma mapM_forallb {A B : Type} (f : A -> option B) (p : B -> bool)
    (l : list A) (k : list B) :
  (forall x y, f x = Some y -> p y = true) ->
  mapM f l = Some k -> forallb p k = true.
Proof.
  intros Hf H. apply mapM_Some in H.
  induction H as [|x y l k Hxy _ IH]; simpl; [reflexivity|].
  rewrite (Hf x y Hxy), IH. reflexivity.
Qed.

Lemma parseUnit_populated (unit : JsVal) (u : AMSUnit.t) :
  parseUnit unit = Some u -> populated_unit u = true.
Proof.
  unfold parseUnit. intros H.
  destruct (Js.prop unit "id") as [i|]; [|discriminate].
  destruct (Js.prop unit "tray") as [tr|]; [|discriminate].
  simpl in H.
  destruct (Js.array_map parseTray (Js.coalesce tr (JArr []))) as [ts|] eqn:Hts;
    [|discriminate].
  simpl in H. injection H as <-. unfold populated_unit. simpl.
  rewrite coalesce_not_nullish by reflexivity. simpl.
  unfold Js.array_map in Hts.
  destruct (Js.coalesce tr (JArr [])); try discriminate.
  exact (mapM_forallb parseTray populated_tray _ _ parseTray_populated Hts).
Qed.

Lemma parseAMSData_populated (status : option PrinterStatus) :
  forallb populated_unit (parseAMSData status) = true.
Proof.
  unfold parseAMSData.
  destruct (negb (Js.truthy _)); [reflexivity|].
  destruct (Js.array_map parseUnit _) as [units|] eqn:Hu; [|reflexivity].
  unfold Js.array_map in Hu.
  destruct (Js.prop_opt _ "ams"); try discriminate.
  exact (mapM_forallb parseUnit populated_unit _ _ parseUnit_populated Hu).
Qed.

Lemma parseAMSData_not_array (s : PrinterStatus) :
  (forall items, Js.prop_opt (raw_data s) "ams" <> JArr items) ->
  parseAMSData (Some s) = [].
Proof.
  intros H. unfold parseAMSData.
  destruct (negb (Js.truthy _)); [reflexivity|].
  destruct (Js.prop_opt (raw_data s) "ams") eqn:Hams; try reflexivity.
  exfalso. exact (H _ eq_refl).
Qed.

Lemma parseTray_shaped (v : JsVal) :
  is_object v = true -> is_Some (parseTray v).
Proof. destruct v; try discriminate. intros _. rewrite parseTray_object. eauto. Qed.

Lemma mapM_total {A B : Type} (f : A -> option B) (p : A -> bool) (l : list A) :
  (forall x, p x = true -> is_Some (f x)) ->
  forallb p l = true ->
  exists k, mapM f l = Some k /\ length k = length l.
Proof.
  intros Hf. induction l as [|x l IH]; simpl; intros H.
  - exists []. split; reflexivity.
  - apply andb_true_iff in H. destruct H as [Hx Hl].
    destruct (Hf x Hx) as [y Hy]. destruct (IH Hl) as (k & Hk & Hlen).
    exists (y :: k). rewrite Hy. simpl. rewrite Hk. simpl.
    split; [reflexivity | now rewrite Hlen].
Qed.

Lemma parseUnit_shaped (v : JsVal) :
  unit_shaped v = true -> is_Some (parseUnit v).
Proof.
  destruct v; try discriminate. unfold unit_shaped, parseUnit. simpl.
  destruct (Js.coalesce (Js.assoc "tray" fields) (JArr [])) eqn:Hc;
    try discriminate.
  intros Hts. simpl.
  destruct (mapM_total parseTray is_object items parseTray_shaped Hts)
    as (k & Hk & _).
  rewrite Hk. simpl. eauto.
Qed.

(** A well-shaped [ams] array is parsed element by element: no unit is lost. *)
Lemma parseAMSData_shaped (s : PrinterStatus) (items : list JsVal) :
  Js.prop_opt (raw_data s) "ams" = JArr items ->
  forallb unit_shaped items = true ->
  mapM parseUnit items = Some (parseAMSData (Some s))
  /\ length (parseAMSData (Some s)) = length items.
Proof.
  intros Hams Hshape. unfold parseAMSData. rewrite Hams. simpl.
  destruct (mapM_total parseUnit unit_shaped items parseUnit_shaped Hshape)
    as (k & Hk & Hlen).
  rewrite Hk. split; [reflexivity | exact Hlen].
Qed.

Lemma coalesce_field_or (d : JsVal) (fields : list (string * JsVal))
    (k : string) :
  Js.coalesce (Js.assoc k fields) d = field_or d fields k.
Proof.
  unfold Js.coalesce, field_or. destruct (Js.assoc k fields); reflexivity.
Qed.

Lemma parseTray_expected (v : JsVal) :
  parseTray v = if Js.nullish v then None else Some (expected_tray v).
Proof.
  destruct v; try reflexivity.
  rewrite parseTray_object. simpl. rewrite !coalesce_field_or. reflexivity.
Qed.

Lemma mapM_expected {A B : Type} (f : A -> option B) (ok : A -> bool)
    (g : A -> B) (l : list A) :
  (forall x, f x = if ok x then Some (g x) else None) ->
  mapM f l = if forallb ok l then Some (map g l) else None.
Proof.
  intro Hf. induction l as [|x l IH]; [reflexivity|].
  simpl. rewrite Hf, IH.
  destruct (ok x); [|reflexivity]. simpl.
  destruct (forallb ok l); reflexivity.
Qed.

Lemma parseUnit_expected (v : JsVal) :
  parseUnit v = if readable_unit v then Some (expected_unit v) else None.
Proof.
  destruct v as [| |b|n|str|items|fields]; try reflexivity.
  unfold parseUnit, readable_unit, expected_unit. simpl.
  rewrite coalesce_field_or.
  destruct (Js.assoc "tray" fields) as [| |b|n|str|trays|fs]; try reflexivity.
  simpl.
  rewrite (mapM_expected parseTray (fun t => negb (Js.nullish t))
             expected_tray trays).
  - destruct (forallb _ trays); reflexivity.
  - intro t. rewrite parseTray_expected. destruct (Js.nullish t); reflexivity.
Qed.

(** The parser returns what is expected of it, on every input. *)
Lemma parseAMSData_expected (status : option PrinterStatus) :
  parseAMSData status = expected_units status.
Proof.
  destruct status as [s|]; [|reflexivity].
  unfold parseAMSData, expected_units.
  destruct (Js.prop_opt (raw_data s) "ams") as [| |b|n|str|items|fs];
    try reflexivity; simpl.
  - destruct b; reflexivity.
  - destruct (Z.eqb n 0); reflexivity.
  - destruct (String.eqb str ""); reflexivity.
  - rewrite (mapM_expected parseUnit readable_unit expected_unit items
               parseUnit_expected).
    destruct (forallb readable_unit items); reflexivity.
Qed.

(** C8. [parseAMSData] returns a list for every input, and the list is the
    expected one: empty when there is no status or when [raw_data] has no
    [ams] array (an exception of the mapping is caught, which also empties
    the list when an element of the array cannot be read); otherwise one
    unit per element of [ams], in order, with the id of the element or 0,
    and one tray per element of its [tray], in order, each field of the
    tray with the value of the element or its default: tray id 0, color
    'FFFFFF', type 'Unknown', remain 0, active false. In every unit and tray
    that is returned each field holds a value. *)
Theorem parseAMSData_total_with_defaults :
  (forall status, parseAMSData status = expected_units status)
  /\ parseAMSData None = []
  /\ (forall s, (forall items, Js.prop_opt (raw_data s) "ams" <> JArr items) ->
                parseAMSData (Some s) = [])
  /\ (forall s items,
        Js.prop_opt (raw_data s) "ams" = JArr items ->
        forallb readable_unit items = true ->
        parseAMSData (Some s) = map expected_unit items)
  /\ (forall status, forallb populated_unit (parseAMSData status) = true)
  /\ (forall fields,
        parseTray (JObj fields)
        = Some {| AMSTray.id := Js.coalesce (Js.assoc "id" fields) (JNum 0);
                  AMSTray.color :=
                    Js.coalesce (Js.assoc "tray_color" fields) (JStr "FFFFFF");
                  AMSTray.type :=
                    Js.coalesce (Js.assoc "tray_type" fields) (JStr "Unknown");
                  AMSTray.remain := Js.coalesce (Js.assoc "remain" fields) (JNum 0);
                  AMSTray.active := false |})
  /\ (forall fields trays,
        Js.assoc "tray" fields = JArr trays ->
        forallb (fun t => negb (Js.nullish t)) trays = true ->
        parseUnit (JObj fields)
        = Some {| AMSUnit.id := Js.coalesce (Js.assoc "id" fields) (JNum 0);
                  AMSUnit.trays := map expected_tray trays |})
  /\ (forall fields,
        Js.nullish (Js.assoc "tray" fields) = true ->
        parseUnit (JObj fields)
        = Some {| AMSUnit.id := Js.coalesce (Js.assoc "id" fields) (JNum 0);
                  AMSUnit.trays := [] |})
  /\ expected_tray (JObj []) = default_tray
  /\ expected_unit (JObj []) = {| AMSUnit.id := JNum 0; AMSUnit.trays := [] |}.
Proof.
  split; [exact parseAMSData_expected|].
  split; [reflexivity|].
  split; [exact parseAMSData_not_array|].
  split.
  { intros s items Hams Hok. rewrite parseAMSData_expected. simpl.
    rewrite Hams, Hok. reflexivity. }
  split; [exact parseAMSData_populated|].
  split; [exact parseTray_object|].
  split.
  { intros fields trays Htray Hok. rewrite parseUnit_expected. simpl.
    rewrite Htray, Hok, coalesce_field_or. reflexivity. }
  split.
  { intros fields Hn. rewrite parseUnit_expected. simpl.
    rewrite coalesce_field_or.
    destruct (Js.assoc "tray" fields); try discriminate; reflexivity. }
  split; reflexivity.
Qed.

Example parseAMSData_one_unit :
  parseAMSData (Some (Sample.with_ams Sample.one_unit))
  = [{| AMSUnit.id := JNum 0;
        AMSUnit.trays :=
          [{| AMSTray.id := JNum 0; AMSTray.color := JStr "FF0000FF";
              AMSTray.type := JStr "PLA"; AMSTray.remain := JNum 80;
              AMSTray.active := false |};
           {| AMSTray.id := JNum 1; AMSTray.color := JStr "FFFFFF";
              AMSTray.type := JStr "Unknown"; AMSTray.remain := JNum 0;
              AMSTray.active := false |};
           default_tray] |}].
Proof. reflexivity. Qed.

(** The exception paths: [ams] that is not an array, a null unit, a [tray]
    that is not an array. *)
Example parseAMSData_caught :
  parseAMSData (Some (Sample.with_ams (JNum 5))) = []
  /\ parseAMSData (Some (Sample.with_ams (JArr [JObj []; JNull]))) = []
  /\ parseAMSData (Some (Sample.with_ams (JArr [JObj [("tray", JStr "x")]]))) = []
  /\ parseAMSData (Some (Sample.snapshot true None)) = [].
Proof. repeat split; reflexivity. Qed.

(** C9, as the code has it. For the button of a tray whose unit has the
    number [u] as its id, an integer with [0 <= u < 2^51], and whose own id
    is the number [t], an integer with [0 <= t <= 3]: the global tray id is
    [g = u * 4 + t], it gives back both, [g % 4 = t] and
    [floor(g / 4) = u], a click on the button selects [g], and the line
    "Selected: Slot .. (AMS ..)" shows [t + 1] and [u + 1], the numbers on
    the tray button and on the unit. *)
Theorem globalTrayId_roundtrip (unit : AMSUnit.t) (tray : AMSTray.t)
    (u t : Z) :
  AMSUnit.id unit = JNum u ->
  AMSTray.id tray = JNum t ->
  0 <= u < 2 ^ 51 ->
  0 <= t <= 3 ->
  let g := u * 4 + t in
  AMSTrayButton.globalTrayId unit tray = Some (AMSTrayButton.IdNumber g)
  /\ Z.rem g 4 = t
  /\ g / 4 = u
  /\ AMSTrayButton.selectedSlot (AMSTrayButton.IdNumber g) = Some (t + 1)
  /\ AMSTrayButton.selectedAms (AMSTrayButton.IdNumber g) = Some (u + 1)
  /\ (forall status,
        isPrinting status = false ->
        AMSTrayButton.isEmpty tray = false ->
        AMSTrayButton.onClick status None unit tray
        = Some (Some (AMSTrayButton.IdNumber g))).
Proof.
  intros Hu Ht Hur Htr g.
  change (2 ^ 51) with 2251799813685248 in Hur.
  assert (Hg : AMSTrayButton.globalTrayId unit tray
               = Some (AMSTrayButton.IdNumber g)).
  { apply globalTrayId_numbers; try assumption; apply isSafeInteger_bounds;
      unfold g; lia. }
  assert (Hadd : forall x, 0 <= x <= 9007199254740990 ->
                           JsNumber.add x 1 = Some (x + 1)).
  { intros x Hx. unfold JsNumber.add. apply round_safe.
    apply isSafeInteger_bounds. lia. }
  assert (Hrem : Z.rem g 4 = t).
  { unfold g. rewrite Z.rem_mod_nonneg by lia.
    rewrite Z.add_comm, Z.mod_add by lia. apply Z.mod_small. lia. }
  assert (Hdiv : g / 4 = u).
  { unfold g. rewrite Z.div_add_l by lia. rewrite Z.div_small by lia. lia. }
  split; [exact Hg|]. split; [exact Hrem|]. split; [exact Hdiv|].
  split; [|split].
  - unfold AMSTrayButton.selectedSlot. cbn. rewrite Hrem.
    apply Hadd. lia.
  - unfold AMSTrayButton.selectedAms. cbn. rewrite Hdiv.
    apply Hadd. lia.
  - intros status Hp He. unfold AMSTrayButton.onClick.
    rewrite He, Hp, Hg. reflexivity.
Qed.

(** C9 as stated, for every unit id, fails on the code in three ways. The
    remainder of JavaScript takes the sign of the dividend: for [u = -1]
    and [t = 1] the id is -3, [-3 % 4] is -3, and the line shows slot -2,
    not 2. The sum is a double: for [u = 2^51] and [t = 1] it is rounded to
    [2^53], and the line shows slot 1, not 2. And the parser keeps an id
    that is a string: for the ids '1' and '2' the product is 4, the sum is
    the text '42', and the line shows AMS 11, not 2. *)
Lemma negative_unit_id_loses_the_slot :
  0 <= 1 <= 3
  /\ AMSTrayButton.buttons (Some (Scenario.report (JNum (-1)) (JNum 1)))
     = [(Scenario.pla_unit (JNum (-1)) (JNum 1), Scenario.pla_tray (JNum 1))]
  /\ AMSTrayButton.globalTrayId (Scenario.pla_unit (JNum (-1)) (JNum 1))
       (Scenario.pla_tray (JNum 1))
     = Some (AMSTrayButton.IdNumber (-3))
  /\ Z.rem (-3) 4 = -3
  /\ AMSTrayButton.selectedSlot (AMSTrayButton.IdNumber (-3)) = Some (-2)
  /\ AMSTrayButton.selectedAms (AMSTrayButton.IdNumber (-3)) = Some 0
  /\ AMSTrayButton.buttons (Some (Scenario.report (JNum (2 ^ 51)) (JNum 1)))
     = [(Scenario.pla_unit (JNum (2 ^ 51)) (JNum 1),
         Scenario.pla_tray (JNum 1))]
  /\ AMSTrayButton.globalTrayId (Scenario.pla_unit (JNum (2 ^ 51)) (JNum 1))
       (Scenario.pla_tray (JNum 1))
     = Some (AMSTrayButton.IdNumber (2 ^ 53))
  /\ AMSTrayButton.selectedSlot (AMSTrayButton.IdNumber (2 ^ 53)) = Some 1
  /\ AMSTrayButton.selectedAms (AMSTrayButton.IdNumber (2 ^ 53))
     = Some (2 ^ 51 + 1)
  /\ AMSTrayButton.buttons (Some (Scenario.report (JStr "1") (JStr "2")))
     = [(Scenario.pla_unit (JStr "1") (JStr "2"), Scenario.pla_tray (JStr "2"))]
  /\ AMSTrayButton.globalTrayId (Scenario.pla_unit (JStr "1") (JStr "2"))
       (Scenario.pla_tray (JStr "2"))
     = Some (AMSTrayButton.IdText "42")
  /\ AMSTrayButton.selectedSlot (AMSTrayButton.IdText "42") = Some 3
  /\ AMSTrayButton.selectedAms (AMSTrayButton.IdText "42") = Some 11.
Proof. vm_compute. repeat split; try reflexivity; discriminate. Qed.

End AMS.

(** ** The temperature panel *)
Section Temperature.

Import TemperaturePanel.

Lemma newTarget_clamped (e : Env) (ty : HeaterType) (delta noz : Z) :
  0 <= newTarget e ty delta noz
       <= match ty with Bed => 120 | Nozzle => 300 end.
Proof. unfold newTarget. destruct ty; lia. Qed.

(** C10. Whatever the current target and the delta, [adjustTemp] sends exactly
    one request and its target is clamped: 0 to 120 for the bed, 0 to 300 for
    a nozzle. The same holds for every request that a click on a +/- button
    sends. *)
Theorem adjustTemp_clamped (e : Env) (ty : HeaterType) (delta noz : Z) :
  adjustTemp e ty delta noz
  = [match ty with
     | Bed => bedMutation e (newTarget e ty delta noz) None
     | Nozzle => nozzleMutation e (newTarget e ty delta noz) noz None
     end]
  /\ 0 <= newTarget e ty delta noz
         <= match ty with Bed => 120 | Nozzle => 300 end
  /\ forallb within_limits (adjustTemp e ty delta noz) = true
  /\ (forall st plus,
        forallb within_limits (snd (step e st (ClickBed plus))) = true)
  /\ (forall st plus n,
        forallb within_limits (snd (step e st (ClickNozzle plus n))) = true).
Proof.
  assert (Hall : forall ty' d n,
             forallb within_limits (adjustTemp e ty' d n) = true).
  { intros ty' d n. pose proof (newTarget_clamped e ty' d n) as H.
    destruct ty'; simpl; unfold within_limits; simpl;
      rewrite andb_true_r; apply andb_true_iff; split; apply Z.leb_le; lia. }
  split; [destruct ty; reflexivity|].
  split; [apply newTarget_clamped|].
  split; [apply Hall|].
  split.
  - intros st plus. unfold step.
    destruct (bed_disabled e); [reflexivity | apply Hall].
  - intros st plus n. unfold step.
    destruct (nozzle_disabled e); [reflexivity|].
    destruct (existsb _ _); [apply Hall | reflexivity].
Qed.

Example adjustTemp_at_the_limits :
  adjustTemp (Sample.temperature_env (Some Sample.hot)) Bed 50 0
  = [{| printerId := 1; command := setBedTemperature 120; confirm_token := None |}]
  /\ adjustTemp (Sample.temperature_env (Some Sample.hot)) Nozzle 50 0
     = [{| printerId := 1; command := setNozzleTemperature 300 0;
           confirm_token := None |}]
  /\ adjustTemp (Sample.temperature_env None) Bed (-5) 0
     = [{| printerId := 1; command := setBedTemperature 0; confirm_token := None |}].
Proof. repeat split; reflexivity. Qed.

End Temperature.

(** ** The executor of the handshake *)
Section ExecutorFacts.

Import Executor.

Variable rc : Command -> bool.
Variable wt : Command -> string.

Lemma token_of_inj (n m : nat) : token_of n = token_of m -> n = m.
Proof.
  unfold token_of. cbv [String.append]. intros H. injection H as H.
  assert (Hu : Some (Nat.to_uint n) = Some (Nat.to_uint m)).
  { rewrite <- !NilEmpty.usu. rewrite H. reflexivity. }
  injection Hu as Hu.
  rewrite <- (Unsigned.of_to n), <- (Unsigned.of_to m).
  rewrite Hu. reflexivity.
Qed.

(** The first call of a command that requires confirmation: a fresh challenge
    is recorded, the device is untouched. *)
Lemma exec_first_call (s : State) (r : Request) :
  rc (command r) = true ->
  confirm_token r = None ->
  exec rc wt s r
  = ({| pending := <[key r := token_of (S (issued s))]> (pending s);
        issued := S (issued s);
        device := device s |},
     Challenge (token_of (S (issued s))) (wt (command r))).
Proof. intros Hrc Htok. unfold Executor.exec. rewrite Hrc, Htok. reflexivity. Qed.


(** The confirm step with any other token. *)
Lemma exec_reject (s : State) (r : Request) (t : string) :
  rc (command r) = true ->
  confirm_token r = Some t ->
  pending s !! key r <> Some t ->
  exec rc wt s r
  = ({| pending := delete (key r) (pending s);
        issued := issued s;
        device := device s |},
     Failure InvalidOrExpiredToken).
Proof.
  intros Hrc Htok Hp. unfold Executor.exec. rewrite Hrc, Htok.
  rewrite bool_decide_eq_false_2 by exact Hp. reflexivity.
Qed.


(** The device only moves, for a command that requires confirmation, on a
    call that bears the token pending for its key. *)
Lemma exec_performs_only_confirmed (s : State) (r : Request) :
  rc (command r) = true ->
  device (fst (exec rc wt s r)) <> device s ->
  exists t, confirm_token r = Some t /\ pending s !! key r = Some t.
Proof.
  intros Hrc. unfold Executor.exec. rewrite Hrc.
  destruct (confirm_token r) as [t|]; simpl; [|congruence].
  destruct (bool_decide (pending s !! key r = Some t)) eqn:Hd; simpl;
    [|congruence].
  intros _. exists t. split; [reflexivity|].
  apply bool_decide_eq_true_1 in Hd. exact Hd.
Qed.


Lemma issued_token_mono (s : State) (r : Request) (t : string) :
  issued_token s t -> issued_token (fst (exec rc wt s r)) t.
Proof.
  intros (n & -> & Hn). exists n. split; [reflexivity|].
  unfold Executor.exec.
  destruct (rc (command r)); [|simpl; lia].
  destruct (confirm_token r); [destruct (bool_decide _)|]; simpl; lia.
Qed.

Lemma fresh_not_issued (s : State) :
  ~ issued_token s (token_of (S (issued s))).
Proof. intros (n & H & Hn). apply token_of_inj in H. lia. Qed.



(** A spent token stays spent: the executor never hands a token out twice. *)
Lemma exec_spent (s : State) (r : Request) (t : string) :
  spent s t -> spent (fst (exec rc wt s r)) t.
Proof.
  intros [Hiss Hno]. split; [apply issued_token_mono; exact Hiss|].
  intros k. unfold Executor.exec.
  destruct (rc (command r)); [|apply Hno].
  destruct (confirm_token r) as [t'|]; [destruct (bool_decide _)|]; simpl.
  - intros H. apply lookup_delete_Some in H as [_ H]. exact (Hno k H).
  - intros H. apply lookup_delete_Some in H as [_ H]. exact (Hno k H).
  - intros H. apply lookup_insert_Some in H as [[_ E] | [_ H]].
    + apply (fresh_not_issued s). rewrite E. exact Hiss.
    + exact (Hno k H).
Qed.



(** A call with a spent token fails with InvalidOrExpiredToken and leaves the
    device alone. *)
Lemma exec_spent_rejected (s : State) (r : Request) (t : string) :
  spent s t ->
  rc (command r) = true ->
  confirm_token r = Some t ->
  snd (exec rc wt s r) = Failure InvalidOrExpiredToken
  /\ device (fst (exec rc wt s r)) = device s.
Proof.
  intros [_ Hno] Hrc Htok.
  rewrite (exec_reject s r t Hrc Htok (Hno _)). split; reflexivity.
Qed.

(** ... and so does every later call with it, whatever is served in
    between. *)
Lemma serve_spent_rejected (rs : list Request) (s : State) (t : string) :
  spent s t ->
  Forall2 (fun r a => rc (command r) = true -> confirm_token r = Some t ->
                      a = Failure InvalidOrExpiredToken)
          rs (snd (serve rc wt s rs)).
Proof.
  revert s. induction rs as [|r rs IH]; intros s Hs; simpl; [constructor|].
  pose proof (exec_spent s r t Hs) as H1.
  pose proof (exec_spent_rejected s r t Hs) as H2.
  destruct (exec rc wt s r) as [s1 a]. simpl in H1, H2.
  specialize (IH s1 H1).
  destruct (serve rc wt s1 rs) as [s2 answers]. simpl in *.
  constructor; [|exact IH].
  intros Hrc Htok. exact (proj1 (H2 Hrc Htok)).
Qed.

End ExecutorFacts.

(** ** The confirmation dialog of the movement panel *)
Section MovementDialog.

Import MovementControls.

(** A click that starts a command sends at most one request, without a
    token. *)
Lemma movement_click_tokenless (e : Env) (st : State) (ev : Event) (r : Request) :
  starts_command ev = true ->
  In r (snd (step e st ev)) ->
  confirm_token r = None /\ fst (step e st ev) = st.
Proof.
  destruct ev; try discriminate; intros _; unfold step, handleConfirm, handleHome, handleMove, handleDisableMotors,
    homeMutation_onSuccess, moveMutation_onSuccess,
    disableMotorsMutation_onSuccess.
  - destruct (disabled e || _); simpl; [intros []|].
    intros [<- | []]. split; reflexivity.
  - destruct (disabled e); simpl; [intros []|].
    intros [<- | []]. split; reflexivity.
  - destruct (disabled e); simpl; [intros []|].
    intros [<- | []]. split; reflexivity.
Qed.

Lemma movement_click_command (e : Env) (st : State) (ev : Event) (r : Request) :
  starts_command ev = true ->
  In r (snd (step e st ev)) ->
  (command r = homeAxes "XYZ"
   \/ (exists axis distance, command r = moveAxis axis distance 3000)
   \/ command r = disableMotors).
Proof.
  destruct ev; try discriminate; intros _; unfold step, handleConfirm, handleHome, handleMove, handleDisableMotors,
    homeMutation_onSuccess, moveMutation_onSuccess,
    disableMotorsMutation_onSuccess.
  - destruct (disabled e || _); simpl; [intros []|].
    intros [<- | []]. right. left. simpl. eauto.
  - destruct (disabled e); simpl; [intros []|].
    intros [<- | []]. left. reflexivity.
  - destruct (disabled e); simpl; [intros []|].
    intros [<- | []]. right. right. reflexivity.
Qed.




Lemma movement_confirm_nothing (e : Env) (st : State) :
  confirmModal st = None -> step e st ClickConfirm = (st, []).
Proof. intros H. unfold step, handleConfirm, handleHome, handleMove, handleDisableMotors,
    homeMutation_onSuccess, moveMutation_onSuccess,
    disableMotorsMutation_onSuccess. rewrite H. reflexivity. Qed.


(** A step keeps a token forgotten unless the event delivers it again, and
    sends no request that carries it. *)
Lemma movement_step_forgotten (t : string) (e : Env) (st : State) (ev : Event) :
  forgotten t st ->
  delivers t ev = false ->
  forgotten t (fst (step e st ev))
  /\ forallb (fun r => negb (carries t r)) (snd (step e st ev)) = true.
Proof.
  intros Hst Hev. unfold forgotten in *.
  destruct ev; unfold step, handleConfirm, handleHome, handleMove, handleDisableMotors,
    homeMutation_onSuccess, moveMutation_onSuccess,
    disableMotorsMutation_onSuccess.
  - destruct (existsb _ _); simpl; split; auto.
  - destruct (disabled e || _); simpl; split; auto.
  - destruct (disabled e); simpl; split; auto.
  - destruct (disabled e); simpl; split; auto.
  - destruct (confirmModal st) as [m|] eqn:Hm; simpl.
    + split; [discriminate|]. rewrite (Hst m eq_refl e). reflexivity.
    + split; [|reflexivity]. rewrite Hm. discriminate.
  - simpl. split; [discriminate | reflexivity].
  - destruct result as [|tok warn]; simpl; [split; auto|].
    split; [|reflexivity]. intros m [= <-] e'. simpl in *.
    unfold carries. simpl. exact Hev.
  - destruct result as [|tok warn]; simpl; [split; auto|].
    split; [|reflexivity]. intros m [= <-] e'. simpl in *.
    unfold carries. simpl. exact Hev.
  - destruct result as [|tok warn]; simpl; [split; auto|].
    split; [|reflexivity]. intros m [= <-] e'. simpl in *.
    unfold carries. simpl. exact Hev.
Qed.

Lemma movement_run_forgotten (t : string) (evs : list (Env * Event)) (st : State) :
  forgotten t st ->
  forallb (fun x => negb (delivers t (snd x))) evs = true ->
  forallb (fun r => negb (carries t r)) (snd (run st evs)) = true.
Proof.
  revert st. induction evs as [|[e ev] evs IH]; intros st Hst Hevs; simpl;
    [reflexivity|].
  simpl in Hevs. apply andb_true_iff in Hevs. destruct Hevs as [Hev Hevs].
  apply negb_true_iff in Hev.
  destruct (movement_step_forgotten t e st ev Hst Hev) as [H1 H2].
  destruct (step e st ev) as [st1 out1]. simpl in H1, H2.
  specialize (IH st1 H1 Hevs).
  destruct (run st1 evs) as [st2 out2]. simpl in *.
  rewrite forallb_app. rewrite H2, IH. reflexivity.
Qed.

End MovementDialog.

(** ** The confirmation dialog of the temperature panel *)
Section TemperatureDialog.

Import TemperaturePanel.



(** Continue: one request, built from what the dialog holds, and the dialog
    is cleared. *)
Lemma temperature_confirm (e : Env) (st : State) (m : ConfirmModalState) :
  confirmModal st = Some m ->
  step e st ClickConfirm
  = ({| confirmModal := None |},
     [match type m with
      | Bed => bedMutation e (target m) (Some (token m))
      | Nozzle => nozzleMutation e (target m) (default 0 (nozzle m))
                    (Some (token m))
      end]).
Proof. intros H. unfold step, handleConfirm, bedMutation_onSuccess,
    nozzleMutation_onSuccess. rewrite H. destruct (type m); reflexivity. Qed.

Lemma temperature_confirm_nothing (e : Env) (st : State) :
  confirmModal st = None -> step e st ClickConfirm = (st, []).
Proof. intros H. unfold step, handleConfirm, bedMutation_onSuccess,
    nozzleMutation_onSuccess. rewrite H. reflexivity. Qed.


Lemma temperature_step_forgotten (t : string) (e : Env) (st : State) (ev : Event) :
  forgotten t st ->
  delivers t ev = false ->
  forgotten t (fst (step e st ev))
  /\ forallb (fun r => negb (carries t r)) (snd (step e st ev)) = true.
Proof.
  intros Hst Hev. unfold forgotten in *.
  destruct ev; unfold step, handleConfirm, bedMutation_onSuccess,
    nozzleMutation_onSuccess.
  - destruct (preset_disabled e); [simpl; split; auto|].
    destruct (existsb _ PRESETS); [|simpl; split; auto].
    split; [auto|]. unfold handlePreset.
    destruct (Z.ltb 1 (nozzleCount e)); reflexivity.
  - destruct (bed_disabled e); simpl; split; auto.
  - destruct (nozzle_disabled e); [simpl; split; auto|].
    destruct (existsb _ (nozzles e)); simpl; split; auto.
  - destruct (confirmModal st) as [m|] eqn:Hm; simpl.
    + split; [discriminate|].
      destruct (type m); simpl; unfold carries; simpl;
        rewrite (Hst m eq_refl); reflexivity.
    + split; [|reflexivity]. rewrite Hm. discriminate.
  - simpl. split; [discriminate | reflexivity].
  - destruct result as [|tok warn]; simpl; [split; auto|].
    split; [|reflexivity]. intros m [= <-]. simpl in *. exact Hev.
  - destruct result as [|tok warn]; simpl; [split; auto|].
    split; [|reflexivity]. intros m [= <-]. simpl in *. exact Hev.
Qed.

Lemma temperature_run_forgotten (t : string) (evs : list (Env * Event))
    (st : State) :
  forgotten t st ->
  forallb (fun x => negb (delivers t (snd x))) evs = true ->
  forallb (fun r => negb (carries t r)) (snd (run st evs)) = true.
Proof.
  revert st. induction evs as [|[e ev] evs IH]; intros st Hst Hevs; simpl;
    [reflexivity|].
  simpl in Hevs. apply andb_true_iff in Hevs. destruct Hevs as [Hev Hevs].
  apply negb_true_iff in Hev.
  destruct (temperature_step_forgotten t e st ev Hst Hev) as [H1 H2].
  destruct (step e st ev) as [st1 out1]. simpl in H1, H2.
  specialize (IH st1 H1 Hevs).
  destruct (run st1 evs) as [st2 out2]. simpl in *.
  rewrite forallb_app. rewrite H2, IH. reflexivity.
Qed.

End TemperatureDialog.

(** ** The handshake *)
Section Handshake.

Import Executor.

Lemma per_kind_flag_kinds (c : Command) :
  In (kind c) ["home"; "move"; "disableMotors"; "stop"] ->
  per_kind_flag c = true.
Proof.
  destruct c; simpl; intros H; try reflexivity;
    repeat (destruct H as [H | H]; [discriminate|]); contradiction.
Qed.

(** C2. For each of the kinds home, move, disableMotors and stop, under any
    classification that flags these kinds: the call without a token performs
    nothing on the device and only yields a challenge, recorded for the key of
    the command; the device is only ever touched, for a flagged command, by a
    call that bears the token pending for its key; and the clicks of the
    movement panel that start home, move and disableMotors send their request
    without a token. *)
Theorem first_call_only_yields_a_challenge
    (rc : Command -> bool) (wt : Command -> string) (s : State) (r : Request) :
  (forall c, per_kind_flag c = true -> rc c = true) ->
  In (kind (command r)) ["home"; "move"; "disableMotors"; "stop"] ->
  confirm_token r = None ->
  (exists t,
     exec rc wt s r
     = ({| pending := <[key r := t]> (pending s);
           issued := S (issued s);
           device := device s |},
        Challenge t (wt (command r))))
  /\ device (fst (exec rc wt s r)) = device s
  /\ (forall s' r',
        rc (command r') = true ->
        device (fst (exec rc wt s' r')) <> device s' ->
        exists t, confirm_token r' = Some t /\ pending s' !! key r' = Some t)
  /\ (forall e st ev r',
        MovementControls.starts_command ev = true ->
        In r' (snd (MovementControls.step e st ev)) ->
        confirm_token r' = None /\ per_kind_flag (command r') = true).
Proof.
  intros Hflag Hkind Htok.
  assert (Hrc : rc (command r) = true)
    by (apply Hflag, per_kind_flag_kinds, Hkind).
  rewrite (exec_first_call rc wt s r Hrc Htok).
  split; [eexists; reflexivity|].
  split; [reflexivity|].
  split; [intros s' r'; apply exec_performs_only_confirmed|].
  intros e st ev r' Hev Hin. split.
  - exact (proj1 (movement_click_tokenless e st ev r' Hev Hin)).
  - destruct (movement_click_command e st ev r' Hev Hin)
      as [Hc | [(axis & distance & Hc) | Hc]]; rewrite Hc; reflexivity.
Qed.

(** The scenario of the specification: stop without a token, stop with the
    token, stop with the token again. *)
Example stop_scenario :
  serve per_kind_flag Sample.warning_text initial
    [Sample.stop_request None; Sample.stop_request (Some "T1");
     Sample.stop_request (Some "T1")]
  = ({| pending := ∅; issued := 1; device := [(1, stopPrint)] |},
     [Challenge "T1" "Are you sure?"; Success; Failure InvalidOrExpiredToken]).
Proof. vm_compute. reflexivity. Qed.






End Handshake.

(** ** One dialog per panel *)
Section Independence.

Import Executor.


(** The same exchange against the executor: it keeps both challenges, each
    under its own key, and the one of home stays pending there for good. *)
Example two_challenges_at_the_executor :
  snd Sample.two_challenges
  = [{| printerId := 1; command := homeAxes "XYZ"; confirm_token := None |};
     {| printerId := 1; command := disableMotors; confirm_token := None |}]
  /\ pending (snd (fst Sample.two_challenges)) !! (1, "home", None) = Some "T1"
  /\ pending (snd (fst Sample.two_challenges)) !! (1, "disableMotors", None)
     = Some "T2"
  /\ option_map MovementControls.token
       (MovementControls.confirmModal (fst (fst Sample.two_challenges)))
     = Some "T2".
Proof. vm_compute. repeat split; reflexivity. Qed.

(** The same in the temperature panel, without any click while the dialog
    is open: bed + and nozzle + are clicked one after the other (each button
    is only disabled by its own hook), both calls are challenged, and the
    dialog keeps the second challenge only. *)
Example temperature_challenges_overlap :
  TemperaturePanel.run TemperaturePanel.initial
    [(Sample.temperature_env (Some Sample.hot), TemperaturePanel.ClickBed true);
     (Sample.temperature_env (Some Sample.hot),
      TemperaturePanel.ClickNozzle true 0);
     (Sample.temperature_env (Some Sample.hot),
      TemperaturePanel.BedSuccess (ConfirmationRequired "T1" "hot bed") 105);
     (Sample.temperature_env (Some Sample.hot),
      TemperaturePanel.NozzleSuccess (ConfirmationRequired "T2" "hot nozzle")
        265 0);
     (Sample.temperature_env (Some Sample.hot), TemperaturePanel.ClickConfirm);
     (Sample.temperature_env (Some Sample.hot), TemperaturePanel.ClickConfirm)]
  = ({| TemperaturePanel.confirmModal := None |},
     [{| printerId := 1; command := setBedTemperature 105; confirm_token := None |};
      {| printerId := 1; command := setNozzleTemperature 265 0;
         confirm_token := None |};
      {| printerId := 1; command := setNozzleTemperature 265 0;
         confirm_token := Some "T2" |}]).
Proof. vm_compute. reflexivity. Qed.


End Independence.

(** ** Cancelling *)
Section Cancel.

(** C5. Cancel sends nothing and clears the dialog, in both panels; and from
    then on, through any events of the panel in which the executor does not
    hand out the token once more, no request carries the token that was
    cancelled. *)
Theorem cancelled_token_is_never_resubmitted (t : string) :
  (forall e st evs,
      forallb (fun x => negb (MovementControls.delivers t (snd x))) evs = true ->
      MovementControls.step e st MovementControls.ClickCancel
      = (MovementControls.setConfirmModal st None, [])
      /\ forallb (fun r => negb (carries t r))
           (snd (MovementControls.run st
                   ((e, MovementControls.ClickCancel) :: evs))) = true)
  /\ (forall e st evs,
        forallb (fun x => negb (TemperaturePanel.delivers t (snd x))) evs = true ->
        TemperaturePanel.step e st TemperaturePanel.ClickCancel
        = ({| TemperaturePanel.confirmModal := None |}, [])
        /\ forallb (fun r => negb (carries t r))
             (snd (TemperaturePanel.run st
                     ((e, TemperaturePanel.ClickCancel) :: evs))) = true).
Proof.
  split.
  - intros e st evs Hevs. split; [reflexivity|].
    change (MovementControls.run st ((e, MovementControls.ClickCancel) :: evs))
      with (let '(st2, out2) :=
              MovementControls.run (MovementControls.setConfirmModal st None) evs
            in (st2, ([] ++ out2)%list)).
    pose proof (movement_run_forgotten t evs
                  (MovementControls.setConfirmModal st None)) as H.
    destruct (MovementControls.run _ evs) as [st2 out2]. simpl in *.
    apply H; [|exact Hevs]. intros m Hm. discriminate.
  - intros e st evs Hevs. split; [reflexivity|].
    change (TemperaturePanel.run st ((e, TemperaturePanel.ClickCancel) :: evs))
      with (let '(st2, out2) :=
              TemperaturePanel.run {| TemperaturePanel.confirmModal := None |} evs
            in (st2, ([] ++ out2)%list)).
    pose proof (temperature_run_forgotten t evs
                  {| TemperaturePanel.confirmModal := None |}) as H.
    destruct (TemperaturePanel.run _ evs) as [st2 out2]. simpl in *.
    apply H; [|exact Hevs]. intros m Hm. discriminate.
Qed.

End Cancel.

(** ** Connectivity and the dialog *)
Section Connectivity.

(** C6 on the code. Home is clicked while the printer is connected and the
    call resolves to a challenge; the next snapshot reports connected=false,
    which disables every button of the panel (a click on Home sends nothing);
    Continue in the dialog is not gated and still sends the home command with
    the token. *)
Lemma continue_is_not_gated_by_connectivity :
  isConnected (MovementControls.status Sample.offline) = false
  /\ MovementControls.disabled Sample.offline = true
  /\ MovementControls.run MovementControls.initial Sample.disconnect_then_continue
     = (MovementControls.initial,
        [{| printerId := 1; command := homeAxes "XYZ"; confirm_token := None |};
         {| printerId := 1; command := homeAxes "XYZ";
            confirm_token := Some "T1" |}]).
Proof. vm_compute. repeat split; reflexivity. Qed.

(** The same against the executor: the command sent by Continue is
    performed. *)
Example continue_while_disconnected_is_performed :
  MovementSession.session Executor.per_kind_flag Sample.warning_text
    MovementControls.initial Executor.initial
    [(Sample.online, MovementControls.ClickHome);
     (Sample.offline, MovementControls.ClickHome);
     (Sample.offline, MovementControls.ClickConfirm)]
  = (MovementControls.initial,
     {| Executor.pending := ∅; Executor.issued := 1;
        Executor.device := [(1, homeAxes "XYZ")] |},
     [{| printerId := 1; command := homeAxes "XYZ"; confirm_token := None |};
      {| printerId := 1; command := homeAxes "XYZ";
         confirm_token := Some "T1" |}]).
Proof. vm_compute. reflexivity. Qed.

End Connectivity.

(** ** The movement panel and the executor together *)
Section ClosedSystem.

Import Executor.

Variable rc : Command -> bool.
Variable wt : Command -> string.

(** A challenge of the executor never carries a token that was issued
    before. *)
Lemma exec_challenge_is_fresh (s : State) (r : Request) (t t' w : string) :
  issued_token s t ->
  snd (exec rc wt s r) = Challenge t' w ->
  String.eqb t' t = false.
Proof.
  intros Hiss. unfold Executor.exec.
  destruct (rc (command r)); [|discriminate].
  destruct (confirm_token r); [destruct (bool_decide _); discriminate|].
  simpl. intros [= <- _]. apply String.eqb_neq. intros E.
  apply (fresh_not_issued s). rewrite E. exact Hiss.
Qed.

Lemma settle_forgotten (t : string) (e : MovementControls.Env)
    (rs : list Request) (st : MovementControls.State) (srv : State) :
  MovementControls.forgotten t st ->
  issued_token srv t ->
  MovementControls.forgotten t (fst (MovementSession.settle rc wt e st srv rs))
  /\ issued_token (snd (MovementSession.settle rc wt e st srv rs)) t.
Proof.
  revert st srv. induction rs as [|r rs IH]; intros st srv Hst Hsrv; simpl;
    [split; assumption|].
  pose proof (exec_challenge_is_fresh srv r t) as Hfresh.
  pose proof (issued_token_mono rc wt srv r t Hsrv) as Hmono.
  destruct (exec rc wt srv r) as [srv1 a]. simpl in Hfresh, Hmono.
  apply IH; [|exact Hmono].
  destruct a as [|t' w|err]; simpl; try exact Hst.
  - destruct (MovementControls.onSuccess r Plain) as [ev|] eqn:Hev;
      [|exact Hst].
    apply movement_step_forgotten; [exact Hst|].
    unfold MovementControls.onSuccess in Hev.
    destruct (command r); inversion Hev; reflexivity.
  - destruct (MovementControls.onSuccess r (ConfirmationRequired t' w))
      as [ev|] eqn:Hev; [|exact Hst].
    apply movement_step_forgotten; [exact Hst|].
    specialize (Hfresh t' w Hsrv eq_refl).
    unfold MovementControls.onSuccess in Hev.
    destruct (command r); inversion Hev; simpl; exact Hfresh.
Qed.

(** Once the panel has forgotten a token that the executor issued, no
    sequence of user events makes the panel send it again: the executor
    never hands it out a second time. *)
Lemma session_never_resends (t : string)
    (evs : list (MovementControls.Env * MovementControls.Event))
    (st : MovementControls.State) (srv : State) :
  MovementControls.forgotten t st ->
  issued_token srv t ->
  forallb (fun x => MovementControls.user_event (snd x)) evs = true ->
  forallb (fun r => negb (carries t r))
    (snd (MovementSession.session rc wt st srv evs)) = true.
Proof.
  revert st srv. induction evs as [|[e ev] evs IH]; intros st srv Hst Hsrv Hevs;
    simpl; [reflexivity|].
  simpl in Hevs. apply andb_true_iff in Hevs. destruct Hevs as [Hev Hevs].
  assert (Hdel : MovementControls.delivers t ev = false)
    by (destruct ev; try discriminate; reflexivity).
  destruct (movement_step_forgotten t e st ev Hst Hdel) as [H1 H2].
  destruct (MovementControls.step e st ev) as [st1 out]. simpl in H1, H2.
  destruct (settle_forgotten t e out st1 srv H1 Hsrv) as [H3 H4].
  destruct (MovementSession.settle rc wt e st1 srv out) as [st2 srv2].
  simpl in H3, H4. specialize (IH st2 srv2 H3 H4 Hevs).
  destruct (MovementSession.session rc wt st2 srv2 evs) as [[st3 srv3] outs].
  simpl in *. rewrite forallb_app, H2, IH. reflexivity.
Qed.

(** In particular after Cancel: whatever the dialog held and whatever the
    user does next, a token that the executor had issued is not sent. *)
Lemma session_after_cancel (t : string) (e : MovementControls.Env)
    (evs : list (MovementControls.Env * MovementControls.Event))
    (st : MovementControls.State) (srv : State) :
  issued_token srv t ->
  forallb (fun x => MovementControls.user_event (snd x)) evs = true ->
  forallb (fun r => negb (carries t r))
    (snd (MovementSession.session rc wt st srv
            ((e, MovementControls.ClickCancel) :: evs))) = true.
Proof.
  intros Hsrv Hevs.
  pose proof (session_never_resends t evs
                (MovementControls.setConfirmModal st None) srv) as H.
  simpl.
  destruct (MovementSession.session rc wt
              (MovementControls.setConfirmModal st None) srv evs)
    as [[st3 srv3] outs].
  simpl in *. apply H; [|exact Hsrv|exact Hevs].
  intros m Hm. discriminate Hm.
Qed.

End ClosedSystem.

(** ** The theorems at concrete inputs *)
Section Witnesses.

Import Executor.

(** C1 at the X+ button of a connected, paused printer. *)
Lemma decision_follows_table_witness :
  In "PAUSE" PermissionTable.known_states
  /\ ControlPage.idle
       (Sample.view (Some (Sample.snapshot true (Some "PAUSE")))) = true
  /\ negb (ControlPage.disabled
             (Sample.view (Some (Sample.snapshot true (Some "PAUSE"))))
             (ControlPage.MoveButton "X" false))
     = PermissionTable.usable
         (PermissionTable.table PermissionTable.movement_home "PAUSE").
Proof.
  split; [right; right; left; reflexivity|].
  split; [reflexivity|].
  refine (proj2 (decision_follows_table_but_movement_running
                   (Sample.view (Some (Sample.snapshot true (Some "PAUSE"))))
                   (Sample.snapshot true (Some "PAUSE")) "PAUSE"
                   (ControlPage.MoveButton "X" false)
                   PermissionTable.movement_home
                   eq_refl eq_refl eq_refl _ eq_refl _ eq_refl) _ _).
  - right; right; left; reflexivity.
  - discriminate.
  - intros H. discriminate H.
  - intros H. discriminate H.
Defined.

(** C2 at the first stop request of a fresh executor. *)
Lemma first_call_witness :
  In (kind (command (Sample.stop_request None)))
     ["home"; "move"; "disableMotors"; "stop"]
  /\ confirm_token (Sample.stop_request None) = None
  /\ device (fst (exec per_kind_flag Sample.warning_text initial
                    (Sample.stop_request None)))
     = device initial.
Proof.
  split; [right; right; right; left; reflexivity|].
  split; [reflexivity|].
  refine (proj1 (proj2 (first_call_only_yields_a_challenge
                          per_kind_flag Sample.warning_text initial
                          (Sample.stop_request None) (fun c H => H) _ eq_refl))).
  right; right; right; left; reflexivity.
Defined.



(** C5 at a dialog that holds "T1": after Cancel, a new home handshake with
    "T2" is confirmed and "T1" is not sent. *)
Lemma cancel_witness :
  forallb (fun r => negb (carries "T1" r))
    (snd (MovementControls.run
            (fst (MovementControls.step Sample.online MovementControls.initial
                    (MovementControls.HomeSuccess
                       (ConfirmationRequired "T1" "Are you sure?") "XYZ")))
            [(Sample.online, MovementControls.ClickCancel);
             (Sample.online, MovementControls.ClickHome);
             (Sample.online,
              MovementControls.HomeSuccess
                (ConfirmationRequired "T2" "Are you sure?") "XYZ");
             (Sample.online, MovementControls.ClickConfirm)]))
  = true.
Proof.
  refine (proj2 (proj1 (cancelled_token_is_never_resubmitted "T1")
                   Sample.online _
                   [(Sample.online, MovementControls.ClickHome);
                    (Sample.online,
                     MovementControls.HomeSuccess
                       (ConfirmationRequired "T2" "Are you sure?") "XYZ");
                    (Sample.online, MovementControls.ClickConfirm)] _)).
  reflexivity.
Defined.

(** C7 at the Load button of a connected printer in state FAILED. *)
Lemma unknown_state_witness :
  ControlPage.disabled
    (Sample.view (Some (Sample.snapshot true (Some "FAILED"))))
    ControlPage.AmsLoadButton
  = false.
Proof.
  refine (proj2 (unknown_state_is_treated_as_idle
                   (Sample.view (Some (Sample.snapshot true (Some "FAILED"))))
                   (Sample.snapshot true (Some "FAILED"))
                   ControlPage.AmsLoadButton eq_refl eq_refl _) eq_refl _).
  - intros k [<- | [<- | [<- | [<- | []]]]]; intros H; discriminate H.
  - discriminate.
Defined.

(** C8 at an [ams] that is a number, and at an array of one unit with a
    full tray, a tray that only has an id, and an empty object. *)
Lemma parseAMSData_witness :
  AMSPanel.parseAMSData (Some (Sample.with_ams (JNum 5))) = []
  /\ AMSPanel.parseAMSData (Some (Sample.with_ams Sample.one_unit))
     = [{| AMSUnit.id := JNum 0;
           AMSUnit.trays :=
             [{| AMSTray.id := JNum 0; AMSTray.color := JStr "FF0000FF";
                 AMSTray.type := JStr "PLA"; AMSTray.remain := JNum 80;
                 AMSTray.active := false |};
              {| AMSTray.id := JNum 1; AMSTray.color := JStr "FFFFFF";
                 AMSTray.type := JStr "Unknown"; AMSTray.remain := JNum 0;
                 AMSTray.active := false |};
              {| AMSTray.id := JNum 0; AMSTray.color := JStr "FFFFFF";
                 AMSTray.type := JStr "Unknown"; AMSTray.remain := JNum 0;
                 AMSTray.active := false |}] |}].
Proof.
  split.
  - refine (proj1 (proj2 (proj2 parseAMSData_total_with_defaults))
              (Sample.with_ams (JNum 5)) _).
    intros items H. discriminate H.
  - exact (proj1 (proj2 (proj2 (proj2 parseAMSData_total_with_defaults)))
             (Sample.with_ams Sample.one_unit) _ eq_refl eq_refl).
Defined.

(** C9 at the third tray of the second unit. *)
Lemma globalTrayId_witness :
  0 <= 1 < 2 ^ 51 /\ 0 <= 2 <= 3
  /\ AMSTrayButton.buttons (Some (Scenario.report (JNum 1) (JNum 2)))
     = [(Scenario.pla_unit (JNum 1) (JNum 2), Scenario.pla_tray (JNum 2))]
  /\ AMSTrayButton.globalTrayId (Scenario.pla_unit (JNum 1) (JNum 2))
       (Scenario.pla_tray (JNum 2))
     = Some (AMSTrayButton.IdNumber 6)
  /\ AMSTrayButton.selectedSlot (AMSTrayButton.IdNumber 6) = Some 3
  /\ AMSTrayButton.selectedAms (AMSTrayButton.IdNumber 6) = Some 2.
Proof.
  assert (Hu : 0 <= 1 < 2 ^ 51) by (split; [lia | reflexivity]).
  assert (Ht : 0 <= 2 <= 3) by lia.
  split; [exact Hu|]. split; [exact Ht|]. split; [reflexivity|].
  destruct (globalTrayId_roundtrip (Scenario.pla_unit (JNum 1) (JNum 2))
              (Scenario.pla_tray (JNum 2)) 1 2 eq_refl eq_refl Hu Ht)
    as (H1 & _ & _ & H3 & H4 & _).
  split; [exact H1|]. split; [exact H3 | exact H4].
Defined.

End Witnesses.

(** * Further components *)

(** ** Numbers and text *)
Section Text.

Lemma parse_digits_acc (d : Decimal.uint) (p : positive) :
  JsText.parse_digits 10 (Z.pos p) (NilEmpty.string_of_uint d)
  = Z.pos (Pos.of_uint_acc d p).
Proof.
  revert p; induction d; intro p; simpl; try reflexivity;
    cbv [JsText.radix_digit JsText.digit_value JsText.code]; simpl;
    rewrite <- IHd; f_equal; lia.
Qed.

Lemma parse_digits_of_uint (d : Decimal.uint) :
  JsText.parse_digits 10 0 (NilEmpty.string_of_uint d) = Z.of_uint d.
Proof.
  unfold Z.of_uint.
  induction d; simpl; try reflexivity;
    cbv [JsText.radix_digit JsText.digit_value JsText.code]; simpl;
    try exact IHd; apply parse_digits_acc.
Qed.

Lemma to_uint_first (p : positive) :
  exists c rest, NilEmpty.string_of_uint (Pos.to_uint p) = String c rest
    /\ JsText.is_space c = false /\ c <> "-"%char /\ c <> "+"%char
    /\ JsText.starts_with_digit 10 (String c rest) = true.
Proof.
  pose proof (DecimalPos.Unsigned.to_uint_nonnil p) as Hn.
  destruct (Pos.to_uint p); try congruence; simpl;
    eexists; eexists; (split; [reflexivity|]);
    repeat split; try discriminate; reflexivity.
Qed.

Lemma parseInt_plain (c : Ascii.ascii) (rest : string) :
  JsText.is_space c = false -> c <> "-"%char -> c <> "+"%char ->
  JsText.starts_with_digit 10 (String c rest) = true ->
  JsText.parseInt (String c rest) 10
  = Some (JsText.parse_digits 10 0 (String c rest)).
Proof.
  intros Hsp Hm Hpl Hd. unfold JsText.parseInt.
  cbn [JsText.trim_start]. rewrite Hsp.
  destruct (Ascii.eqb_spec c "-"%char) as [->|_]; [congruence|].
  destruct (Ascii.eqb_spec c "+"%char) as [->|_]; [congruence|].
  assert (Hsign : match String c rest with
                  | String "-"%char r => (-1, r)
                  | String "+"%char r => (1, r)
                  | _ => (1, String c rest)
                  end = (1, String c rest)).
  { destruct c as [[] [] [] [] [] [] [] []]; try reflexivity; congruence. }
  rewrite Hsign. change (Z.eqb 10 16) with false. cbv beta iota zeta.
  rewrite Hd.
  f_equal. destruct (JsText.parse_digits 10 0 (String c rest)); reflexivity.
Qed.

Lemma string_of_uint_nonnil (d : Decimal.uint) :
  d <> Decimal.Nil -> NilZero.string_of_uint d = NilEmpty.string_of_uint d.
Proof. destruct d; try reflexivity; congruence. Qed.

Lemma parseInt_to_uint (p : positive) :
  JsText.parseInt (NilEmpty.string_of_uint (Pos.to_uint p)) 10 = Some (Z.pos p).
Proof.
  destruct (to_uint_first p) as (c & rest & Hs & Hsp & Hm & Hpl & Hd).
  rewrite Hs, parseInt_plain by assumption.
  rewrite <- Hs, parse_digits_of_uint.
  unfold Z.of_uint. rewrite DecimalPos.Unsigned.of_to. reflexivity.
Qed.

Lemma parseInt_decimal (n : Z) :
  JsText.parseInt (JsText.decimal n) 10 = Some n.
Proof.
  destruct n as [|p|p].
  - reflexivity.
  - unfold JsText.decimal; simpl.
    rewrite string_of_uint_nonnil by apply DecimalPos.Unsigned.to_uint_nonnil.
    apply parseInt_to_uint.
  - unfold JsText.decimal; simpl.
    rewrite string_of_uint_nonnil by apply DecimalPos.Unsigned.to_uint_nonnil.
    destruct (to_uint_first p) as (c & rest & Hs & Hsp & Hm & Hpl & Hd).
    pose proof (parseInt_to_uint p) as Hp.
    rewrite Hs in *. rewrite parseInt_plain in Hp by assumption.
    injection Hp as Hp.
    unfold JsText.parseInt. cbn [JsText.trim_start].
    change (JsText.is_space "-") with false.
    change (Z.eqb 10 16) with false. cbv beta iota zeta.
    change (JsText.parse_digits 10 0 (String c rest) = Z.pos p) in Hp.
    rewrite Hd, Hp. reflexivity.
Qed.

Lemma hex_digit_plain (c : Ascii.ascii) (d : Z) :
  JsText.radix_digit 16 c = Some d ->
  JsText.is_space c = false /\ c <> "-"%char /\ c <> "+"%char
  /\ c <> "x"%char /\ c <> "X"%char /\ c <> "#"%char /\ 0 <= d <= 15.
Proof.
  destruct c as [[] [] [] [] [] [] [] []]; vm_compute; intro H;
    try discriminate; injection H as <-;
    repeat split; try discriminate; congruence.
Qed.

Lemma substring_0_0 (s : string) : String.substring 0 0 s = "".
Proof. destruct s; reflexivity. Qed.

Lemma channel_pair (c1 c2 : Ascii.ascii) (d1 d2 : Z) :
  JsText.radix_digit 16 c1 = Some d1 ->
  JsText.radix_digit 16 c2 = Some d2 ->
  AMSTrayButton.channel (String c1 (String c2 ""))
  = if Z.eqb (16 * d1 + d2) 0 then 128 else 16 * d1 + d2.
Proof.
  intros H1 H2.
  destruct (hex_digit_plain _ _ H1) as (Hsp & Hm & Hpl & _).
  destruct (hex_digit_plain _ _ H2) as (_ & _ & _ & Hx & HX & _).
  unfold AMSTrayButton.channel, JsText.parseInt.
  cbn [JsText.trim_start]. rewrite Hsp.
  assert (Hsign : match String c1 (String c2 "") with
                  | String "-"%char r => (-1, r)
                  | String "+"%char r => (1, r)
                  | _ => (1, String c1 (String c2 ""))
                  end = (1, String c1 (String c2 ""))).
  { destruct c1 as [[] [] [] [] [] [] [] []]; try reflexivity; congruence. }
  rewrite Hsign. change (Z.eqb 16 16) with true. cbv beta iota zeta.
  assert (Hpre : match String c1 (String c2 "") with
                 | String "0"%char (String "x"%char rest)
                 | String "0"%char (String "X"%char rest) => rest
                 | _ => String c1 (String c2 "")
                 end = String c1 (String c2 "")).
  { destruct c1 as [[] [] [] [] [] [] [] []]; try reflexivity;
      destruct c2 as [[] [] [] [] [] [] [] []]; try reflexivity; congruence. }
  rewrite Hpre. cbn [JsText.starts_with_digit JsText.parse_digits].
  rewrite H1, H2. rewrite bool_decide_eq_true_2 by eauto.
  replace (1 * ((0 * 16 + d1) * 16 + d2)) with (16 * d1 + d2) by lia.
  reflexivity.
Qed.

End Text.

(** ** The tray buttons *)
Section TrayButtons.

(** X2. hexToRgb: on a colour that starts with six hexadecimal digits, with or
    without a leading '#' and whatever follows (the alpha pair of RRGGBBAA),
    each channel is the value of its pair of digits, except that a pair of
    value 0 is drawn as 128; so every channel lies between 1 and 255, and
    black (000000) is drawn as rgb(128, 128, 128). *)
Theorem hexToRgb_of_hex_digits (c1 c2 c3 c4 c5 c6 : Ascii.ascii)
    (d1 d2 d3 d4 d5 d6 : Z) (rest : string) :
  JsText.radix_digit 16 c1 = Some d1 -> JsText.radix_digit 16 c2 = Some d2 ->
  JsText.radix_digit 16 c3 = Some d3 -> JsText.radix_digit 16 c4 = Some d4 ->
  JsText.radix_digit 16 c5 = Some d5 -> JsText.radix_digit 16 c6 = Some d6 ->
  let hex := String c1 (String c2 (String c3 (String c4 (String c5
               (String c6 rest))))) in
  let shown v := if Z.eqb v 0 then 128 else v in
  AMSTrayButton.hexToRgb_channels hex
  = (shown (16 * d1 + d2), shown (16 * d3 + d4), shown (16 * d5 + d6))
  /\ AMSTrayButton.hexToRgb_channels (String "#" hex)
     = AMSTrayButton.hexToRgb_channels hex
  /\ (let '(r, g, b) := AMSTrayButton.hexToRgb_channels hex in
      1 <= r <= 255 /\ 1 <= g <= 255 /\ 1 <= b <= 255).
Proof.
  intros H1 H2 H3 H4 H5 H6 hex shown.
  assert (Hclean : JsText.substring 0 6 (JsText.remove_first "#" hex)
                   = String c1 (String c2 (String c3 (String c4 (String c5
                       (String c6 "")))))).
  { unfold hex. cbn [JsText.remove_first].
    repeat match goal with
    | H : JsText.radix_digit 16 ?c = Some _ |- context [Ascii.eqb ?c "#"] =>
        let Hn := fresh in
        destruct (hex_digit_plain _ _ H) as (_ & _ & _ & _ & _ & Hn & _);
        apply Ascii.eqb_neq in Hn; rewrite Hn; clear Hn
    end.
    cbv [JsText.substring]. simpl. rewrite substring_0_0. reflexivity. }
  assert (Hch : AMSTrayButton.hexToRgb_channels hex
     = (shown (16 * d1 + d2), shown (16 * d3 + d4), shown (16 * d5 + d6))).
  { unfold AMSTrayButton.hexToRgb_channels. rewrite Hclean.
    cbv [JsText.substring]. simpl String.substring.
    rewrite (channel_pair _ _ _ _ H1 H2), (channel_pair _ _ _ _ H3 H4),
      (channel_pair _ _ _ _ H5 H6). reflexivity. }
  split; [exact Hch|]. split.
  - unfold AMSTrayButton.hexToRgb_channels.
    change (JsText.remove_first "#" (String "#" hex)) with hex.
    rewrite Hclean.
    assert (Hhex : JsText.substring 0 6 hex
                   = String c1 (String c2 (String c3 (String c4 (String c5
                       (String c6 "")))))).
    { unfold hex. cbv [JsText.substring]. simpl. rewrite substring_0_0.
      reflexivity. }
    rewrite Hhex. reflexivity.
  - rewrite Hch. unfold shown.
    destruct (hex_digit_plain _ _ H1) as (_ & _ & _ & _ & _ & _ & ?).
    destruct (hex_digit_plain _ _ H2) as (_ & _ & _ & _ & _ & _ & ?).
    destruct (hex_digit_plain _ _ H3) as (_ & _ & _ & _ & _ & _ & ?).
    destruct (hex_digit_plain _ _ H4) as (_ & _ & _ & _ & _ & _ & ?).
    destruct (hex_digit_plain _ _ H5) as (_ & _ & _ & _ & _ & _ & ?).
    destruct (hex_digit_plain _ _ H6) as (_ & _ & _ & _ & _ & _ & ?).
    repeat split;
      repeat match goal with |- context [Z.eqb ?a 0] =>
        destruct (Z.eqb_spec a 0) end; lia.
Qed.

Lemma parseTray_throws (tray : JsVal) :
  AMSPanel.parseTray tray = None <-> Js.nullish tray = true.
Proof.
  destruct tray; simpl; split; intro H; try discriminate; reflexivity.
Qed.

(** X4. parseAMSData, the callback of the outer [map]: it throws exactly on a
    unit that is null or undefined, on a unit whose [tray] is neither
    missing nor an array, and on a unit whose [tray] array holds a null or
    undefined element. *)
Theorem parseUnit_throws_iff (unit : JsVal) :
  AMSPanel.parseUnit unit = None
  <-> Js.nullish unit = true
      \/ exists tray, Js.prop unit "tray" = Some tray
            /\ Js.nullish tray = false
            /\ match tray with
               | JArr trays => Exists (fun t => Js.nullish t = true) trays
               | _ => True
               end.
Proof.
  unfold AMSPanel.parseUnit.
  destruct (Js.prop unit "id") as [i|] eqn:Hi.
  - assert (Hn : Js.nullish unit = false) by (destruct unit; simpl in *; congruence).
    assert (Ht : exists tray, Js.prop unit "tray" = Some tray)
      by (destruct unit; simpl in *; try discriminate; eauto).
    destruct Ht as [tray Ht]. rewrite Ht. simpl.
    unfold Js.coalesce.
    destruct (Js.nullish tray) eqn:Hnt.
    + simpl. split; [discriminate|].
      intros [H | (tray' & [= <-] & H & _)]; congruence.
    + destruct tray as [| |b|n|str|trays|fs]; simpl in *; try discriminate.
      * split; [|reflexivity]. intros _. right. eexists. eauto.
      * split; [|reflexivity]. intros _. right. eexists. eauto.
      * split; [|reflexivity]. intros _. right. eexists. eauto.
      * destruct (mapM AMSPanel.parseTray trays) as [ts|] eqn:Hm; simpl.
        -- split; [discriminate|].
           intros [H | (tray' & [= <-] & _ & Hex)]; [congruence|].
           assert (Hnone : mapM AMSPanel.parseTray trays = None).
           { apply mapM_None. eapply Exists_impl; [exact Hex|].
             intros t Ht'. apply parseTray_throws. exact Ht'. }
           congruence.
        -- split; [|reflexivity]. intros _. right. eexists.
           split; [reflexivity|]. split; [reflexivity|].
           apply mapM_None in Hm. eapply Exists_impl; [exact Hm|].
           intros t Ht'. apply parseTray_throws. exact Ht'.
      * split; [|reflexivity]. intros _. right. eexists. eauto.
  - simpl. split; [|reflexivity]. intros _. left.
    destruct unit; simpl in *; congruence.
Qed.

(** X5. parseAMSData is all or nothing: the try/catch encloses the whole [map],
    so one unit on which the callback throws makes the result empty; the
    well-formed units of the same report are dropped with it, and the panel
    renders 'No AMS detected' without the Load and Unload buttons. *)
Theorem one_bad_unit_hides_every_unit (s : PrinterStatus)
    (fields : list (string * JsVal)) (units : list JsVal) (bad : JsVal) :
  raw_data s = JObj fields ->
  Js.assoc "ams" fields = JArr units ->
  In bad units ->
  AMSPanel.parseUnit bad = None ->
  AMSPanel.parseAMSData (Some s) = []
  /\ AMSPanel.controls_rendered (Some s) = false.
Proof.
  intros Hraw Hams Hin Hbad.
  assert (H : AMSPanel.parseAMSData (Some s) = []).
  { unfold AMSPanel.parseAMSData. rewrite Hraw.
    unfold Js.prop_opt, Js.prop. rewrite Hams.
    cbn [Js.truthy negb Js.array_map].
    assert (Hm : mapM AMSPanel.parseUnit units = None).
    { apply mapM_None. apply Exists_exists. exists bad.
      split; [apply list_elem_of_In; exact Hin | exact Hbad]. }
    rewrite Hm. reflexivity. }
  split; [exact H|]. unfold AMSPanel.controls_rendered. rewrite H. reflexivity.
Qed.

(** X3. A tray of the report is drawn empty exactly when its [tray_type] is
    'NONE' or a falsy value other than null and undefined; a tray whose
    report has no type gets the type 'Unknown' and is not empty, so it can be
    selected. *)
Theorem parsed_tray_isEmpty (fields : list (string * JsVal)) :
  exists t, AMSPanel.parseTray (JObj fields) = Some t
    /\ AMSTrayButton.isEmpty t
       = match Js.assoc "tray_type" fields with
         | JStr s => String.eqb s "NONE" || String.eqb s ""
         | JNum n => Z.eqb n 0
         | JBool b => negb b
         | _ => false
         end
    /\ (Js.nullish (Js.assoc "tray_type" fields) = true ->
        AMSTray.type t = JStr "Unknown").
Proof.
  eexists. split; [reflexivity|]. unfold AMSTrayButton.isEmpty. simpl.
  destruct (Js.assoc "tray_type" fields) as [| |b|n|s|l|l]; simpl;
    (split; [|first [reflexivity | discriminate]]); try reflexivity.
  all: rewrite negb_involutive; reflexivity.
Qed.

Lemma buttons_rendered (status : option PrinterStatus)
    (unit : AMSUnit.t) (tray : AMSTray.t) :
  In (unit, tray) (AMSTrayButton.buttons status) ->
  In unit (AMSPanel.parseAMSData status)
  /\ In tray (AMSUnit.trays unit)
  /\ AMSPanel.controls_rendered status = true.
Proof.
  unfold AMSTrayButton.buttons. intro H.
  apply in_flat_map in H as (u' & Hu & Ht).
  apply in_map_iff in Ht as (t' & [= <- <-] & Ht).
  split; [exact Hu|]. split; [exact Ht|].
  unfold AMSPanel.controls_rendered.
  destruct (AMSPanel.parseAMSData status); [destruct Hu | reflexivity].
Qed.

(** X6. Selecting and loading: with the printer connected and not RUNNING, a
    click on a rendered tray button whose tray is not empty and whose ids
    are numbers (the tray id, four times the unit id and their sum being
    safe integers) selects the global id of the tray, Load then sends
    exactly that id, and a second click on the same button clears the
    selection, after which Load sends nothing. *)
Theorem tray_click_then_load (pid : Z) (status : option PrinterStatus)
    (unit : AMSUnit.t) (tray : AMSTray.t) (u t : Z) :
  isConnected status = true ->
  AMSPanel.isPrinting status = false ->
  In (unit, tray) (AMSTrayButton.buttons status) ->
  AMSUnit.id unit = JNum u ->
  AMSTray.id tray = JNum t ->
  JsNumber.isSafeInteger (u * 4) = true ->
  JsNumber.isSafeInteger t = true ->
  JsNumber.isSafeInteger (u * 4 + t) = true ->
  AMSTrayButton.isEmpty tray = false ->
  let g := AMSTrayButton.IdNumber (u * 4 + t) in
  AMSTrayButton.onClick status None unit tray = Some (Some g)
  /\ AMSTrayButton.handleLoad pid status (Some g) false false
     = Some [{| printerId := pid;
                command := amsLoadFilament (u * 4 + t);
                confirm_token := None |}]
  /\ AMSTrayButton.onClick status (Some g) unit tray = Some None
  /\ AMSTrayButton.handleLoad pid status None false false = Some [].
Proof.
  intros Hc Hp Hin Hu Ht H4 Hts Hs He g.
  destruct (buttons_rendered status unit tray Hin) as (_ & _ & Hr).
  pose proof (globalTrayId_numbers unit tray u t Hu Ht H4 Hts Hs) as Hg.
  repeat split.
  - unfold AMSTrayButton.onClick. rewrite He, Hp, Hg. reflexivity.
  - unfold AMSTrayButton.handleLoad, g, AMSPanel.handleLoad,
      AMSPanel.load_disabled.
    rewrite Hr, Hc, Hp. reflexivity.
  - unfold AMSTrayButton.onClick. rewrite He, Hp, Hg. cbn.
    rewrite Z.eqb_refl. reflexivity.
  - unfold AMSTrayButton.handleLoad, AMSPanel.handleLoad,
      AMSPanel.load_disabled.
    rewrite Hr, Hc, Hp. reflexivity.
Qed.

(** A click on an empty tray, or on any tray while the printer is RUNNING,
    leaves the selection as it is; in particular a tray selected before the
    print started stays selected. *)
Lemma tray_click_ignored (status : option PrinterStatus)
    (unit : AMSUnit.t) (tray : AMSTray.t)
    (selectedTray : option AMSTrayButton.TrayId) :
  AMSTrayButton.isEmpty tray = true \/ state_is status "RUNNING" = true ->
  AMSTrayButton.onClick status selectedTray unit tray = Some selectedTray.
Proof.
  unfold AMSTrayButton.onClick, AMSPanel.isPrinting.
  intros [-> | ->]; [reflexivity | rewrite orb_true_r; reflexivity].
Qed.

End TrayButtons.

(** ** The print status card *)
Section PrintStatusFacts.

(** X1. formatTime: a positive whole number of seconds below 2^53 is shown
    as whole hours and minutes, rounded down to the minute: the minutes are
    between 0 and 59, the shown time is at most the given one and less than
    a minute below it, and the hours are shown only from 3600 seconds on. *)
Theorem formatTime_rounds_down_to_the_minute (s : Z) :
  0 < s < 2 ^ 53 ->
  exists hours mins,
    0 <= hours /\ 0 <= mins < 60
    /\ 3600 * hours + 60 * mins <= s < 3600 * hours + 60 * mins + 60
    /\ PrintStatus.formatTime_label (Some s)
       = Some (if Z.leb 3600 s then PrintStatus.HoursMinutes hours mins
               else PrintStatus.Minutes mins)
    /\ PrintStatus.formatTime (Some s)
       = Some (if Z.leb 3600 s
               then JsText.decimal hours ++ "h " ++ JsText.decimal mins ++ "m"
               else JsText.decimal mins ++ "m")
    /\ (s < 3600 -> hours = 0).
Proof.
  intros [Hs Hmax]. exists (s / 3600), (Z.rem s 3600 / 60).
  assert (Hsafe : JsNumber.isSafeInteger s = true).
  { unfold JsNumber.isSafeInteger, JsNumber.MAX_SAFE_INTEGER.
    apply andb_true_iff. split; apply Z.leb_le; lia. }
  assert (Hlabel : PrintStatus.formatTime_label (Some s)
       = Some (if Z.leb 3600 s
               then PrintStatus.HoursMinutes (s / 3600) (Z.rem s 3600 / 60)
               else PrintStatus.Minutes (Z.rem s 3600 / 60))).
  { unfold PrintStatus.formatTime_label. rewrite Hsafe. cbn [negb].
    destruct (Z.eqb_spec s 0); [lia|]. cbv zeta. f_equal.
    destruct (Z.leb_spec 3600 s), (Z.ltb_spec 0 (s / 3600)); try reflexivity.
    + assert (1 <= s / 3600) by (apply Z.div_le_lower_bound; lia). lia.
    + rewrite Z.div_small in * by lia. lia. }
  assert (Hprint : PrintStatus.formatTime (Some s)
       = Some (if Z.leb 3600 s
               then JsText.decimal (s / 3600) ++ "h "
                    ++ JsText.decimal (Z.rem s 3600 / 60) ++ "m"
               else JsText.decimal (Z.rem s 3600 / 60) ++ "m")).
  { unfold PrintStatus.formatTime. rewrite Hlabel.
    destruct (Z.leb 3600 s); reflexivity. }
  rewrite Hlabel, Hprint. clear Hlabel Hprint.
  rewrite Z.rem_mod_nonneg by lia.
  pose proof (Z.mod_pos_bound s 3600 ltac:(lia)) as Hm.
  pose proof (Z.div_mod s 3600 ltac:(lia)) as Hd.
  pose proof (Z.div_mod (s mod 3600) 60 ltac:(lia)) as Hd2.
  pose proof (Z.mod_pos_bound (s mod 3600) 60 ltac:(lia)) as Hm2.
  assert (0 <= s / 3600) by (apply Z.div_pos; lia).
  assert (0 <= s mod 3600 / 60 < 60).
  { split; [apply Z.div_pos; lia|]. apply Z.div_lt_upper_bound; lia. }
  repeat split; try lia.
Qed.

(** formatTime: a missing remaining time and a remaining time of 0 both
    print the placeholder. *)
Lemma formatTime_placeholder :
  PrintStatus.formatTime None = Some "--:--"
  /\ PrintStatus.formatTime (Some 0) = Some "--:--".
Proof. split; reflexivity. Qed.

End PrintStatusFacts.

(** ** The selected printer of the page *)
Section Tabs.

Lemma decimal_nonempty (n : Z) : JsText.decimal n <> "".
Proof.
  intro H. pose proof (parseInt_decimal n) as Hp.
  rewrite H in Hp. discriminate.
Qed.

(** The click on a tab of a printer with a safe id. *)
Lemma handlePrinterSelect_safe (printerId : Z) :
  JsNumber.isSafeInteger printerId = true ->
  PrinterTabs.handlePrinterSelect printerId
  = Some {| PrinterTabs.selectedPrinterId := Some printerId;
            PrinterTabs.printerParam := Some (JsText.decimal printerId) |}.
Proof.
  intro H. unfold PrinterTabs.handlePrinterSelect, JsText.number_to_string.
  rewrite H. reflexivity.
Qed.

Lemma effect_after_select (printers : option (list PrinterTabs.Printer))
    (printerId : Z) :
  PrinterTabs.effect printers
    {| PrinterTabs.selectedPrinterId := Some printerId;
       PrinterTabs.printerParam := Some (JsText.decimal printerId) |}
  = {| PrinterTabs.selectedPrinterId := Some printerId;
       PrinterTabs.printerParam := Some (JsText.decimal printerId) |}.
Proof.
  unfold PrinterTabs.effect. simpl.
  destruct (String.eqb_spec (JsText.decimal printerId) "") as [H|_].
  - destruct (decimal_nonempty _ H).
  - rewrite parseInt_decimal. reflexivity.
Qed.

(** X15. ControlPage: a click on the tab of a printer whose id is a safe
    integer writes the id to the query string as its decimal numeral, and
    the effect that reads the query string back with [parseInt] selects the
    same printer: the state after the click is a fixed point of the effect,
    whatever printers are listed. *)
Theorem tab_click_survives_the_effect
    (printers : option (list PrinterTabs.Printer)) (printerId : Z) :
  JsNumber.isSafeInteger printerId = true ->
  exists st param,
    PrinterTabs.handlePrinterSelect printerId = Some st
    /\ PrinterTabs.printerParam st = Some param
    /\ JsText.parseInt param 10 = Some printerId
    /\ PrinterTabs.effect printers st = st
    /\ PrinterTabs.selectedPrinterId (PrinterTabs.effect printers st)
       = Some printerId.
Proof.
  intro Hsafe. eexists. exists (JsText.decimal printerId).
  split; [apply handlePrinterSelect_safe; exact Hsafe|].
  split; [reflexivity|].
  split; [apply parseInt_decimal|].
  rewrite effect_after_select. split; reflexivity.
Qed.


(** X17. Without a usable [printer] parameter and with nothing selected, the
    effect selects the first printer of the list and its panels are
    rendered. *)
Theorem first_printer_by_default (p : PrinterTabs.Printer)
    (ps : list PrinterTabs.Printer) (statuses : option (gmap Z PrinterStatus))
    (param : option string) :
  match param with
  | Some s => s = "" \/ JsText.parseInt s 10 = None
  | None => True
  end ->
  let st' := PrinterTabs.effect (Some (p :: ps)) (PrinterTabs.initial param) in
  PrinterTabs.selectedPrinterId st' = Some (PrinterTabs.id p)
  /\ PrinterTabs.panels (Some (p :: ps)) statuses st'
     = Some (p, PrinterTabs.selectedStatus statuses st').
Proof.
  intros Hparam st'.
  assert (Hst : st' = PrinterTabs.setSelectedPrinterId
                        (PrinterTabs.initial param) (PrinterTabs.id p)).
  { unfold st', PrinterTabs.effect. simpl.
    destruct param as [s|]; [|reflexivity].
    destruct Hparam as [-> | Hn]; [reflexivity|].
    rewrite Hn. destruct (String.eqb s ""); reflexivity. }
  rewrite Hst. split; [reflexivity|].
  unfold PrinterTabs.panels, PrinterTabs.selectedPrinter. simpl.
  rewrite Z.eqb_refl. reflexivity.
Qed.

(** X18. After a click on the tab of a listed printer whose id is a safe
    integer other than 0, and the effect that follows, the panels are
    rendered for a printer of that id, with the status stored under it, so
    the panels see the printer connected exactly when the dot of the tab is
    green. *)
Theorem panels_agree_with_the_tab (ps : list PrinterTabs.Printer)
    (statuses : option (gmap Z PrinterStatus)) (p : PrinterTabs.Printer) :
  In p ps ->
  PrinterTabs.id p <> 0 ->
  JsNumber.isSafeInteger (PrinterTabs.id p) = true ->
  exists st q status,
    PrinterTabs.handlePrinterSelect (PrinterTabs.id p) = Some st
    /\ PrinterTabs.panels (Some ps) statuses (PrinterTabs.effect (Some ps) st)
       = Some (q, status)
    /\ PrinterTabs.id q = PrinterTabs.id p
    /\ isConnected status = PrinterTabs.tab_isConnected statuses p.
Proof.
  intros Hin Hid Hsafe. eexists.
  rewrite (handlePrinterSelect_safe _ Hsafe), effect_after_select.
  unfold PrinterTabs.panels, PrinterTabs.selectedPrinter. simpl.
  destruct (List.find _ ps) as [q|] eqn:Hf.
  - apply List.find_some in Hf as [_ Heq].
    exists q. eexists.
    split; [reflexivity|]. split; [reflexivity|]. split; [lia|].
    unfold PrinterTabs.selectedStatus, PrinterTabs.tab_isConnected. simpl.
    destruct (Z.eqb_spec (PrinterTabs.id p) 0); [contradiction | reflexivity].
  - exfalso. eapply List.find_none in Hf; [|exact Hin].
    simpl in Hf. lia.
Qed.

(** A printer whose id is 0 gets no status: its panels are rendered as
    disconnected whatever its tab shows. *)
Lemma printer_zero_gets_no_status (statuses : option (gmap Z PrinterStatus)) :
  exists st, PrinterTabs.handlePrinterSelect 0 = Some st
    /\ PrinterTabs.selectedStatus statuses st = None.
Proof. eexists. split; reflexivity. Qed.

End Tabs.

(** ** The statuses of all printers *)
Section Statuses.

Import StatusQuery.

Lemma store_all_other (answer : PrinterTabs.Printer -> option PrinterStatus)
    (l : list PrinterTabs.Printer) (m : gmap Z PrinterStatus) (i : Z) :
  ~ In i (map PrinterTabs.id l) ->
  fold_left (store answer) l m !! i = m !! i.
Proof.
  revert m. induction l as [|q l IH]; intros m Hn; [reflexivity|].
  simpl in *. rewrite IH by tauto.
  unfold store. destruct (answer q); [|reflexivity].
  apply lookup_insert_ne. tauto.
Qed.

Lemma store_all_member (answer : PrinterTabs.Printer -> option PrinterStatus)
    (l : list PrinterTabs.Printer) (m : gmap Z PrinterStatus)
    (p : PrinterTabs.Printer) :
  List.NoDup (map PrinterTabs.id l) ->
  In p l ->
  fold_left (store answer) l m !! PrinterTabs.id p
  = match answer p with
    | Some s => Some s
    | None => m !! PrinterTabs.id p
    end.
Proof.
  revert m. induction l as [|q l IH]; intros m Hnd Hin; [contradiction|].
  simpl in Hnd. apply List.NoDup_cons_iff in Hnd as [Hq Hnd].
  simpl. destruct Hin as [-> | Hin].
  - rewrite store_all_other by exact Hq.
    unfold store. destruct (answer p); [apply lookup_insert_eq | reflexivity].
  - rewrite IH by assumption.
    destruct (answer p); [reflexivity|].
    unfold store. destruct (answer q); [|reflexivity].
    apply lookup_insert_ne. intro Heq. apply Hq. rewrite Heq.
    apply in_map. exact Hin.
Qed.

(** X29. ControlPage, the query of the statuses: for printers with distinct
    ids, whatever the order in which the calls complete, the map holds
    under the id of each printer exactly what its own call resolved to, and
    nothing under any other id. A call that fails leaves out only its own
    printer: the statuses of the others are kept. *)
Theorem statuses_do_not_depend_on_the_completion_order
    (printers completed : list PrinterTabs.Printer)
    (answer : PrinterTabs.Printer -> option PrinterStatus) :
  List.NoDup (map PrinterTabs.id printers) ->
  Permutation completed printers ->
  (forall p, In p printers ->
     queryFn (Some printers) answer completed !! PrinterTabs.id p = answer p)
  /\ (forall i, ~ In i (map PrinterTabs.id printers) ->
        queryFn (Some printers) answer completed !! i = None).
Proof.
  intros Hnd Hperm. unfold queryFn.
  assert (Hids : Permutation (map PrinterTabs.id completed)
                   (map PrinterTabs.id printers))
    by (apply Permutation_map; exact Hperm).
  split.
  - intros p Hin. rewrite store_all_member.
    + destruct (answer p); [reflexivity | apply lookup_empty].
    + eapply Permutation_NoDup; [symmetry; exact Hids | exact Hnd].
    + eapply Permutation_in; [symmetry; exact Hperm | exact Hin].
  - intros i Hn. rewrite store_all_other; [apply lookup_empty|].
    intro Hin. apply Hn. eapply Permutation_in; [exact Hids | exact Hin].
Qed.

End Statuses.

(** ** Runs of the movement panel *)
Section MovementRuns.

Import MovementControls.

Lemma movement_run_cons (e : Env) (ev : Event) (rest : list (Env * Event))
    (st : State) :
  run st ((e, ev) :: rest)
  = (fst (run (fst (step e st ev)) rest),
     (snd (step e st ev) ++ snd (run (fst (step e st ev)) rest))%list).
Proof.
  simpl. destruct (step e st ev) as [st1 out1]. simpl.
  destruct (run st1 rest) as [st2 out2]. reflexivity.
Qed.

Lemma offered_distance (d : Z) (negative : bool) :
  existsb (Z.eqb d) [1; 10; 50] = true ->
  existsb (Z.eqb (Z.abs (if negative then - d else d))) [1; 10; 50] = true.
Proof.
  intro H. simpl in H.
  assert (Hd : d = 1 \/ d = 10 \/ d = 50).
  { destruct (Z.eqb_spec d 1), (Z.eqb_spec d 10), (Z.eqb_spec d 50); auto;
      discriminate. }
  destruct Hd as [-> | [-> | ->]]; destruct negative; reflexivity.
Qed.

Lemma movement_step_offered (sent : list Request) (e : Env) (st : State)
    (ev : Event) :
  forallb MovementAnswers.offered sent = true ->
  MovementAnswers.offered_inv st ->
  MovementAnswers.answers sent ev = true ->
  MovementAnswers.offered_inv (fst (step e st ev))
  /\ forallb MovementAnswers.offered (snd (step e st ev)) = true.
Proof.
  intros Hsent [Hd Hm] Hans.
  destruct ev as [d|axis negative| | | | |result axes|result axis distance|result];
    unfold step, handleConfirm, handleHome, handleMove,
    handleDisableMotors, homeMutation_onSuccess, moveMutation_onSuccess,
    disableMotorsMutation_onSuccess.
  - destruct (existsb (Z.eqb d) _) eqn:Hin; simpl;
      (split; [split; assumption | reflexivity]).
  - destruct (existsb (String.eqb axis) ["X"; "Y"; "Z"]) eqn:Hax;
      destruct (disabled e); cbn [orb negb fst snd];
      try (split; [split; assumption | reflexivity]).
    split; [split; assumption|].
    unfold MovementAnswers.offered, handleMove, moveMutation.
    cbn [forallb command].
    rewrite Hax, (offered_distance _ negative Hd). reflexivity.
  - destruct (disabled e); simpl; (split; [split; assumption | reflexivity]).
  - destruct (disabled e); simpl; (split; [split; assumption | reflexivity]).
  - destruct (confirmModal st) as [m|] eqn:Hc; simpl.
    + split; [split; [assumption | discriminate]|].
      rewrite (Hm m eq_refl e). reflexivity.
    + split; [split; [assumption|] | reflexivity].
      rewrite Hc. discriminate.
  - simpl. split; [split; [assumption | discriminate] | reflexivity].
  - destruct result as [|tok warn]; simpl;
      (split; [split; [assumption|] | reflexivity]); [assumption|].
    intros m [= <-] e'. reflexivity.
  - destruct result as [|tok warn]; simpl;
      (split; [split; [assumption|] | reflexivity]); [assumption|].
    intros m [= <-] e'. simpl in Hans.
    apply existsb_exists in Hans as (r & Hin & Hr).
    rewrite forallb_forall in Hsent. specialize (Hsent r Hin).
    unfold MovementAnswers.offered in *. destruct (command r); try discriminate.
    apply andb_true_iff in Hr as [Ha Hdist].
    apply String.eqb_eq in Ha. apply Z.eqb_eq in Hdist. subst.
    simpl command.
    apply andb_true_iff in Hsent as [Hsent _]. rewrite Hsent. reflexivity.
  - destruct result as [|tok warn]; simpl;
      (split; [split; [assumption|] | reflexivity]); [assumption|].
    intros m [= <-] e'. reflexivity.
Qed.

Lemma movement_run_offered (evs : list (Env * Event)) (sent : list Request)
    (st : State) :
  forallb MovementAnswers.offered sent = true ->
  MovementAnswers.offered_inv st ->
  MovementAnswers.answered sent st evs = true ->
  forallb MovementAnswers.offered (snd (run st evs)) = true.
Proof.
  revert sent st. induction evs as [|[e ev] evs IH]; intros sent st Hs Hi Ha;
    [reflexivity|].
  simpl in Ha. apply andb_true_iff in Ha as [Ha Hrest].
  destruct (movement_step_offered sent e st ev Hs Hi Ha) as [Hi1 Ho1].
  rewrite movement_run_cons. simpl snd. rewrite forallb_app, Ho1. simpl.
  apply (IH (sent ++ snd (step e st ev))%list); try assumption.
  rewrite forallb_app, Hs, Ho1. reflexivity.
Qed.

(** X7. MovementControls: in a run from the initial state in which every
    answer follows a call that the panel made, every request that the panel
    sends - first submissions and confirmations alike - is Home of 'XYZ',
    Disable Motors, or a move along X, Y or Z by 1, 10 or 50 mm in either
    direction at 3000 mm/min. *)
Theorem movement_sends_only_what_the_buttons_offer
    (evs : list (Env * Event)) :
  MovementAnswers.answered [] initial evs = true ->
  forallb MovementAnswers.offered (snd (run initial evs)) = true.
Proof.
  apply movement_run_offered; [reflexivity|].
  split; [reflexivity | discriminate].
Qed.

Lemma movement_step_tokens (e : Env) (st : State) (ev : Event) :
  DialogTokens.movement_inv st ->
  DialogTokens.movement_inv (fst (step e st ev))
  /\ sublist
       (DialogTokens.sent (snd (step e st ev))
        ++ DialogTokens.movement_pending (fst (step e st ev)))%list
       (DialogTokens.movement_pending st
        ++ option_list (DialogTokens.movement_delivered ev))%list.
Proof.
  intro Hinv. unfold DialogTokens.movement_pending.
  destruct ev as [d|axis negative| | | | |result axes|result axis distance|result];
    unfold step, handleConfirm, handleHome, handleMove,
    handleDisableMotors, homeMutation_onSuccess, moveMutation_onSuccess,
    disableMotorsMutation_onSuccess.
  - destruct (existsb _ _); simpl; (split; [assumption|]);
      rewrite app_nil_r; reflexivity.
  - destruct (disabled e || _); simpl; (split; [assumption|]);
      rewrite app_nil_r; reflexivity.
  - destruct (disabled e); simpl; (split; [assumption|]);
      rewrite app_nil_r; reflexivity.
  - destruct (disabled e); simpl; (split; [assumption|]);
      rewrite app_nil_r; reflexivity.
  - destruct (confirmModal st) as [m|] eqn:Hc; simpl.
    + split; [discriminate|]. unfold DialogTokens.sent. simpl.
      rewrite (Hinv m Hc e). simpl. reflexivity.
    + rewrite Hc. split; [assumption | reflexivity].
  - simpl. split; [discriminate|]. apply sublist_nil_l.
  - destruct result as [|tok warn]; simpl.
    + split; [assumption|]. rewrite app_nil_r. reflexivity.
    + split; [intros m [= <-] e'; reflexivity|].
      apply sublist_inserts_l. reflexivity.
  - destruct result as [|tok warn]; simpl.
    + split; [assumption|]. rewrite app_nil_r. reflexivity.
    + split; [intros m [= <-] e'; reflexivity|].
      apply sublist_inserts_l. reflexivity.
  - destruct result as [|tok warn]; simpl.
    + split; [assumption|]. rewrite app_nil_r. reflexivity.
    + split; [intros m [= <-] e'; reflexivity|].
      apply sublist_inserts_l. reflexivity.
Qed.

Lemma omap_cons_option_list {A B : Type} (f : A -> option B) (x : A)
    (l : list A) :
  omap f (x :: l) = (option_list (f x) ++ omap f l)%list.
Proof. simpl. destruct (f x); reflexivity. Qed.

Lemma sent_app (a b : list Request) :
  DialogTokens.sent (a ++ b) = (DialogTokens.sent a ++ DialogTokens.sent b)%list.
Proof. apply omap_app. Qed.

Lemma movement_run_tokens (evs : list (Env * Event)) (st : State) :
  DialogTokens.movement_inv st ->
  sublist (DialogTokens.sent (snd (run st evs)))
    (DialogTokens.movement_pending st
     ++ omap (fun x => DialogTokens.movement_delivered (snd x)) evs)%list.
Proof.
  revert st. induction evs as [|[e ev] evs IH]; intros st Hinv.
  - simpl. apply sublist_nil_l.
  - destruct (movement_step_tokens e st ev Hinv) as [Hinv1 Hsub].
    specialize (IH _ Hinv1).
    rewrite movement_run_cons. simpl snd. rewrite sent_app.
    rewrite (omap_cons_option_list (fun x => DialogTokens.movement_delivered (snd x))).
    cbn [snd].
    rewrite app_assoc.
    etransitivity; [|apply sublist_app; [exact Hsub | reflexivity]].
    rewrite <- app_assoc. apply sublist_app; [reflexivity | exact IH].
Qed.

(** X8. MovementControls: along any run from the initial state, the tokens that
    the panel sends form a subsequence of the tokens that the answers
    handed to it: the panel sends no token that it was not given, sends a
    given token at most once, and sends tokens in the order in which it
    received them. *)
Theorem movement_tokens_sent_were_delivered (evs : list (Env * Event)) :
  sublist (DialogTokens.sent (snd (run initial evs)))
    (omap (fun x => DialogTokens.movement_delivered (snd x)) evs).
Proof.
  apply (movement_run_tokens evs initial). intros m H. discriminate.
Qed.

End MovementRuns.

(** ** Runs of the temperature panel *)
Section TemperatureRuns.

Import TemperaturePanel.

Lemma temperature_run_cons (e : Env) (ev : Event) (rest : list (Env * Event))
    (st : State) :
  run st ((e, ev) :: rest)
  = (fst (run (fst (step e st ev)) rest),
     (snd (step e st ev) ++ snd (run (fst (step e st ev)) rest))%list).
Proof.
  simpl. destruct (step e st ev) as [st1 out1]. simpl.
  destruct (run st1 rest) as [st2 out2]. reflexivity.
Qed.

Lemma preset_within_limits (p : TempPreset) :
  existsb (fun q => String.eqb (name q) (name p)
                    && Z.eqb (preset_bed q) (preset_bed p)
                    && Z.eqb (preset_nozzle q) (preset_nozzle p)) PRESETS = true ->
  0 <= preset_bed p <= 120 /\ 0 <= preset_nozzle p <= 300.
Proof.
  intro H. apply existsb_exists in H as (q & Hin & Hq).
  apply andb_true_iff in Hq as [Hq Hn]. apply andb_true_iff in Hq as [_ Hb].
  apply Z.eqb_eq in Hn, Hb. rewrite <- Hn, <- Hb.
  simpl in Hin.
  repeat (destruct Hin as [<- | Hin]; [simpl; lia|]). contradiction.
Qed.

Lemma within_limits_bed (e : Env) (t : Z) (tok : option string) :
  0 <= t <= 120 -> within_limits (bedMutation e t tok) = true.
Proof.
  intro H. unfold within_limits. simpl.
  apply andb_true_iff; split; apply Z.leb_le; lia.
Qed.

Lemma within_limits_nozzle (e : Env) (t noz : Z) (tok : option string) :
  0 <= t <= 300 -> within_limits (nozzleMutation e t noz tok) = true.
Proof.
  intro H. unfold within_limits. simpl.
  apply andb_true_iff; split; apply Z.leb_le; lia.
Qed.

Lemma temperature_step_within_limits (sent : list Request) (e : Env)
    (st : State) (ev : Event) :
  forallb within_limits sent = true ->
  TemperatureAnswers.within_limits_inv st ->
  TemperatureAnswers.answers sent ev = true ->
  TemperatureAnswers.within_limits_inv (fst (step e st ev))
  /\ forallb within_limits (snd (step e st ev)) = true.
Proof.
  intros Hsent Hinv Hans.
  destruct ev as [p|plus|plus noz| | |result tgt|result tgt noz];
    unfold step, handleConfirm, bedMutation_onSuccess,
      nozzleMutation_onSuccess.
  - destruct (preset_disabled e); [split; [assumption | reflexivity]|].
    destruct (existsb _ PRESETS) eqn:Hp; [|split; [assumption | reflexivity]].
    split; [assumption|].
    destruct (preset_within_limits p Hp) as [Hb Hn].
    unfold handlePreset. cbn [snd forallb].
    rewrite within_limits_bed, within_limits_nozzle by assumption.
    destruct (Z.ltb 1 (nozzleCount e)); cbn [forallb];
      [rewrite within_limits_nozzle by assumption|]; reflexivity.
  - destruct (bed_disabled e); [split; [assumption | reflexivity]|].
    split; [assumption|]. cbn [snd adjustTemp forallb].
    rewrite within_limits_bed; [reflexivity|].
    apply (newTarget_clamped e Bed).
  - destruct (nozzle_disabled e); [split; [assumption | reflexivity]|].
    destruct (existsb _ (nozzles e)); [|split; [assumption | reflexivity]].
    split; [assumption|]. cbn [snd adjustTemp forallb].
    rewrite within_limits_nozzle; [reflexivity|].
    apply (newTarget_clamped e Nozzle).
  - destruct (confirmModal st) as [m|] eqn:Hc; cbn [fst snd].
    + split; [intros m' H; discriminate|].
      destruct (Hinv m Hc) as [H0 H1].
      destruct (type m); cbn [forallb];
        [rewrite within_limits_bed | rewrite within_limits_nozzle];
        auto.
    + split; [assumption | reflexivity].
  - split; [intros m' H; discriminate | reflexivity].
  - destruct result as [|tok warn]; cbn [fst snd];
      (split; [|reflexivity]); [assumption|].
    intros m [= <-]. cbn [target type].
    simpl in Hans. apply existsb_exists in Hans as (r & Hin & Hr).
    rewrite forallb_forall in Hsent. specialize (Hsent r Hin).
    unfold within_limits in Hsent. destruct (command r); try discriminate.
    apply Z.eqb_eq in Hr. subst.
    apply andb_true_iff in Hsent as [H0 H1].
    apply Z.leb_le in H0, H1. lia.
  - destruct result as [|tok warn]; cbn [fst snd];
      (split; [|reflexivity]); [assumption|].
    intros m [= <-]. cbn [target type].
    simpl in Hans. apply existsb_exists in Hans as (r & Hin & Hr).
    rewrite forallb_forall in Hsent. specialize (Hsent r Hin).
    unfold within_limits in Hsent. destruct (command r); try discriminate.
    apply andb_true_iff in Hr as [Hr _]. apply Z.eqb_eq in Hr. subst.
    apply andb_true_iff in Hsent as [H0 H1].
    apply Z.leb_le in H0, H1. lia.
Qed.

Lemma temperature_run_within_limits (evs : list (Env * Event))
    (sent : list Request) (st : State) :
  forallb within_limits sent = true ->
  TemperatureAnswers.within_limits_inv st ->
  TemperatureAnswers.answered sent st evs = true ->
  forallb within_limits (snd (run st evs)) = true.
Proof.
  revert sent st. induction evs as [|[e ev] evs IH]; intros sent st Hs Hi Ha;
    [reflexivity|].
  simpl in Ha. apply andb_true_iff in Ha as [Ha Hrest].
  destruct (temperature_step_within_limits sent e st ev Hs Hi Ha) as [Hi1 Ho1].
  rewrite temperature_run_cons. cbn [snd]. rewrite forallb_app, Ho1. simpl.
  apply (IH (sent ++ snd (step e st ev))%list); try assumption.
  rewrite forallb_app, Hs, Ho1. reflexivity.
Qed.

(** X9. TemperaturePanel: in a run from the initial state in which every answer
    follows a call that the panel made, every request that the panel sends -
    presets, +/- and confirmations alike - asks for a target within the
    limits of its heater: 0 to 120 for the bed, 0 to 300 for a nozzle. *)
Theorem temperature_never_exceeds_the_limits (evs : list (Env * Event)) :
  TemperatureAnswers.answered [] initial evs = true ->
  forallb within_limits (snd (run initial evs)) = true.
Proof.
  apply temperature_run_within_limits; [reflexivity|].
  intros m H. discriminate.
Qed.

(** X11. A preset sets every heater that has a row in the panel: one request for
    the bed and one for each rendered nozzle, with the targets of the
    preset and without a token. *)
Theorem preset_sets_every_rendered_heater (e : Env) (st : State)
    (p : TempPreset) :
  In p PRESETS ->
  isConnected (status e) = true ->
  step e st (ClickPreset p)
  = (st, bedMutation e (preset_bed p) None
         :: map (fun noz => nozzleMutation e (preset_nozzle p) noz None)
              (nozzles e)).
Proof.
  intros Hin Hc. unfold step, preset_disabled. rewrite Hc. cbn [negb].
  assert (Hp : existsb (fun q => String.eqb (name q) (name p)
                    && Z.eqb (preset_bed q) (preset_bed p)
                    && Z.eqb (preset_nozzle q) (preset_nozzle p)) PRESETS = true).
  { apply existsb_exists. exists p. split; [exact Hin|].
    rewrite String.eqb_refl, !Z.eqb_refl. reflexivity. }
  rewrite Hp. unfold handlePreset, nozzles.
  destruct (Z.ltb 1 (nozzleCount e)); reflexivity.
Qed.

Lemma temperature_step_tokens (e : Env) (st : State) (ev : Event) :
  sublist
    (DialogTokens.sent (snd (step e st ev))
     ++ DialogTokens.temperature_pending (fst (step e st ev)))%list
    (DialogTokens.temperature_pending st
     ++ option_list (DialogTokens.temperature_delivered ev))%list.
Proof.
  unfold DialogTokens.temperature_pending.
  destruct ev as [p|plus|plus noz| | |result tgt|result tgt noz];
    unfold step, handleConfirm, bedMutation_onSuccess,
      nozzleMutation_onSuccess.
  - destruct (preset_disabled e); [simpl; rewrite app_nil_r; reflexivity|].
    destruct (existsb _ PRESETS); [|simpl; rewrite app_nil_r; reflexivity].
    unfold handlePreset. destruct (Z.ltb 1 (nozzleCount e)); simpl;
      rewrite app_nil_r; reflexivity.
  - destruct (bed_disabled e); simpl; rewrite app_nil_r; reflexivity.
  - destruct (nozzle_disabled e); [simpl; rewrite app_nil_r; reflexivity|].
    destruct (existsb _ (nozzles e)); simpl; rewrite app_nil_r; reflexivity.
  - destruct (confirmModal st) as [m|] eqn:Hc; cbn [fst snd].
    + destruct (type m); simpl; reflexivity.
    + rewrite Hc. reflexivity.
  - simpl. apply sublist_nil_l.
  - destruct result as [|tok warn]; simpl.
    + rewrite app_nil_r. reflexivity.
    + apply sublist_inserts_l. reflexivity.
  - destruct result as [|tok warn]; simpl.
    + rewrite app_nil_r. reflexivity.
    + apply sublist_inserts_l. reflexivity.
Qed.

Lemma temperature_run_tokens (evs : list (Env * Event)) (st : State) :
  sublist (DialogTokens.sent (snd (run st evs)))
    (DialogTokens.temperature_pending st
     ++ omap (fun x => DialogTokens.temperature_delivered (snd x)) evs)%list.
Proof.
  revert st. induction evs as [|[e ev] evs IH]; intros st.
  - simpl. apply sublist_nil_l.
  - pose proof (temperature_step_tokens e st ev) as Hsub.
    specialize (IH (fst (step e st ev))).
    rewrite temperature_run_cons. cbn [snd]. rewrite sent_app.
    rewrite (omap_cons_option_list
               (fun x => DialogTokens.temperature_delivered (snd x))).
    cbn [snd]. rewrite app_assoc.
    etransitivity; [|apply sublist_app; [exact Hsub | reflexivity]].
    rewrite <- app_assoc. apply sublist_app; [reflexivity | exact IH].
Qed.

(** X10. TemperaturePanel: along any run from the initial state, the tokens that
    the panel sends form a subsequence of the tokens that the answers
    handed to it: no token that it was not given, a given token at most
    once, and in the order of arrival. *)
Theorem temperature_tokens_sent_were_delivered (evs : list (Env * Event)) :
  sublist (DialogTokens.sent (snd (run initial evs)))
    (omap (fun x => DialogTokens.temperature_delivered (snd x)) evs).
Proof. apply (temperature_run_tokens evs initial). Qed.

End TemperatureRuns.

(** ** The fan sliders *)
Section Fans.

Import FanPanel.

Lemma fan_run_cons (pid : Z) (status : option PrinterStatus) (ev : Event)
    (rest : list (option PrinterStatus * Event)) (st : State) :
  run pid st ((status, ev) :: rest)
  = (fst (run pid (fst (step pid status st ev)) rest),
     (snd (step pid status st ev)
      ++ snd (run pid (fst (step pid status st ev)) rest))%list).
Proof.
  simpl. destruct (step pid status st ev) as [st1 out1]. simpl.
  destruct (run pid st1 rest) as [st2 out2]. reflexivity.
Qed.

Lemma same_fan_eq (f g : FanControls.Fan) : same_fan f g = true -> f = g.
Proof. destruct f, g; simpl; congruence. Qed.

Lemma fan_step_on_scale (pid : Z) (sent : list Request)
    (status : option PrinterStatus) (st : State) (ev : Event) :
  forallb fan_on_scale sent = true ->
  on_scale_inv st ->
  possible sent ev = true ->
  on_scale_inv (fst (step pid status st ev))
  /\ forallb fan_on_scale (snd (step pid status st ev)) = true.
Proof.
  intros Hsent Hinv Hpos.
  assert (Hdown : forall f, on_scale_inv (handleMouseDown st f)).
  { intros f g. unfold handleMouseDown. simpl.
    destruct (same_fan g f) eqn:Hg; simpl;
      [apply same_fan_eq in Hg; subst|]; apply Hinv. }
  assert (Hup : forall f,
             on_scale_inv (fst (handleMouseUp pid st f))
             /\ forallb fan_on_scale (snd (handleMouseUp pid st f)) = true).
  { intro f. unfold handleMouseUp. cbn [fst snd]. split.
    - intro g. simpl. destruct (same_fan g f) eqn:Hg; simpl;
        [apply same_fan_eq in Hg; subst|]; apply Hinv.
    - destruct (Z.eqb _ _); [reflexivity|]. cbn [forallb].
      unfold fan_on_scale, fan_speed, FanControls.mutate. cbn [command].
      destruct (Hinv f) as [_ Hl]. destruct f; cbn; rewrite Hl; reflexivity. }
  unfold on_scale_inv in *.
  destruct ev as [f|f v|f|f|f|f speed]; unfold step.
  - destruct (FanControls.disabled status f); cbn [fst snd];
      (split; [|reflexivity]); [assumption | apply Hdown].
  - destruct (FanControls.disabled status f); cbn [fst snd];
      (split; [|reflexivity]); [assumption|].
    intro g. simpl. destruct (same_fan g f) eqn:Hg; simpl;
      [|apply Hinv].
    split; [apply Hinv | exact Hpos].
  - destruct (FanControls.disabled status f);
      [split; [assumption | reflexivity] | apply Hup].
  - cbn [fst snd]. split; [apply Hdown | reflexivity].
  - apply Hup.
  - cbn [fst snd]. split; [|reflexivity].
    intro g. simpl. destruct (same_fan g f) eqn:Hg; [|apply Hinv].
    split; [|apply Hinv].
    simpl in Hpos. apply existsb_exists in Hpos as (r & Hin & Hr).
    rewrite forallb_forall in Hsent. specialize (Hsent r Hin).
    unfold fan_on_scale in Hsent.
    destruct (fan_speed r) as [[g' v]|]; [|discriminate].
    apply andb_true_iff in Hr as [_ Hr]. apply Z.eqb_eq in Hr. subst.
    exact Hsent.
Qed.

Lemma fan_run_on_scale (pid : Z) (evs : list (option PrinterStatus * Event))
    (sent : list Request) (st : State) :
  forallb fan_on_scale sent = true ->
  on_scale_inv st ->
  all_possible pid sent st evs = true ->
  forallb fan_on_scale (snd (run pid st evs)) = true.
Proof.
  revert sent st. induction evs as [|[status ev] evs IH];
    intros sent st Hs Hi Ha; [reflexivity|].
  simpl in Ha. apply andb_true_iff in Ha as [Ha Hrest].
  destruct (fan_step_on_scale pid sent status st ev Hs Hi Ha) as [Hi1 Ho1].
  rewrite fan_run_cons. cbn [snd]. rewrite forallb_app, Ho1. simpl.
  apply (IH (sent ++ snd (step pid status st ev))%list); try assumption.
  rewrite forallb_app, Hs, Ho1. reflexivity.
Qed.

(** X12. FanControls: when the range inputs report values of their scale (0 to
    100 in steps of 5) and every answer follows a call that the panel made,
    every request that the panel sends, from its initial values 100, 0 and
    0 on, asks a fan for a speed on that scale. *)
Theorem fan_requests_stay_on_the_scale (pid : Z)
    (evs : list (option PrinterStatus * Event)) :
  all_possible pid [] initial evs = true ->
  forallb fan_on_scale (snd (run pid initial evs)) = true.
Proof.
  apply fan_run_on_scale; [reflexivity|].
  intros []; split; reflexivity.
Qed.

(** X13. FanSlider: a release sends a request only when the value of the slider
    differs from the stored one, and then for the released value; after the
    answer has stored it, pressing and releasing the slider again without
    moving it sends nothing. *)
Theorem fan_release_after_success_sends_nothing (pid : Z)
    (status : option PrinterStatus) (st : State) (f : FanControls.Fan) (v : Z) :
  isConnected status = true ->
  v <> fanValues st f ->
  let drag := [(status, MouseDown f); (status, Change f v); (status, MouseUp f)] in
  snd (run pid st drag) = [FanControls.mutate pid f v]
  /\ snd (run pid (fst (run pid st (drag ++ [(status, Success f v)])))
            [(status, MouseDown f); (status, MouseUp f)]) = []
  /\ displayValue (fst (run pid st (drag ++ [(status, Success f v)]))) f = v.
Proof.
  intros Hc Hv drag. unfold drag, displayValue.
  apply Z.eqb_neq in Hv.
  destruct f; simpl; unfold FanControls.disabled;
    rewrite Hc; simpl; rewrite Hv, Z.eqb_refl; repeat split.
Qed.

(** The touch events are not gated: on a slider that is disabled because
    the printer is not connected, a touch end whose value differs from the
    stored one sends the command. *)
Lemma touch_end_is_not_gated (pid : Z) (status : option PrinterStatus)
    (st : State) (f : FanControls.Fan) :
  FanControls.disabled status f = true ->
  localValue (sliders st f) <> fanValues st f ->
  snd (step pid status st (MouseUp f)) = []
  /\ snd (step pid status st (TouchEnd f))
     = [FanControls.mutate pid f (localValue (sliders st f))].
Proof.
  intros Hd Hv. apply Z.eqb_neq in Hv. unfold step, handleMouseUp.
  rewrite Hd. cbn [snd]. rewrite Hv. split; reflexivity.
Qed.

End Fans.

(** ** The light button *)
Section Light.

Import LightSwitch.

(** X14. LightToggle: a click asks for the opposite of the stored state and
    leaves the stored state as it is; so all the clicks that are made
    before an answer arrives ask for the same value: the button sets the
    light, it does not flip it once per click. *)
Theorem light_clicks_ask_for_the_same_value (pid : Z) (isOn : bool)
    (evs : list (option PrinterStatus * bool * Event)) :
  forallb is_click evs = true ->
  fst (run pid isOn evs) = isOn
  /\ Forall (fun r => r = {| printerId := pid;
                             command := setChamberLight (negb isOn);
                             confirm_token := None |})
       (snd (run pid isOn evs)).
Proof.
  induction evs as [|[[status isPending] ev] evs IH]; intro H.
  - split; [reflexivity | constructor].
  - simpl in H. destruct ev; [|discriminate].
    specialize (IH H). simpl.
    destruct (run pid isOn evs) as [isOn2 out2]. simpl in *.
    destruct IH as [-> Hall]. split; [reflexivity|].
    apply Forall_app. split; [|exact Hall].
    unfold LightToggle.handleToggle.
    destruct (LightToggle.disabled status isPending); repeat constructor.
Qed.

End Light.

(** ** The camera feed *)
Section Camera.

Import CameraFeed.

Lemma camera_step_keeps_error (isConnected : bool) (st : State) (ev : Event) :
  is_Some (error st) ->
  is_toggle (isConnected, ev) = false ->
  error (step isConnected st ev) = error st.
Proof.
  intros Herr Hev.
  assert (Himg : img_rendered st = false).
  { unfold img_rendered. rewrite bool_decide_eq_true_2 by exact Herr.
    apply andb_false_r. }
  destruct ev; try discriminate; simpl.
  - destruct (streamEnabled st); reflexivity.
  - destruct (streamEnabled st && _); reflexivity.
  - destruct (timers st); reflexivity.
  - rewrite Himg. reflexivity.
  - rewrite Himg. reflexivity.
Qed.

(** X19. CameraFeed: once the stream has failed, Retry and Refresh do not bring
    the image back. [handleRefresh] leaves [error] set, so when its timer
    re-enables the stream the error message is rendered instead of the
    [img] element, and without the element neither [onLoad] nor [onError]
    can run. Through any sequence of events other than a click on
    Start/Stop, the error stays and the image is not rendered. Start/Stop
    is the way out: clicked, with the printer connected, until the stream
    is enabled again, it clears the error and renders the image. *)
Theorem camera_retry_never_clears_the_error (st : State)
    (evs : list (bool * Event)) :
  is_Some (error st) ->
  forallb (fun ev => negb (is_toggle ev)) evs = true ->
  let st' := run st evs in
  error st' = error st
  /\ img_rendered st' = false
  /\ (let clicks := if streamEnabled st'
                    then [(true, ClickToggle); (true, ClickToggle)]
                    else [(true, ClickToggle)] in
      error (run st' clicks) = None
      /\ img_rendered (run st' clicks) = true).
Proof.
  intros Herr Hevs st'.
  assert (H : error st' = error st).
  { unfold st'. clear st'. revert st Herr.
    induction evs as [|[c ev] evs IH]; intros st Herr; [reflexivity|].
    simpl in Hevs. apply andb_true_iff in Hevs as [Hev Hevs].
    apply negb_true_iff in Hev.
    pose proof (camera_step_keeps_error c st ev Herr Hev) as Hstep.
    unfold run in *. simpl. rewrite IH; [exact Hstep | exact Hevs|].
    rewrite Hstep. exact Herr. }
  split; [exact H|]. split.
  - unfold img_rendered. rewrite H.
    rewrite bool_decide_eq_true_2 by exact Herr. apply andb_false_r.
  - unfold run, img_rendered. destruct (streamEnabled st') eqn:Hen; simpl;
      unfold handleToggleStream; rewrite ?Hen; simpl; split; reflexivity.
Qed.

End Camera.

(** ** The print dialog *)
Section PrintDialog.

Import PrintModal.

Lemma mappings_from_lookup (l : list Z) (idx : Z) (m : gmap Z Z) (k : Z) :
  mappings_from idx l m !! k
  = match (if Z.ltb idx k then l !! Z.to_nat (k - idx - 1) else None) with
    | Some g => if Z.eqb g (-1) then m !! k else Some g
    | None => m !! k
    end.
Proof.
  revert idx m. induction l as [|g rest IH]; intros idx m.
  - simpl. destruct (Z.ltb idx k); reflexivity.
  - cbn [mappings_from]. rewrite IH.
    destruct (Z.ltb_spec idx k) as [Hlt|Hge].
    + destruct (Z.eq_dec k (idx + 1)) as [->|Hne].
      * rewrite Z.ltb_irrefl.
        replace (idx + 1 - idx - 1) with 0 by lia. simpl.
        destruct (Z.eqb g (-1)); [reflexivity|].
        apply lookup_insert_eq.
      * destruct (Z.ltb_spec (idx + 1) k) as [_|]; [|lia].
        replace (Z.to_nat (k - idx - 1))
          with (S (Z.to_nat (k - (idx + 1) - 1))) by lia.
        simpl.
        assert (Hm : (if Z.eqb g (-1) then m
                      else <[idx + 1 := g]> m) !! k = m !! k).
        { destruct (Z.eqb g (-1)); [reflexivity|].
          apply lookup_insert_ne. lia. }
        rewrite Hm. reflexivity.
    + destruct (Z.ltb_spec (idx + 1) k) as [|_]; [lia|].
      destruct (Z.eqb g (-1)); [reflexivity|].
      apply lookup_insert_ne. lia.
Qed.

(** X20. PrintModal: the manual mappings with which the dialog opens on a queue
    item are exactly the entries of its [ams_mapping] other than -1, keyed
    by their position counted from 1: slot [k] is mapped to tray [g] if and
    only if [k >= 1], the entry at index [k - 1] is [g], and [g] is not
    -1. *)
Theorem manualMappings_of_queue_item
    (DEFAULT_PRINT_OPTIONS : PrintOptions)
    (DEFAULT_SCHEDULE_OPTIONS : ScheduleOptions)
    (isPlaceholderDate : string -> bool) (toDatetimeLocal : string -> string)
    (q : QueueItem) (l : list Z) (k g : Z) :
  item_ams_mapping q = Some l ->
  manualMappings (initial DEFAULT_PRINT_OPTIONS DEFAULT_SCHEDULE_OPTIONS
                    isPlaceholderDate toDatetimeLocal EditQueueItem (Some q))
    !! k = Some g
  <-> 1 <= k /\ l !! Z.to_nat (k - 1) = Some g /\ g <> -1.
Proof.
  intro Hl. simpl. rewrite Hl, mappings_from_lookup.
  replace (k - 0 - 1) with (k - 1) by lia.
  destruct (Z.ltb_spec 0 k) as [Hk|Hk].
  - destruct (l !! Z.to_nat (k - 1)) as [g'|] eqn:Hg.
    + destruct (Z.eqb_spec g' (-1)) as [->|Hne].
      * rewrite lookup_empty. split; [discriminate|].
        intros (_ & [= <-] & Hn). contradiction.
      * split.
        -- intros [= <-]. repeat split; [lia | assumption].
        -- intros (_ & [= <-] & _). reflexivity.
    + rewrite lookup_empty. split; [discriminate|].
      intros (_ & H & _). discriminate.
  - rewrite lookup_empty. split; [discriminate|]. intros (H & _). lia.
Qed.


(** The effects of the edit mode touch the plate and the mappings only, and
    the plate only while none is selected. The mount is a render of this
    kind: the dialog opens with its selections equal to the stored ones, on
    which the clearing does nothing. *)
Lemma effects_edit (printers : option (list PrinterSelector.Printer))
    (platesData : option PlatesData) (st : State) :
  let st' := effects EditQueueItem printers platesData st in
  selectedPrinter st' = selectedPrinter st
  /\ printOptions st' = printOptions st
  /\ scheduleOptions st' = scheduleOptions st
  /\ initialPrinterId st' = initialPrinterId st
  /\ initialPlateId st' = initialPlateId st
  /\ (selectedPlate st' = selectedPlate st
      \/ falsy (selectedPlate st) = true
         /\ exists index, platesData ≫= plates = Some [index]
                          /\ selectedPlate st' = Some index).
Proof.
  unfold effects, clearMappings, autoSelectPrinter, autoSelectPlate.
  destruct (platesData ≫= plates) as [[|index [|? ?]]|] eqn:Hp;
    try (destruct (bool_decide _); [|destruct (bool_decide _)]; simpl;
         repeat split; left; reflexivity).
  destruct (falsy (selectedPlate st)) eqn:Hf;
    (destruct (bool_decide _); [|destruct (bool_decide _)]); simpl;
    repeat split; try (left; reflexivity);
    right; (split; [reflexivity|]); exists index; split; reflexivity.
Qed.

Lemma renders_edit
    (queries : list (option (list PrinterSelector.Printer) * option PlatesData))
    (st : State) :
  let st' := fold_left (fun st d => effects EditQueueItem (fst d) (snd d) st)
               queries st in
  selectedPrinter st' = selectedPrinter st
  /\ printOptions st' = printOptions st
  /\ scheduleOptions st' = scheduleOptions st
  /\ (selectedPlate st' = selectedPlate st
      \/ falsy (selectedPlate st) = true
         /\ exists d index, In d queries /\ snd d ≫= plates = Some [index]
                            /\ selectedPlate st' = Some index).
Proof.
  revert st. induction queries as [|d queries IH]; intro st; cbn [fold_left]; cbv zeta.
  - repeat split. left. reflexivity.
  - destruct (effects_edit (fst d) (snd d) st) as (E1 & E2 & E3 & _ & _ & E6).
    destruct (IH (effects EditQueueItem (fst d) (snd d) st))
      as (I1 & I2 & I3 & I4).
    split; [congruence|]. split; [congruence|]. split; [congruence|].
    destruct I4 as [I4 | (If & d' & index & Hin & Hd & Hs)].
    + destruct E6 as [E6 | (Ef & index & Hd & Hs)].
      * left. congruence.
      * right. split; [exact Ef|]. exists d, index.
        split; [left; reflexivity|]. split; [exact Hd|]. congruence.
    + right. split.
      * destruct E6 as [E6 | (Ef & _)]; [rewrite <- E6; exact If | exact Ef].
      * exists d', index. split; [right; exact Hin|]. split; assumption.
Qed.

(** X22. PrintModal: a queue item whose stored time, if it has a schedule
    of its own, is a date (and so is its text in the input field). The
    modal opens on it; after any renders with answers of the two queries
    the effects have left its printer, its options and its schedule alone,
    and saving without a change sends one update of that item that keeps
    its printer, its manual-start flag and its two queue flags, and fills
    the print options that the item lacks from the defaults. The plate is
    kept when the item has one; for an item without a plate the update
    carries either none or the only plate of a single-plate answer, which
    the effect selected. The scheduled time that is sent is null when the
    item is a manual-start item or has no schedule of its own; otherwise it
    is the stored time taken through the two conversions of the input
    field. *)
Theorem edit_and_save_unchanged
    (DEFAULT_PRINT_OPTIONS : PrintOptions)
    (DEFAULT_SCHEDULE_OPTIONS : ScheduleOptions)
    (isPlaceholderDate : string -> bool)
    (toDatetimeLocal toISOString : string -> string)
    (invalidDate : string -> bool) (AmsMapping : Type)
    (archiveId : Z) (q : QueueItem) (amsMapping : AmsMapping)
    (queries : list (option (list PrinterSelector.Printer)
                     * option PlatesData)) :
  (forall t, item_scheduled_time q = Some t ->
             has_schedule isPlaceholderDate q = true ->
             invalidDate t = false
             /\ invalidDate (toDatetimeLocal t) = false) ->
  exists opened data,
    mount DEFAULT_PRINT_OPTIONS DEFAULT_SCHEDULE_OPTIONS isPlaceholderDate
      toDatetimeLocal invalidDate EditQueueItem (Some q) = Some opened
    /\ submit toISOString invalidDate AmsMapping EditQueueItem archiveId
         (Some q) amsMapping
         (fold_left (fun st d => effects EditQueueItem (fst d) (snd d) st)
            queries opened)
       = Some [updateQueueItem (item_id q) data]
    /\ printer_id data = item_printer_id q
    /\ (falsy (item_plate_id q) = false -> plate_id data = item_plate_id q)
    /\ (plate_id data = item_plate_id q
        \/ exists d index,
             In d queries /\ snd d ≫= plates = Some [index]
             /\ plate_id data = Some index)
    /\ manual_start data = item_manual_start q
    /\ require_previous_success data = item_require_previous_success q
    /\ auto_off_after data = item_auto_off_after q
    /\ bed_levelling (options data)
       = default (bed_levelling DEFAULT_PRINT_OPTIONS) (item_bed_levelling q)
    /\ flow_cali (options data)
       = default (flow_cali DEFAULT_PRINT_OPTIONS) (item_flow_cali q)
    /\ vibration_cali (options data)
       = default (vibration_cali DEFAULT_PRINT_OPTIONS) (item_vibration_cali q)
    /\ layer_inspect (options data)
       = default (layer_inspect DEFAULT_PRINT_OPTIONS) (item_layer_inspect q)
    /\ timelapse (options data)
       = default (timelapse DEFAULT_PRINT_OPTIONS) (item_timelapse q)
    /\ scheduled_time data
       = match item_scheduled_time q with
         | Some t =>
             if negb (item_manual_start q)
                && has_schedule isPlaceholderDate q
                && negb (String.eqb (toDatetimeLocal t) "")
             then Some (toISOString (toDatetimeLocal t))
             else None
         | None => None
         end.
Proof.
  intro Hdate.
  set (opened := initial DEFAULT_PRINT_OPTIONS DEFAULT_SCHEDULE_OPTIONS
                   isPlaceholderDate toDatetimeLocal EditQueueItem (Some q)).
  set (st := fold_left (fun st d => effects EditQueueItem (fst d) (snd d) st)
               queries opened).
  destruct (renders_edit queries opened) as (R1 & R2 & R3 & R4).
  fold st in R1, R2, R3, R4.
  assert (Hmount : mount DEFAULT_PRINT_OPTIONS DEFAULT_SCHEDULE_OPTIONS
                     isPlaceholderDate toDatetimeLocal invalidDate
                     EditQueueItem (Some q) = Some opened).
  { unfold mount. destruct (item_scheduled_time q) as [t|] eqn:Ht;
      [|reflexivity].
    destruct (has_schedule isPlaceholderDate q) eqn:Hs; [|reflexivity].
    rewrite (proj1 (Hdate t eq_refl eq_refl)). reflexivity. }
  assert (Hsub : submit toISOString invalidDate AmsMapping EditQueueItem
                   archiveId (Some q) amsMapping st
                 = Some (handleSubmit toISOString AmsMapping EditQueueItem
                           archiveId (Some q) amsMapping st)).
  { unfold submit. rewrite R3. unfold opened. simpl.
    destruct (item_manual_start q); [reflexivity|].
    destruct (has_schedule isPlaceholderDate q) eqn:Hs; [|reflexivity].
    simpl. destruct (item_scheduled_time q) as [t|] eqn:Ht.
    - rewrite (proj2 (Hdate t eq_refl eq_refl)).
      rewrite andb_false_r. reflexivity.
    - reflexivity. }
  exists opened. eexists. split; [exact Hmount|]. fold st.
  split; [rewrite Hsub; reflexivity|]. cbn [printer_id plate_id manual_start
    require_previous_success auto_off_after options scheduled_time].
  rewrite R1, R2, R3. unfold submitted_time. rewrite R3.
  split; [reflexivity|].
  split.
  { intro Hf. destruct R4 as [R4 | (Hf' & _)]; [exact R4|].
    unfold opened in Hf'. simpl in Hf'. congruence. }
  split.
  { destruct R4 as [R4 | (_ & d & index & Hin & Hd & Hs)];
      [left; exact R4 | right; exists d, index; auto]. }
  unfold opened. simpl.
  repeat split.
  - destruct (item_manual_start q), (has_schedule isPlaceholderDate q);
      reflexivity.
  - destruct (item_manual_start q); simpl.
    + destruct (item_scheduled_time q); reflexivity.
    + unfold has_schedule.
      destruct (item_scheduled_time q) as [t|]; simpl; [|reflexivity].
      destruct (negb (String.eqb t "") && negb (isPlaceholderDate t)); simpl;
        [|reflexivity].
      destruct (String.eqb (toDatetimeLocal t) ""); reflexivity.
Qed.

(** A stored time that is no date: the modal does not open. *)
Lemma mount_throws
    (DEFAULT_PRINT_OPTIONS : PrintOptions)
    (DEFAULT_SCHEDULE_OPTIONS : ScheduleOptions)
    (isPlaceholderDate : string -> bool) (toDatetimeLocal : string -> string)
    (invalidDate : string -> bool) (q : QueueItem) (t : string) :
  item_scheduled_time q = Some t ->
  has_schedule isPlaceholderDate q = true ->
  invalidDate t = true ->
  mount DEFAULT_PRINT_OPTIONS DEFAULT_SCHEDULE_OPTIONS isPlaceholderDate
    toDatetimeLocal invalidDate EditQueueItem (Some q) = None.
Proof. intros Ht Hs Hi. unfold mount. rewrite Ht, Hs, Hi. reflexivity. Qed.

(** X23. PrintModal and PrinterSelector: in the add-to-queue mode the
    auto-selection takes the only printer whether it is active or not. For
    a single inactive printer the selector offers nothing to choose, yet
    the printer is selected, the submit button is enabled (for a file that
    is not multi-plate), and submitting queues the print on that printer. *)
Theorem sole_inactive_printer_is_auto_selected
    (DEFAULT_PRINT_OPTIONS : PrintOptions)
    (DEFAULT_SCHEDULE_OPTIONS : ScheduleOptions)
    (isPlaceholderDate : string -> bool)
    (toDatetimeLocal toISOString : string -> string) (AmsMapping : Type)
    (archiveId : Z) (amsMapping : AmsMapping) (p : PrinterSelector.Printer)
    (platesData : option PlatesData) :
  PrinterSelector.is_active p = false ->
  PrinterSelector.id p <> 0 ->
  isMultiPlate platesData = false ->
  let st := autoSelectPrinter AddToQueue (Some [p])
              (initial DEFAULT_PRINT_OPTIONS DEFAULT_SCHEDULE_OPTIONS
                 isPlaceholderDate toDatetimeLocal AddToQueue None) in
  PrinterSelector.selectable (PrinterSelector.render [p] false false) = []
  /\ selectedPrinter st = Some (PrinterSelector.id p)
  /\ canSubmit AddToQueue (Some [p]) platesData false st = true
  /\ exists data,
       handleSubmit toISOString AmsMapping AddToQueue archiveId None
         amsMapping st = [addToQueue data]
       /\ printer_id data = Some (PrinterSelector.id p).
Proof.
  intros Ha Hid Hm st. apply Z.eqb_neq in Hid.
  split.
  { unfold PrinterSelector.render. simpl. rewrite Ha. reflexivity. }
  split; [reflexivity|].
  split.
  { unfold st. simpl. rewrite Hid, Hm. reflexivity. }
  unfold st. simpl. rewrite Hid. eexists. split; reflexivity.
Qed.


(** X25. PrinterSelector: the grid offers the active printers only, the dropdown
    offers every printer and the choice of none. *)
Theorem selector_offers (printers : list PrinterSelector.Printer)
    (allowUnassigned : bool) (choice : option Z) :
  In choice (PrinterSelector.selectable
               (PrinterSelector.render printers false allowUnassigned))
  <-> if allowUnassigned
      then printers <> []
           /\ (choice = None
               \/ exists p, In p printers /\ choice = Some (PrinterSelector.id p))
      else exists p, In p printers /\ PrinterSelector.is_active p = true
                     /\ choice = Some (PrinterSelector.id p).
Proof.
  unfold PrinterSelector.render. simpl. destruct allowUnassigned.
  - destruct printers as [|p0 ps]; simpl.
    + split; [intros [] | intros [H _]; congruence].
    + split.
      * intros [<- | [<- | H]].
        -- split; [discriminate | left; reflexivity].
        -- split; [discriminate|]. right. exists p0. split; [left|]; reflexivity.
        -- split; [discriminate|]. right.
           apply in_map_iff in H as (p & <- & Hin).
           exists p. split; [right; assumption | reflexivity].
      * intros [_ [-> | (p & [<- | Hin] & ->)]].
        -- left. reflexivity.
        -- right. left. reflexivity.
        -- right. right. apply in_map_iff. exists p. split; [reflexivity | assumption].
  - destruct (List.filter PrinterSelector.is_active printers) as [|a act] eqn:Hf.
    + simpl. split; [intros []|].
      intros (p & Hin & Ha & _).
      assert (In p (List.filter PrinterSelector.is_active printers))
        by (apply filter_In; split; assumption).
      rewrite Hf in H. contradiction.
    + rewrite <- Hf. cbn [PrinterSelector.selectable]. rewrite map_map.
      rewrite in_map_iff. split.
      * intros (p & <- & Hin). apply filter_In in Hin as [Hin Ha].
        exists p. repeat split; assumption.
      * intros (p & Hin & Ha & ->). exists p. split; [reflexivity|].
        apply filter_In. split; assumption.
Qed.

End PrintDialog.

(** ** Currency symbols *)
Section CurrencyFacts.

Import Currency.

(** X26. Every supported currency has a symbol, its label is its code followed
    by that symbol in parentheses, and [getCurrencySymbol] finds the symbol
    from any spelling of the code whose upper case is the code. *)
Theorem label_shows_the_symbol (c : Supported) (spelling : string) :
  In c SUPPORTED_CURRENCIES ->
  toUpperCase spelling = code c ->
  label c = code c ++ " (" ++ getCurrencySymbol spelling ++ ")"
  /\ lookup (code c) CURRENCY_SYMBOLS = Some (getCurrencySymbol spelling).
Proof.
  intros Hin Hup. unfold getCurrencySymbol. rewrite Hup. simpl in Hin.
  repeat (destruct Hin as [<- | Hin]; [split; reflexivity|]).
  contradiction.
Qed.

End CurrencyFacts.

(** ** The context menu *)
Section Menu.

Import ContextMenu.

Lemma menu_run_cons (items : list Item) (ev : Event) (rest : list Event)
    (st : State) :
  run items st (ev :: rest)
  = (fst (run items (fst (step items st ev)) rest),
     (snd (step items st ev)
      ++ snd (run items (fst (step items st ev)) rest))%list).
Proof.
  simpl. destruct (step items st ev) as [st1 out1]. simpl.
  destruct (run items st1 rest) as [st2 out2]. reflexivity.
Qed.

Lemma menu_step_enabled_leaf (items : list Item) (st : State) (ev : Event) :
  forallb (runs_enabled_leaf items) (snd (step items st ev)) = true.
Proof.
  destruct ev; simpl; try reflexivity.
  - destruct (items !! index) as [item|] eqn:Hi; [|reflexivity].
    destruct (divider item) eqn:Hd, (disabled item) eqn:Hdis; simpl;
      try reflexivity.
    destruct (hasSubmenu item) eqn:Hs; simpl; [reflexivity|].
    rewrite Hi, Hd, Hdis, Hs. reflexivity.
  - destruct (submenu_open items st index); [|reflexivity].
    destruct (items !! index ≫= _) as [subItem|] eqn:Hi; [|reflexivity].
    destruct (disabled subItem) eqn:Hdis; simpl; [reflexivity|].
    rewrite Hi, Hdis. reflexivity.
  - destruct (items !! index) as [item|]; [|reflexivity].
    destruct (negb (divider item) && hasSubmenu item); reflexivity.
  - destruct (items !! index) as [item|]; [|reflexivity].
    destruct (negb (divider item) && hasSubmenu item); reflexivity.
  - destruct (submenu_open items st index); reflexivity.
  - destruct (submenu_open items st index); reflexivity.
  - destruct (existsb _ _); reflexivity.
Qed.

(** X27. ContextMenu: whatever the events, the only [onClick] callbacks that the
    menu runs are those of enabled items without a submenu and of enabled
    items of a submenu: a divider, a disabled item and an item that opens a
    submenu never run theirs. *)
Theorem menu_runs_enabled_leaves_only (items : list Item) (st : State)
    (evs : list Event) :
  forallb (runs_enabled_leaf items) (snd (run items st evs)) = true.
Proof.
  revert st. induction evs as [|ev evs IH]; intro st; [reflexivity|].
  rewrite menu_run_cons. cbn [snd].
  rewrite forallb_app, menu_step_enabled_leaf, IH. reflexivity.
Qed.

Lemma menu_step_superseded (items : list Item) (st : State) (ev : Event)
    (id : nat) :
  fresh_inv st ->
  In id (pending st) ->
  submenuTimeoutRef st <> Some id ->
  is_timer id ev = false ->
  fresh_inv (fst (step items st ev))
  /\ In id (pending (fst (step items st ev)))
  /\ submenuTimeoutRef (fst (step items st ev)) <> Some id.
Proof.
  intros [Hp Hr] Hin Href Hev.
  assert (Hclear : fresh_inv (clearSubmenuTimeout st)
                   /\ In id (pending (clearSubmenuTimeout st))
                   /\ submenuTimeoutRef (clearSubmenuTimeout st) <> Some id).
  { unfold clearSubmenuTimeout.
    destruct (submenuTimeoutRef st) as [r|] eqn:Hrr;
      [|repeat split; try assumption; rewrite Hrr; discriminate].
    simpl. repeat split; simpl.
    - intros i Hi. apply filter_In in Hi as [Hi _]. auto.
    - discriminate.
    - apply filter_In. split; [assumption|].
      apply negb_true_iff, Nat.eqb_neq. congruence.
    - discriminate. }
  assert (Hleave : fresh_inv (handleMouseLeaveSubmenu st)
                   /\ In id (pending (handleMouseLeaveSubmenu st))
                   /\ submenuTimeoutRef (handleMouseLeaveSubmenu st) <> Some id).
  { unfold handleMouseLeaveSubmenu. repeat split; simpl.
    - intros i [<- | Hi]; [lia|]. apply Hp in Hi. lia.
    - intros i [= <-]. lia.
    - right. assumption.
    - intros [= E]. apply Hp in Hin. lia. }
  destruct ev; simpl.
  - destruct (items !! index) as [item|]; [|repeat split; assumption].
    destruct (divider item || disabled item); [repeat split; assumption|].
    destruct (hasSubmenu item); repeat split; assumption.
  - destruct (submenu_open items st index); [|repeat split; assumption].
    destruct (items !! index ≫= _) as [subItem|]; [|repeat split; assumption].
    destruct (disabled subItem); repeat split; assumption.
  - destruct (items !! index) as [item|]; [|repeat split; assumption].
    destruct (negb (divider item) && hasSubmenu item);
      [|repeat split; assumption].
    exact Hclear.
  - destruct (items !! index) as [item|]; [|repeat split; assumption].
    destruct (negb (divider item) && hasSubmenu item);
      [exact Hleave | repeat split; assumption].
  - destruct (submenu_open items st index);
      [exact Hclear | repeat split; assumption].
  - destruct (submenu_open items st index);
      [exact Hleave | repeat split; assumption].
  - destruct (existsb _ _); [|repeat split; assumption].
    simpl in Hev. apply Nat.eqb_neq in Hev.
    repeat split; simpl.
    + intros i Hi. apply filter_In in Hi as [Hi _]. auto.
    + assumption.
    + apply filter_In. split; [assumption|].
      apply negb_true_iff, Nat.eqb_neq. congruence.
    + assumption.
  - repeat split; assumption.
  - repeat split; assumption.
  - repeat split; assumption.
Qed.

(** X28. ContextMenu: [handleMouseLeaveSubmenu] overwrites the stored timer id
    without clearing the timer that it held. A pending timer whose id is no
    longer the stored one can therefore not be cleared by any event: it
    stays pending until it fires, and when it fires it closes the submenu
    that is open at that time. *)
Theorem superseded_timer_is_never_cleared (items : list Item) (st : State)
    (evs : list Event) (id : nat) :
  fresh_inv st ->
  In id (pending st) ->
  submenuTimeoutRef st <> Some id ->
  forallb (fun ev => negb (is_timer id ev)) evs = true ->
  let st' := fst (run items st evs) in
  In id (pending st')
  /\ activeSubmenu (fst (step items st' (TimerFires id))) = None.
Proof.
  intros Hinv Hin Href Hevs st'.
  assert (H : fresh_inv st' /\ In id (pending st')
              /\ submenuTimeoutRef st' <> Some id).
  { unfold st'. clear st'. revert st Hinv Hin Href.
    induction evs as [|ev evs IH]; intros st Hinv Hin Href;
      [simpl; auto|].
    simpl in Hevs. apply andb_true_iff in Hevs as [Hev Hevs].
    apply negb_true_iff in Hev.
    destruct (menu_step_superseded items st ev id Hinv Hin Href Hev)
      as (H1 & H2 & H3).
    rewrite menu_run_cons. cbn [fst]. apply IH; assumption. }
  destruct H as (_ & Hin' & _). split; [exact Hin'|].
  simpl.
  assert (He : existsb (Nat.eqb id) (pending st') = true).
  { apply existsb_exists. exists id. split; [assumption | apply Nat.eqb_refl]. }
  rewrite He. reflexivity.
Qed.

End Menu.

(** ** The further theorems at concrete inputs *)
Section Instances.

(** X1 at an input: formatTime at 3725 seconds: 1h 2m. *)
Lemma formatTime_witness :
  0 < 3725 < 2 ^ 53
  /\ PrintStatus.formatTime (Some 3725) = Some "1h 2m"
  /\ exists hours mins,
       0 <= hours /\ 0 <= mins < 60
       /\ 3600 * hours + 60 * mins <= 3725 < 3600 * hours + 60 * mins + 60
       /\ PrintStatus.formatTime_label (Some 3725)
          = Some (if Z.leb 3600 3725 then PrintStatus.HoursMinutes hours mins
                  else PrintStatus.Minutes mins)
       /\ PrintStatus.formatTime (Some 3725)
          = Some (if Z.leb 3600 3725
                  then JsText.decimal hours ++ "h " ++ JsText.decimal mins ++ "m"
                  else JsText.decimal mins ++ "m")
       /\ (3725 < 3600 -> hours = 0).
Proof.
  split; [lia|]. split; [reflexivity|].
  exact (formatTime_rounds_down_to_the_minute 3725 ltac:(lia)).
Defined.

(** X2 at an input: hexToRgb at the green 00AE42 with an alpha pair: rgb(128, 174, 66). *)
Lemma hexToRgb_witness :
  JsText.radix_digit 16 "0" = Some 0
  /\ AMSTrayButton.hexToRgb_channels "00AE42FF" = (128, 174, 66)
  /\ AMSTrayButton.hexToRgb "#00AE42FF" = "rgb(128, 174, 66)".
Proof.
  split; [reflexivity|].
  split; [|reflexivity].
  exact (proj1 (hexToRgb_of_hex_digits "0" "0" "A" "E" "4" "2"
                  0 0 10 14 4 2 "FF"
                  eq_refl eq_refl eq_refl eq_refl eq_refl eq_refl)).
Defined.

(** X6 at an input: a report of unit 1 with tray 2; a click on its button,
    then Load. *)
Lemma tray_click_witness :
  isConnected (Some (Scenario.report (JNum 1) (JNum 2))) = true
  /\ In (Scenario.pla_unit (JNum 1) (JNum 2), Scenario.pla_tray (JNum 2))
       (AMSTrayButton.buttons (Some (Scenario.report (JNum 1) (JNum 2))))
  /\ AMSTrayButton.isEmpty (Scenario.pla_tray (JNum 2)) = false
  /\ AMSTrayButton.onClick (Some (Scenario.report (JNum 1) (JNum 2))) None
       (Scenario.pla_unit (JNum 1) (JNum 2)) (Scenario.pla_tray (JNum 2))
     = Some (Some (AMSTrayButton.IdNumber 6))
  /\ AMSTrayButton.handleLoad 1 (Some (Scenario.report (JNum 1) (JNum 2)))
       (Some (AMSTrayButton.IdNumber 6)) false false
     = Some [{| printerId := 1; command := amsLoadFilament 6;
                confirm_token := None |}].
Proof.
  split; [reflexivity|]. split; [left; reflexivity|]. split; [reflexivity|].
  destruct (tray_click_then_load 1 (Some (Scenario.report (JNum 1) (JNum 2)))
              (Scenario.pla_unit (JNum 1) (JNum 2)) (Scenario.pla_tray (JNum 2))
              1 2 eq_refl eq_refl (or_introl eq_refl) eq_refl eq_refl
              eq_refl eq_refl eq_refl eq_refl)
    as (H1 & H2 & _).
  split; [exact H1 | exact H2].
Defined.

(** X5 at an input: a report whose second unit is null. *)
Lemma bad_unit_witness :
  In JNull [JObj [("id", JNum 0); ("tray", JArr [JObj []])]; JNull]
  /\ AMSPanel.parseUnit JNull = None
  /\ AMSPanel.parseAMSData (Some Scenario.broken_report) = [].
Proof.
  split; [right; left; reflexivity|]. split; [reflexivity|].
  refine (proj1 (one_bad_unit_hides_every_unit Scenario.broken_report
                   _ _ JNull eq_refl eq_refl _ eq_refl)).
  right; left; reflexivity.
Defined.

(** X7 at an input: Z- by 50 mm, challenged and confirmed. *)
Lemma movement_offer_witness :
  MovementAnswers.answered [] MovementControls.initial Scenario.jog_and_confirm
  = true
  /\ snd (MovementControls.run MovementControls.initial Scenario.jog_and_confirm)
     = [{| printerId := 1; command := moveAxis "Z" (-50) 3000;
           confirm_token := None |};
        {| printerId := 1; command := moveAxis "Z" (-50) 3000;
           confirm_token := Some "T1" |}]
  /\ forallb MovementAnswers.offered
       (snd (MovementControls.run MovementControls.initial
               Scenario.jog_and_confirm)) = true.
Proof.
  split; [reflexivity|]. split; [reflexivity|].
  exact (movement_sends_only_what_the_buttons_offer Scenario.jog_and_confirm
           eq_refl).
Defined.

(** X9 at an input: bed + from 100 degrees, challenged and confirmed. *)
Lemma temperature_limits_witness :
  TemperatureAnswers.answered [] TemperaturePanel.initial
    Scenario.heat_and_confirm = true
  /\ snd (TemperaturePanel.run TemperaturePanel.initial Scenario.heat_and_confirm)
     = [{| printerId := 1; command := setBedTemperature 105;
           confirm_token := None |};
        {| printerId := 1; command := setBedTemperature 105;
           confirm_token := Some "T1" |}]
  /\ forallb TemperaturePanel.within_limits
       (snd (TemperaturePanel.run TemperaturePanel.initial
               Scenario.heat_and_confirm)) = true.
Proof.
  split; [reflexivity|]. split; [reflexivity|].
  exact (temperature_never_exceeds_the_limits Scenario.heat_and_confirm eq_refl).
Defined.

(** X11 at an input: the ABS preset on a printer with one nozzle. *)
Lemma preset_witness :
  isConnected (Some Sample.hot) = true
  /\ snd (TemperaturePanel.step (Sample.temperature_env (Some Sample.hot))
            TemperaturePanel.initial
            (TemperaturePanel.ClickPreset
               {| TemperaturePanel.name := "ABS";
                  TemperaturePanel.preset_bed := 90;
                  TemperaturePanel.preset_nozzle := 260 |}))
     = [{| printerId := 1; command := setBedTemperature 90;
           confirm_token := None |};
        {| printerId := 1; command := setNozzleTemperature 260 0;
           confirm_token := None |}].
Proof.
  split; [reflexivity|].
  refine (f_equal snd (preset_sets_every_rendered_heater
                         (Sample.temperature_env (Some Sample.hot))
                         TemperaturePanel.initial
                         {| TemperaturePanel.name := "ABS";
                            TemperaturePanel.preset_bed := 90;
                            TemperaturePanel.preset_nozzle := 260 |}
                         _ eq_refl)).
  right; right; right; left; reflexivity.
Defined.

(** X12 at an input: the auxiliary fan dragged to 50. *)
Lemma fan_scale_witness :
  FanPanel.all_possible 1 [] FanPanel.initial Scenario.drag_aux_to_50 = true
  /\ snd (FanPanel.run 1 FanPanel.initial Scenario.drag_aux_to_50)
     = [{| printerId := 1; command := setAuxFan 50; confirm_token := None |}]
  /\ forallb FanPanel.fan_on_scale
       (snd (FanPanel.run 1 FanPanel.initial Scenario.drag_aux_to_50)) = true.
Proof.
  split; [reflexivity|]. split; [reflexivity|].
  exact (fan_requests_stay_on_the_scale 1 Scenario.drag_aux_to_50 eq_refl).
Defined.

(** X13 at an input: the part fan dragged from 100 to 40, and released again after the
    answer. *)
Lemma fan_release_witness :
  isConnected (Some Sample.hot) = true
  /\ 40 <> FanPanel.fanValues FanPanel.initial FanControls.Part
  /\ snd (FanPanel.run 1 FanPanel.initial
            [(Some Sample.hot, FanPanel.MouseDown FanControls.Part);
             (Some Sample.hot, FanPanel.Change FanControls.Part 40);
             (Some Sample.hot, FanPanel.MouseUp FanControls.Part)])
     = [FanControls.mutate 1 FanControls.Part 40].
Proof.
  split; [reflexivity|]. split; [discriminate|].
  refine (proj1 (fan_release_after_success_sends_nothing 1 (Some Sample.hot)
                   FanPanel.initial FanControls.Part 40 eq_refl _)).
  discriminate.
Defined.

(** X14 at an input: three clicks on the light button while it shows on. *)
Lemma light_witness :
  forallb LightSwitch.is_click Scenario.three_clicks = true
  /\ snd (LightSwitch.run 1 true Scenario.three_clicks)
     = [{| printerId := 1; command := setChamberLight false;
           confirm_token := None |};
        {| printerId := 1; command := setChamberLight false;
           confirm_token := None |}]
  /\ fst (LightSwitch.run 1 true Scenario.three_clicks) = true.
Proof.
  split; [reflexivity|]. split; [reflexivity|].
  exact (proj1 (light_clicks_ask_for_the_same_value 1 true
                  Scenario.three_clicks eq_refl)).
Defined.


(** X17 at an input: the query string printer=abc: the first printer is selected. *)
Lemma first_printer_witness :
  JsText.parseInt "abc" 10 = None
  /\ PrinterTabs.selectedPrinterId
       (PrinterTabs.effect (Some Scenario.printers)
          (PrinterTabs.initial (Some "abc"))) = Some 3.
Proof.
  split; [reflexivity|].
  exact (proj1 (first_printer_by_default
                  {| PrinterTabs.id := 3; PrinterTabs.name := "X1C";
                     PrinterTabs.nozzle_count := 1 |}
                  [Scenario.h2d] Scenario.statuses (Some "abc")
                  (or_intror eq_refl))).
Defined.

(** X18 at an input: the tab of printer 7, whose status says connected. *)
Lemma panels_witness :
  In Scenario.h2d Scenario.printers
  /\ PrinterTabs.id Scenario.h2d <> 0
  /\ JsNumber.isSafeInteger (PrinterTabs.id Scenario.h2d) = true
  /\ exists st q status,
       PrinterTabs.handlePrinterSelect (PrinterTabs.id Scenario.h2d) = Some st
       /\ PrinterTabs.panels (Some Scenario.printers) Scenario.statuses
            (PrinterTabs.effect (Some Scenario.printers) st)
          = Some (q, status)
       /\ PrinterTabs.id q = PrinterTabs.id Scenario.h2d
       /\ isConnected status
          = PrinterTabs.tab_isConnected Scenario.statuses Scenario.h2d.
Proof.
  split; [right; left; reflexivity|]. split; [discriminate|].
  split; [reflexivity|].
  refine (panels_agree_with_the_tab Scenario.printers Scenario.statuses
            Scenario.h2d _ _ eq_refl).
  - right; left; reflexivity.
  - discriminate.
Defined.

(** X15 at an input: the tab of printer 7 is clicked; the query string
    reads printer=7. *)
Lemma tab_click_survives_witness :
  JsNumber.isSafeInteger 7 = true
  /\ PrinterTabs.handlePrinterSelect 7
     = Some {| PrinterTabs.selectedPrinterId := Some 7;
               PrinterTabs.printerParam := Some "7" |}
  /\ exists st param,
       PrinterTabs.handlePrinterSelect 7 = Some st
       /\ PrinterTabs.printerParam st = Some param
       /\ JsText.parseInt param 10 = Some 7
       /\ PrinterTabs.effect (Some Scenario.printers) st = st
       /\ PrinterTabs.selectedPrinterId
            (PrinterTabs.effect (Some Scenario.printers) st)
          = Some 7.
Proof.
  split; [reflexivity|]. split; [reflexivity|].
  exact (tab_click_survives_the_effect (Some Scenario.printers) 7 eq_refl).
Defined.

(** X19 at an input: retry and Refresh after a failed start of the stream. *)
Lemma camera_witness :
  is_Some (CameraFeed.error Scenario.failed_stream)
  /\ forallb (fun ev => negb (CameraFeed.is_toggle ev)) Scenario.retries = true
  /\ CameraFeed.error (CameraFeed.run Scenario.failed_stream Scenario.retries)
     = Some "Failed to load camera stream"
  /\ CameraFeed.isLoading (CameraFeed.run Scenario.failed_stream Scenario.retries)
     = true
  /\ CameraFeed.img_rendered
       (CameraFeed.run Scenario.failed_stream Scenario.retries) = false.
Proof.
  split; [eexists; reflexivity|]. split; [reflexivity|].
  split; [reflexivity|]. split; [reflexivity|].
  exact (proj1 (proj2 (camera_retry_never_clears_the_error
                         Scenario.failed_stream Scenario.retries
                         (ex_intro _ _ eq_refl) eq_refl))).
Defined.

(** X20 at an input: the stored mapping [4, -1, 2]: slot 3 is mapped to tray 2, slot 2 is
    not mapped. *)
Lemma manualMappings_witness :
  PrintModal.item_ams_mapping Scenario.queue_item = Some [4; -1; 2]
  /\ PrintModal.manualMappings
       (PrintModal.initial Scenario.print_options Scenario.schedule_options
          Scenario.never_placeholder Scenario.same_text
          PrintModal.EditQueueItem (Some Scenario.queue_item))
     !! 3 = Some 2.
Proof.
  split; [reflexivity|].
  refine (proj2 (manualMappings_of_queue_item Scenario.print_options
                   Scenario.schedule_options Scenario.never_placeholder
                   Scenario.same_text Scenario.queue_item [4; -1; 2] 3 2
                   eq_refl) _).
  split; [lia|]. split; [reflexivity | lia].
Defined.



(** X22 at an input: the queue item 12, whose plate is 1, opened on an
    archive with a single plate and saved. *)
Lemma edit_and_save_witness :
  (forall t,
      PrintModal.item_scheduled_time Scenario.queue_item = Some t ->
      PrintModal.has_schedule Scenario.never_placeholder Scenario.queue_item
      = true ->
      Scenario.always_a_date t = false
      /\ Scenario.always_a_date (Scenario.same_text t) = false)
  /\ exists opened data,
       PrintModal.mount Scenario.print_options Scenario.schedule_options
         Scenario.never_placeholder Scenario.same_text Scenario.always_a_date
         PrintModal.EditQueueItem (Some Scenario.queue_item) = Some opened
       /\ PrintModal.submit Scenario.same_text Scenario.always_a_date unit
            PrintModal.EditQueueItem 9 (Some Scenario.queue_item) tt
            (fold_left
               (fun st d =>
                  PrintModal.effects PrintModal.EditQueueItem (fst d) (snd d) st)
               [(None, Some Scenario.single_plate)] opened)
          = Some [PrintModal.updateQueueItem 12 data]
       /\ PrintModal.printer_id data = Some 3
       /\ PrintModal.plate_id data = Some 1
       /\ PrintModal.manual_start data = true
       /\ PrintModal.scheduled_time data = None.
Proof.
  assert (Hdate : forall t,
             PrintModal.item_scheduled_time Scenario.queue_item = Some t ->
             PrintModal.has_schedule Scenario.never_placeholder
               Scenario.queue_item = true ->
             Scenario.always_a_date t = false
             /\ Scenario.always_a_date (Scenario.same_text t) = false)
    by (intros t _ _; split; reflexivity).
  split; [exact Hdate|].
  destruct (edit_and_save_unchanged Scenario.print_options
              Scenario.schedule_options Scenario.never_placeholder
              Scenario.same_text Scenario.same_text Scenario.always_a_date
              unit 9 Scenario.queue_item tt
              [(None, Some Scenario.single_plate)] Hdate)
    as (opened & data & H1 & H2 & H3 & H4 & _ & H6 & _ & _ & _ & _ & _ & _
        & _ & H14).
  exists opened, data.
  split; [exact H1|]. split; [exact H2|]. split; [exact H3|].
  split; [exact (H4 eq_refl)|]. split; [exact H6 | exact H14].
Defined.

(** X23 at an input: a single inactive printer in the add-to-queue mode. *)
Lemma inactive_printer_witness :
  PrinterSelector.is_active Scenario.inactive_printer = false
  /\ PrinterSelector.id Scenario.inactive_printer <> 0
  /\ PrinterSelector.selectable
       (PrinterSelector.render [Scenario.inactive_printer] false false) = []
  /\ PrintModal.selectedPrinter
       (PrintModal.autoSelectPrinter PrintModal.AddToQueue
          (Some [Scenario.inactive_printer])
          (PrintModal.initial Scenario.print_options Scenario.schedule_options
             Scenario.never_placeholder Scenario.same_text
             PrintModal.AddToQueue None)) = Some 5.
Proof.
  split; [reflexivity|]. split; [discriminate|].
  pose proof (sole_inactive_printer_is_auto_selected Scenario.print_options
                Scenario.schedule_options Scenario.never_placeholder
                Scenario.same_text Scenario.same_text unit 9 tt
                Scenario.inactive_printer None eq_refl
                ltac:(discriminate) eq_refl) as H.
  split; [exact (proj1 H) | exact (proj1 (proj2 H))].
Defined.

(** X26 at an input: the spelling 'eur' of EUR. *)
Lemma label_witness :
  In {| Currency.code := "EUR"; Currency.label := "EUR (€)" |}
     Currency.SUPPORTED_CURRENCIES
  /\ Currency.toUpperCase "eur" = "EUR"
  /\ Currency.getCurrencySymbol "eur" = "€"
  /\ "EUR (€)" = "EUR" ++ " (" ++ Currency.getCurrencySymbol "eur" ++ ")".
Proof.
  split; [right; left; reflexivity|]. split; [reflexivity|].
  split; [reflexivity|].
  refine (proj1 (label_shows_the_symbol
                   {| Currency.code := "EUR"; Currency.label := "EUR (€)" |}
                   "eur" _ eq_refl)).
  right; left; reflexivity.
Defined.

(** X28 at an input: the pointer left the submenu and its item at once: timer 1 is
    superseded by timer 2; entering the item again clears timer 2 only. *)
Lemma superseded_timer_witness :
  ContextMenu.pending Scenario.left_twice = [2%nat; 1%nat]
  /\ ContextMenu.submenuTimeoutRef Scenario.left_twice = Some 2%nat
  /\ In 1%nat
       (ContextMenu.pending
          (fst (ContextMenu.run Scenario.menu Scenario.left_twice
                  [ContextMenu.MouseEnterItem 1])))
  /\ ContextMenu.activeSubmenu
       (fst (ContextMenu.step Scenario.menu
               (fst (ContextMenu.run Scenario.menu Scenario.left_twice
                       [ContextMenu.MouseEnterItem 1]))
               (ContextMenu.TimerFires 1))) = None.
Proof.
  split; [reflexivity|]. split; [reflexivity|].
  refine (superseded_timer_is_never_cleared Scenario.menu Scenario.left_twice
            [ContextMenu.MouseEnterItem 1] 1%nat _ _ _ eq_refl).
  - split.
    + intros id [<- | [<- | []]]; vm_compute; lia.
    + intros id [= <-]. vm_compute. lia.
  - right; left; reflexivity.
  - discriminate.
Defined.

(** X29 at an input: printers 3 and 7, the call for 7 completes first and the call
    for 3 fails. *)
Lemma statuses_witness :
  List.NoDup (map PrinterTabs.id Scenario.printers)
  /\ Permutation (rev Scenario.printers) Scenario.printers
  /\ StatusQuery.queryFn (Some Scenario.printers)
       (fun p => if Z.eqb (PrinterTabs.id p) 7 then Some Sample.hot else None)
       (rev Scenario.printers) !! 7 = Some Sample.hot
  /\ StatusQuery.queryFn (Some Scenario.printers)
       (fun p => if Z.eqb (PrinterTabs.id p) 7 then Some Sample.hot else None)
       (rev Scenario.printers) !! 3 = None.
Proof.
  assert (Hnd : List.NoDup (map PrinterTabs.id Scenario.printers)).
  { simpl. repeat constructor; simpl; intuition discriminate. }
  assert (Hp : Permutation (rev Scenario.printers) Scenario.printers)
    by (symmetry; apply Permutation_rev).
  split; [exact Hnd|]. split; [exact Hp|].
  pose proof (proj1 (statuses_do_not_depend_on_the_completion_order
                       Scenario.printers (rev Scenario.printers)
                       (fun p => if Z.eqb (PrinterTabs.id p) 7
                                 then Some Sample.hot else None)
                       Hnd Hp)) as H.
  split.
  - exact (H Scenario.h2d (or_intror (or_introl eq_refl))).
  - refine (H {| PrinterTabs.id := 3; PrinterTabs.name := "X1C";
                 PrinterTabs.nozzle_count := 1 |} (or_introl eq_refl)).
Defined.

End Instances.
